(** * A section browser for single-page PDF files: model of [web.py]

    The program reads a manifest of named page ranges, lets the user pick a
    section (or a nested sub-section), and shows every page of the selection
    as an image together with its extracted text.

    Python values are modelled as follows.
    - [int] is [Z] (unbounded); a list built from a range has a bounded
      length ([sys.maxsize], and the memory of the machine).
    - [str] is a list of Unicode code points ([pystr]); [bytes] is a list of
      [Byte.byte].
    - A section is a record with the three keys of the source's dict.
    - [st.session_state] is a finite map from keys to values.
    - Exceptions, the session state and the calls made to Streamlit, to the
      file system and to PyMuPDF are threaded through a small monad [M].

    The file system and the PDF library are the same during a run. A call
    of Streamlit returns, and what it shows is recorded as an event; the one
    exception is a widget created twice with the same arguments and no key,
    which raises: the text areas of the second loop. Paths are joined as
    [posixpath] does. *)

From Stdlib Require Import ZArith NArith List Ascii String Strings.Byte Sorted Lia.
From Stdlib Require Import Floats.PrimFloat.
From Stdlib Require DecimalPos DecimalN.
From stdpp Require Import base option list gmap.

Local Open Scope Z_scope.

(** ** Python strings *)

Module PyStr.

(** A character is its code point, a string the list of its characters. *)
Abbreviation pychar := N.
Abbreviation pystr := (list N).

(** Reading a literal of this file (UTF-8 bytes) as a Python string. *)
Fixpoint utf8_decode (bs : list N) : pystr :=
  match bs with
  | [] => []
  | b0 :: r0 =>
    if (b0 <? 0x80)%N then b0 :: utf8_decode r0
    else if (b0 <? 0xE0)%N then
      match r0 with
      | b1 :: r1 => ((b0 - 0xC0) * 64 + (b1 - 0x80))%N :: utf8_decode r1
      | _ => []
      end
    else if (b0 <? 0xF0)%N then
      match r0 with
      | b1 :: b2 :: r2 =>
        ((b0 - 0xE0) * 4096 + (b1 - 0x80) * 64 + (b2 - 0x80))%N :: utf8_decode r2
      | _ => []
      end
    else
      match r0 with
      | b1 :: b2 :: b3 :: r3 =>
        ((b0 - 0xF0) * 262144 + (b1 - 0x80) * 4096 + (b2 - 0x80) * 64 + (b3 - 0x80))%N
          :: utf8_decode r3
      | _ => []
      end
  end.

Definition py (s : string) : pystr :=
  utf8_decode (map N_of_ascii (list_ascii_of_string s)).
Arguments py s%_string.

(** [str.isspace] on one character: the white-space table of CPython
    ([_PyUnicode_IsWhitespace]). *)
Definition Py_UNICODE_ISSPACE (c : pychar) : bool :=
  ((0x9 <=? c) && (c <=? 0xD) || (0x1C <=? c) && (c <=? 0x20)
   || (c =? 0x85) || (c =? 0xA0) || (c =? 0x1680)
   || (0x2000 <=? c) && (c <=? 0x200A)
   || (c =? 0x2028) || (c =? 0x2029) || (c =? 0x202F) || (c =? 0x205F)
   || (c =? 0x3000))%N.

(** [s.lstrip()], [s.rstrip()] and [s.strip()] without argument. *)
Fixpoint lstrip (s : pystr) : pystr :=
  match s with
  | c :: r => if Py_UNICODE_ISSPACE c then lstrip r else s
  | [] => []
  end.

Definition rstrip (s : pystr) : pystr := rev (lstrip (rev s)).

Definition strip (s : pystr) : pystr := rstrip (lstrip s).

(** [s.split(sep)] for a separator of one character: every occurrence of
    the separator ends a field, empty fields are kept. *)
Fixpoint split (sep : pychar) (s : pystr) : list pystr :=
  match s with
  | [] => [[]]
  | c :: r =>
    if (c =? sep)%N then [] :: split sep r
    else match split sep r with
         | f :: fs => (c :: f) :: fs
         | [] => [[c]]
         end
  end.

(** [s[:stop]] for a stop that is not negative. *)
Definition slice_to (stop : N) (s : pystr) : pystr := take (N.to_nat stop) s.
Global Arguments slice_to : simpl never.

(** [s.startswith(prefix)]. *)
Fixpoint startswith (s prefix : pystr) : bool :=
  match prefix, s with
  | [], _ => true
  | p :: ps, c :: r => (c =? p)%N && startswith r ps
  | _ :: _, [] => false
  end.

(** *** [int(s)]

    CPython first maps the string to ASCII
    ([_PyUnicode_TransformDecimalAndSpaceToASCII]): characters below 127 are
    kept, other white space becomes a blank, other decimal digits become
    ['0'..'9'], and anything else makes the conversion fail. The decimal
    digits are the characters of category Nd (Unicode 14.0, CPython 3.11):
    runs that start at a digit zero. *)
Definition unicode_decimal_runs : list (N * N) :=
  [ (0x30, 10); (0x660, 10); (0x6F0, 10); (0x7C0, 10); (0x966, 10);
    (0x9E6, 10); (0xA66, 10); (0xAE6, 10); (0xB66, 10); (0xBE6, 10);
    (0xC66, 10); (0xCE6, 10); (0xD66, 10); (0xDE6, 10); (0xE50, 10);
    (0xED0, 10); (0xF20, 10); (0x1040, 10); (0x1090, 10); (0x17E0, 10);
    (0x1810, 10); (0x1946, 10); (0x19D0, 10); (0x1A80, 10); (0x1A90, 10);
    (0x1B50, 10); (0x1BB0, 10); (0x1C40, 10); (0x1C50, 10); (0xA620, 10);
    (0xA8D0, 10); (0xA900, 10); (0xA9D0, 10); (0xA9F0, 10); (0xAA50, 10);
    (0xABF0, 10); (0xFF10, 10); (0x104A0, 10); (0x10D30, 10); (0x11066, 10);
    (0x110F0, 10); (0x11136, 10); (0x111D0, 10); (0x112F0, 10); (0x11450, 10);
    (0x114D0, 10); (0x11650, 10); (0x116C0, 10); (0x11730, 10); (0x118E0, 10);
    (0x11950, 10); (0x11C50, 10); (0x11D50, 10); (0x11DA0, 10); (0x16A60, 10);
    (0x16AC0, 10); (0x16B50, 10); (0x1D7CE, 50); (0x1E140, 10); (0x1E2F0, 10);
    (0x1E950, 10); (0x1FBF0, 10) ]%N.

Definition Py_UNICODE_TODECIMAL (c : pychar) : option N :=
  match find (fun r => (fst r <=? c) && (c <? fst r + snd r))%N unicode_decimal_runs with
  | Some r => Some ((c - fst r) mod 10)%N
  | None => None
  end.

Definition transform_char (c : pychar) : option pychar :=
  if (c <? 127)%N then Some c
  else if Py_UNICODE_ISSPACE c then Some 0x20%N
  else match Py_UNICODE_TODECIMAL c with
       | Some d => Some (0x30 + d)%N
       | None => None
       end.

Fixpoint transform_decimal_and_space_to_ascii (s : pystr) : option pystr :=
  match s with
  | [] => Some []
  | c :: r =>
    match transform_char c, transform_decimal_and_space_to_ascii r with
    | Some a, Some r' => Some (a :: r')
    | _, _ => None
    end
  end.

(** The ASCII parser ([PyLong_FromString] in base 10). *)
Definition Py_ISSPACE (c : pychar) : bool :=
  ((0x9 <=? c) && (c <=? 0xD) || (c =? 0x20))%N.

Definition digit_value (c : pychar) : option Z :=
  if ((0x30 <=? c) && (c <=? 0x39))%N then Some (Z.of_N c - 0x30) else None.

Definition underscore : pychar := 0x5F%N.

(** Scanning the digits: one underscore is allowed between two digits.
    Returns the value, the number of digits and the rest of the input. *)
Fixpoint scan_digits (prev_underscore : bool) (acc : Z) (digits : N) (s : pystr)
  : option (Z * N * pystr) :=
  match s with
  | [] => if prev_underscore then None else Some (acc, digits, [])
  | c :: r =>
    if (c =? underscore)%N then
      if prev_underscore then None else scan_digits true acc digits r
    else
      match digit_value c with
      | Some d => scan_digits false (10 * acc + d) (digits + 1)%N r
      | None => if prev_underscore then None else Some (acc, digits, s)
      end
  end.

Fixpoint skip_spaces (s : pystr) : pystr :=
  match s with
  | c :: r => if Py_ISSPACE c then skip_spaces r else s
  | [] => []
  end.

(** Default of [sys.get_int_max_str_digits()]. *)
Definition int_max_str_digits : N := 4300%N.

Definition long_from_string (s : pystr) : option Z :=
  let s1 := skip_spaces s in
  let '(sign, s2) :=
    match s1 with
    | c :: r => if (c =? 0x2B)%N then (1, r)
                else if (c =? 0x2D)%N then (-1, r) else (1, s1)
    | [] => (1, s1)
    end in
  match s2 with
  | c :: _ =>
    if (c =? underscore)%N then None
    else
      match scan_digits false 0 0%N s2 with
      | Some (v, digits, rest) =>
        if (digits =? 0)%N then None
        else if (int_max_str_digits <? digits)%N then None
        else match skip_spaces rest with
             | [] => Some (sign * v)
             | _ :: _ => None
             end
      | None => None
      end
  | [] => None
  end.

(** [int(s)]: [None] stands for [ValueError]. *)
Definition int (s : pystr) : option Z :=
  match transform_decimal_and_space_to_ascii s with
  | Some a => long_from_string a
  | None => None
  end.


(** *** Formatting integers *)

Fixpoint digits_of_uint (u : Decimal.uint) : pystr :=
  match u with
  | Decimal.Nil => []
  | Decimal.D0 r => 0x30%N :: digits_of_uint r
  | Decimal.D1 r => 0x31%N :: digits_of_uint r
  | Decimal.D2 r => 0x32%N :: digits_of_uint r
  | Decimal.D3 r => 0x33%N :: digits_of_uint r
  | Decimal.D4 r => 0x34%N :: digits_of_uint r
  | Decimal.D5 r => 0x35%N :: digits_of_uint r
  | Decimal.D6 r => 0x36%N :: digits_of_uint r
  | Decimal.D7 r => 0x37%N :: digits_of_uint r
  | Decimal.D8 r => 0x38%N :: digits_of_uint r
  | Decimal.D9 r => 0x39%N :: digits_of_uint r
  end.

(** The decimal digits of [|n|], without leading zeros. *)
Definition digits_of_abs (n : Z) : pystr := digits_of_uint (N.to_uint (Z.abs_N n)).

Definition minus_sign : pychar := 0x2D%N.

(** [str(n)], also what [f"{n}"] inserts. *)
Definition str_of_int (n : Z) : pystr :=
  if n <? 0 then minus_sign :: digits_of_abs n else digits_of_abs n.

(** [f"{n:03}"]: zeros are inserted after the sign up to a total width
    of three characters. *)
Definition format_03 (n : Z) : pystr :=
  let sign := if n <? 0 then [minus_sign] else [] in
  let digits := digits_of_abs n in
  sign ++ repeat 0x30%N (3 - length sign - length digits) ++ digits.

(** [os.path.join(a, b)] of [posixpath]. *)
Definition endswith_sep (a : pystr) : bool :=
  match last a with Some c => (c =? 0x2F)%N | None => false end.

Definition os_path_join (a b : pystr) : pystr :=
  if startswith b [0x2F%N] then b
  else if bool_decide (a = []) || endswith_sep a then a ++ b
  else a ++ 0x2F%N :: b.

(** [s.encode('utf-8')]: [None] stands for [UnicodeEncodeError], raised
    on surrogates. *)
Definition byte_of (n : N) : byte :=
  match Byte.of_N n with Some b => b | None => x00 end.

Definition encode_char (c : pychar) : option (list byte) :=
  if (c <? 0x80)%N then Some [byte_of c]
  else if (c <? 0x800)%N then
    Some [byte_of (0xC0 + c / 64); byte_of (0x80 + c mod 64)]
  else if ((0xD800 <=? c) && (c <=? 0xDFFF))%N then None
  else if (c <? 0x10000)%N then
    Some [byte_of (0xE0 + c / 4096); byte_of (0x80 + (c / 64) mod 64);
          byte_of (0x80 + c mod 64)]
  else
    Some [byte_of (0xF0 + c / 262144); byte_of (0x80 + (c / 4096) mod 64);
          byte_of (0x80 + (c / 64) mod 64); byte_of (0x80 + c mod 64)].

Fixpoint encode_utf8 (s : pystr) : option (list byte) :=
  match s with
  | [] => Some []
  | c :: r =>
    match encode_char c, encode_utf8 r with
    | Some b, Some bs => Some (b ++ bs)
    | _, _ => None
    end
  end.

End PyStr.
Import PyStr.

(** ** Values, exceptions and effects *)

Abbreviation bytes := (list byte).

(** The values a session-state field can hold. *)
Inductive pyval :=
| PyNone
| PyBool (b : bool)
| PyInt (n : Z)
| PyFloat (x : float)
| PyStr (s : pystr).

(** [st.session_state]. *)
Abbreviation session_state := (gmap pystr pyval).

(** The exceptions of the program, all subclasses of [Exception]. *)
Inductive exn :=
| FileNotFoundError
| ValueError
| NameError
| AttributeError
| TypeError
| UnicodeEncodeError
| OverflowError
| MemoryError
| StreamlitDuplicateElementId
| OtherException (what : pystr).

Inductive result (A : Type) :=
| Ok (a : A)
| Raise (e : exn).
Arguments Ok {A} a.
Arguments Raise {A} e.

(** The texts shown by [st.error] and [st.warning], by their template and
    the values inserted in it. *)
Inductive message :=
| PageOutOfRange (shown_page : Z) (pdf_path : pystr)
| PdfOpenError (pdf_path : pystr) (e : exn)
| PdfConvertError (pdf_path : pystr) (e : exn)
| InvalidLineSkipped (line : pystr)
| ManifestNotFound (file_path : pystr)
| ManifestReadError (file_path : pystr) (e : exn)
| NoValidSections
| SectionNotFound
| PdfFileMissing (pdf_filename data_dir : pystr)
| CannotShowImage
| PageDisplayError (e : exn)
| PdfDownloadError (e : exn)
| TextDownloadError (e : exn).

(** What the program does to the outside: calls of Streamlit, of the file
    system and of PyMuPDF, in the order they are made. The two [call_]
    events record the arguments with which the page functions of this
    program are entered. *)
Inductive event :=
| st_error (m : message)
| st_warning (m : message)
| st_set_page_config (page_title : pystr)
| st_title (body : pystr)
| st_header (body : pystr)
| st_sidebar_header (body : pystr)
| st_sidebar_selectbox (label : pystr) (options : list pystr)
| st_sidebar_checkbox (label : pystr)
| st_sidebar_slider (label : pystr)
| st_sidebar_expander (label : pystr)
| st_image (image : bytes) (caption : pystr)
| st_markdown (body : pystr)
| st_text_area (label value : pystr)
| st_columns (n : Z)
| st_download_button (label : pystr) (data : bytes) (file_name mime : pystr)
| os_path_isfile (path : pystr)
| open_file (path mode : pystr)
| fitz_open (path : pystr)
| doc_load_page (page_number : Z)
| call_pymupdf_parse_page (pdf_path : pystr) (page_number : Z)
| call_pymupdf_render_page_as_image (pdf_path : pystr) (page_number : Z) (zoom : float).

(** *** The monad

    A computation starts from a session state and gives a value or an
    exception, the session state it leaves and the events it emitted. *)
Record outcome (A : Type) := Outcome {
  value : result A;
  state_after : session_state;
  emitted : list event
}.
Arguments Outcome {A} value state_after emitted.
Arguments value {A} o.
Arguments state_after {A} o.
Arguments emitted {A} o.

Definition M (A : Type) : Type := session_state -> outcome A.

Definition ret {A} (a : A) : M A := fun ss => Outcome (Ok a) ss [].

Definition raise {A} (e : exn) : M A := fun ss => Outcome (Raise e) ss [].

Definition bind {A B} (m : M A) (f : A -> M B) : M B := fun ss =>
  match m ss with
  | Outcome (Ok a) ss1 t1 =>
    match f a ss1 with
    | Outcome v ss2 t2 => Outcome v ss2 (t1 ++ t2)
    end
  | Outcome (Raise e) ss1 t1 => Outcome (Raise e) ss1 t1
  end.

Definition emit (e : event) : M unit := fun ss => Outcome (Ok tt) ss [e].

(** The result of a call to the outside, made after emitting its event. *)
Definition lift {A} (r : result A) : M A := fun ss => Outcome r ss [].

(** [try: body except Exception as e: handler e]. *)
Definition try_except {A} (body : M A) (handler : exn -> M A) : M A := fun ss =>
  match body ss with
  | Outcome (Ok a) ss1 t1 => Outcome (Ok a) ss1 t1
  | Outcome (Raise e) ss1 t1 =>
    match handler e ss1 with
    | Outcome v ss2 t2 => Outcome v ss2 (t1 ++ t2)
    end
  end.

(** Running a statement and keeping its exception as a value. *)
Definition attempt {A} (m : M A) : M (result A) := fun ss =>
  match m ss with
  | Outcome v ss1 t1 => Outcome (Ok v) ss1 t1
  end.

Declare Scope py_scope.
Delimit Scope py_scope with py.
Notation "x <- m ;; k" := (bind m (fun x => k))
  (at level 100, m at next level, right associativity) : py_scope.
Notation "m ;;; k" := (bind m (fun _ => k))
  (at level 100, right associativity) : py_scope.
Local Open Scope py_scope.

(** A statement either returns from the enclosing function or goes on. *)
Inductive flow (R A : Type) :=
| Return (r : R)
| Next (a : A).
Arguments Return {R A} r.
Arguments Next {R A} a.

(** [for x in xs: body x], for a body that has no result. *)
Fixpoint for_each {A} (xs : list A) (body : A -> M unit) : M unit :=
  match xs with
  | [] => ret tt
  | x :: rest => body x ;;; for_each rest body
  end.

(** [for x in xs: body x], for a body that updates a value carried from
    round to round. *)
Fixpoint for_each_with {A S} (xs : list A) (s : S) (body : S -> A -> M S) : M S :=
  match xs with
  | [] => ret s
  | x :: rest => s' <- body s x ;; for_each_with rest s' body
  end.

(** ** Sections *)

(** The dict built for a manifest line: keys ['start'], ['end'], ['name']. *)
Record section := {
  start : Z;
  end_ : Z;
  name : pystr
}.

(** The elements of [range(lo, hi)], and their number [len(range(lo, hi))]. *)
Definition range (lo hi : Z) : list Z := seqZ lo (hi - lo).

Definition range_len (lo hi : Z) : Z := Z.max 0 (hi - lo).

(** [sys.maxsize] of a 64-bit build. *)
Definition sys_maxsize : Z := 2 ^ 63 - 1.

(** [list(range(lo, hi))]. The bounds are integers of any size, the length
    of a list is not: [list] raises [OverflowError] when the range has more
    than [sys.maxsize] elements, and [MemoryError] when it has more than
    [list_capacity] elements, the number of elements for which the machine
    can still allocate a list. This is the one allocation of the program
    whose size comes from two numbers of the manifest and not from the size
    of what was read. *)
Definition list_of_range (list_capacity lo hi : Z) : result (list Z) :=
  if sys_maxsize <? range_len lo hi then Raise OverflowError
  else if list_capacity <? range_len lo hi then Raise MemoryError
  else Ok (range lo hi).

(** [get_page_numbers]: [list(range(section['start'], section['end'] + 1))]. *)
Definition get_page_numbers (list_capacity : Z) (s : section) : result (list Z) :=
  list_of_range list_capacity (start s) (end_ s + 1).

(** [initialize_session_state]. *)
Definition total_pages_key : pystr := py "total_pages".

Definition initialize_session_state (total_pages : pyval) : M unit := fun ss =>
  match ss !! total_pages_key with
  | None => Outcome (Ok tt) (<[total_pages_key := total_pages]> ss) []
  | Some _ => Outcome (Ok tt) ss []
  end.

(** Default of the parameter [total_pages]. *)
Definition total_pages_default : pyval := PyInt 0.

(** ** The outside world *)

(** A text file opened for reading: iterating over it yields [lines] and
    then, when [failure] is given, raises it (a decoding or a read error)
    instead of ending. *)
Record text_stream := {
  lines : list pystr;
  failure : option exn
}.

(** A PyMuPDF document and its pages. *)
Record Pixmap := { tobytes_png : result bytes }.

Record Page := {
  get_text : result pystr;
  get_pixmap : float -> result Pixmap
}.

Record Document := {
  page_count : Z;
  load_page : Z -> result Page
}.

Section Program.

(** The file system and the PDF library, as the program finds them. *)
Variable open_text : pystr -> result text_stream.
Variable isfile : pystr -> bool.
Variable read_bytes : pystr -> result bytes.
Variable open_document : pystr -> result Document.

(** [str.isalnum] on one character (the Unicode table of the runtime). *)
Variable isalnum : pychar -> bool.

(** What the user enters: the index chosen in each select box (by label),
    the check box and the slider. *)
Variable selected_index : pystr -> nat.
Variable show_text_input : bool.
Variable zoom_input : float.

(** The memory of the machine: the number of elements above which the
    allocation of a list fails. *)
Variable list_capacity : Z.

(** *** [pymupdf_parse_page] *)

Definition text_limit : N := 230000%N.

Definition page_number_default : Z := 0.

Definition pymupdf_parse_page (pdf_path : pystr) (page_number : Z) : M pystr :=
  emit (call_pymupdf_parse_page pdf_path page_number) ;;;
  let text : pystr := [] in
  r <- try_except
         (emit (fitz_open pdf_path) ;;;
          file <- lift (open_document pdf_path) ;;
          if (page_number <? 0) || (page_number >=? page_count file) then
            emit (st_error (PageOutOfRange (page_number + 1) pdf_path)) ;;;
            ret (Return [])
          else
            emit (doc_load_page page_number) ;;;
            page <- lift (load_page file page_number) ;;
            t <- lift (get_text page) ;;
            ret (Next (text ++ t)))
         (fun e =>
            emit (st_error (PdfOpenError pdf_path e)) ;;;
            ret (Return [])) ;;
  match r with
  | Return v => ret v
  | Next text => ret (slice_to text_limit text)
  end.

(** *** [pymupdf_render_page_as_image] *)

Definition zoom_default : float := 1.5%float.

Definition pymupdf_render_page_as_image
    (pdf_path : pystr) (page_number : Z) (zoom : float) : M bytes :=
  emit (call_pymupdf_render_page_as_image pdf_path page_number zoom) ;;;
  try_except
    (emit (fitz_open pdf_path) ;;;
     doc <- lift (open_document pdf_path) ;;
     if (page_number <? 0) || (page_number >=? page_count doc) then
       emit (st_error (PageOutOfRange (page_number + 1) pdf_path)) ;;;
       ret []
     else
       emit (doc_load_page page_number) ;;;
       page <- lift (load_page doc page_number) ;;
       pix <- lift (get_pixmap page zoom) ;;
       img_bytes <- lift (tobytes_png pix) ;;
       ret img_bytes)
    (fun e =>
       emit (st_error (PdfConvertError pdf_path e)) ;;;
       ret []).

(** *** [parse_data_detail] *)

Definition hash : pychar := 0x23%N.

Definition int_or_raise (s : pystr) : M Z :=
  match int s with
  | Some n => ret n
  | None => raise ValueError
  end.

(** The body of the loop, for one line: the value of [sections] after it. *)
Definition parse_line (sections : list section) (line : pystr) : M (list section) :=
  let line := strip line in
  if bool_decide (line = []) then ret sections
  else
    let parts := split hash line in
    match parts with
    | part0 :: part1 :: part2 :: _ =>
      start_page <- int_or_raise part0 ;;
      end_page <- int_or_raise part1 ;;
      let name := strip part2 in
      ret (sections ++ [ {| start := start_page; end_ := end_page; name := name |} ])
    | _ =>
      (* len(parts) < 3 *)
      emit (st_warning (InvalidLineSkipped line)) ;;;
      ret sections
    end.

(** The loop over the lines: the value of [sections] when the loop is left,
    and the exception that left it, if any. *)
Fixpoint for_line_in (sections : list section) (f : list pystr)
  : M (list section * option exn) :=
  match f with
  | [] => ret (sections, None)
  | line :: rest =>
    r <- attempt (parse_line sections line) ;;
    match r with
    | Ok sections' => for_line_in sections' rest
    | Raise e => ret (sections, Some e)
    end
  end.

Definition report_read_failure (file_path : pystr) (e : exn) : M unit :=
  match e with
  | FileNotFoundError => emit (st_error (ManifestNotFound file_path))
  | _ => emit (st_error (ManifestReadError file_path e))
  end.

Definition parse_data_detail (file_path : pystr) : M (list section) :=
  emit (open_file file_path (py "r")) ;;;
  match open_text file_path with
  | Raise e => report_read_failure file_path e ;;; ret []
  | Ok f =>
    r <- for_line_in [] (lines f) ;;
    let sections := fst r in
    let raised := match snd r with Some e => Some e | None => failure f end in
    match raised with
    | Some e => report_read_failure file_path e ;;; ret sections
    | None => ret sections
    end
  end.

(** *** [main] *)

Definition data_dir : pystr := py "./data".
Definition data_detail_path : pystr := py "data_detail.txt".

(** [st.sidebar.selectbox(label, options)]: the option at the index the
    user chose, the first option when that index is not one of the list,
    [None] when there is no option. *)
Definition selectbox (label : pystr) (options : list pystr) : M (option pystr) :=
  emit (st_sidebar_selectbox label options) ;;;
  ret (match options !! selected_index label with
       | Some x => Some x
       | None => head options
       end).

Definition is_main_section (s : section) : bool :=
  startswith (name s) (py "NHỮNG QUỐC GIA") || startswith (name s) (py "XÂY DỰNG").

Definition main_sections (sections : list section) : list section :=
  List.filter is_main_section sections.

(** [next((s for s in sections if s['name'] == selected), None)], where
    [selected] may be [None]. *)
Definition find_by_name (sections : list section) (selected : option pystr)
  : option section :=
  match selected with
  | Some n => List.find (fun s => bool_decide (name s = n)) sections
  | None => None
  end.

Definition is_sub_section (selected_main_section_details s : section) : bool :=
  (start s >=? start selected_main_section_details)
  && (start s <=? end_ selected_main_section_details).

Definition sub_sections (sections : list section)
    (selected_main_section_details : section) : list section :=
  List.filter (is_sub_section selected_main_section_details) sections.

Definition pdf_filename (page_num : Z) : pystr :=
  py "page_" ++ format_03 page_num ++ py ".pdf".

Definition pdf_path (page_num : Z) : pystr :=
  os_path_join data_dir (pdf_filename page_num).

(** The body of the first loop: the page as an image in the main area. *)
Definition show_page (zoom_factor : float) (page_num : Z) : M unit :=
  emit (os_path_isfile (pdf_path page_num)) ;;;
  if negb (isfile (pdf_path page_num)) then
    emit (st_error (PdfFileMissing (pdf_filename page_num) data_dir))
  else
    try_except
      (img_bytes <- pymupdf_render_page_as_image (pdf_path page_num) 0 zoom_factor ;;
       match img_bytes with
       | _ :: _ => emit (st_image img_bytes (py "Trang " ++ str_of_int page_num))
       | [] => emit (st_error CannotShowImage)
       end)
      (fun e => emit (st_error (PageDisplayError e))) ;;;
    emit (st_markdown (py "---")).

(** Reading a local variable that is bound on one branch only. *)
Definition read_local {A} (v : option A) : M A :=
  match v with
  | Some a => ret a
  | None => raise NameError
  end.

Definition safe_char (c : pychar) : bool :=
  isalnum c || (c =? 0x20)%N || (c =? 0x5F)%N || (c =? 0x2D)%N.

Definition encode_or_raise (s : pystr) : M bytes :=
  match encode_utf8 s with
  | Some b => ret b
  | None => raise UnicodeEncodeError
  end.

(** [st.text_area(label, value=value, height=150)], called without a key.
    Streamlit identifies such a widget by its kind and its arguments, and
    raises when a widget of the same identity was created earlier in the
    run. The program gives all its text areas the same label and height, so
    two of them are the same widget when their values are equal.
    [text_areas] holds the values of the text areas created so far in the
    run; the call gives the list with the new value added. (The other
    widgets of a run are created once, or with the file name of their page
    among their arguments.) *)
Definition st_text_area_call (text_areas : list pystr) (label value : pystr)
  : M (list pystr) :=
  if bool_decide (value ∈ text_areas) then raise StreamlitDuplicateElementId
  else
    emit (st_text_area label value) ;;;
    ret (value :: text_areas).

(** The body of the second loop: text and downloads in the side bar. It
    gives the text areas of the run after it. *)
Definition page_info (show_text : bool) (selected_sub_section_name : option pystr)
    (text_areas : list pystr) (page_num : Z) : M (list pystr) :=
  emit (st_sidebar_expander (py "📄 Trang " ++ str_of_int page_num)) ;;;
  emit (os_path_isfile (pdf_path page_num)) ;;;
  if negb (isfile (pdf_path page_num)) then
    emit (st_error (PdfFileMissing (pdf_filename page_num) data_dir)) ;;;
    ret text_areas
  else
    page_text <- pymupdf_parse_page (pdf_path page_num) page_number_default ;;
    text_areas' <- (if show_text then
                      st_text_area_call text_areas
                        (py "Văn Bản Đã Trích Xuất:") page_text
                    else ret text_areas) ;;
    emit (st_columns 2) ;;;
    try_except
      (emit (open_file (pdf_path page_num) (py "rb")) ;;;
       pdf_bytes <- lift (read_bytes (pdf_path page_num)) ;;
       emit (st_download_button (py "📥 Tải Xuống Trang PDF") pdf_bytes
               (pdf_filename page_num) (py "application/pdf")))
      (fun e => emit (st_error (PdfDownloadError e))) ;;;
    (if show_text then
       try_except
         (buffer <- encode_or_raise page_text ;;
          section_name <- read_local selected_sub_section_name ;;
          let safe_section_name := rstrip (List.filter safe_char section_name) in
          let download_filename :=
            safe_section_name ++ py "_Trang_" ++ str_of_int page_num ++ py ".txt" in
          emit (st_download_button (py "📄 Tải Xuống Văn Bản Đã Trích Xuất") buffer
                  download_filename (py "text/plain")))
         (fun e => emit (st_error (TextDownloadError e)))
     else ret tt) ;;;
    ret text_areas'.

(** The Presentation Layer: everything after the pages are resolved. *)
Definition present (selected_main_section : pystr)
    (selected_sub_section_name : option pystr) (page_numbers : list Z) : M unit :=
  let total_pages := Z.of_nat (length page_numbers) in
  initialize_session_state (PyInt total_pages) ;;;
  emit (st_sidebar_header (py "Tùy Chọn Hiển Thị")) ;;;
  emit (st_sidebar_checkbox (py "Hiển Thị Văn Bản Đã Trích Xuất")) ;;;
  let show_text := show_text_input in
  emit (st_sidebar_slider (py "Mức Thu Phóng")) ;;;
  let zoom_factor := zoom_input in
  shown <- (if startswith selected_main_section (py "XÂY DỰNG")
            then read_local selected_sub_section_name
            else ret selected_main_section) ;;
  emit (st_header (py "📄 " ++ shown)) ;;;
  for_each page_numbers (show_page zoom_factor) ;;;
  emit (st_sidebar_header (py "Thông Tin Trang")) ;;;
  for_each_with page_numbers [] (page_info show_text selected_sub_section_name) ;;;
  ret tt.

(** The Section Resolver: the pages of the user's selection, with the name
    of the sub-section when one was chosen; [Return] when [main] returns
    early. *)
Definition resolve (sections : list section) (selected_main_section : pystr)
  : M (flow unit (list Z * option pystr)) :=
  let selected_main_section_details :=
    find_by_name sections (Some selected_main_section) in
  if startswith selected_main_section (py "XÂY DỰNG") then
    emit (st_sidebar_header (py "Chọn Phần Con")) ;;;
    match selected_main_section_details with
    | None => raise TypeError
    | Some details =>
      selected_sub_section_name <-
        selectbox (py "Chọn một phần con:") (map name (sub_sections sections details)) ;;
      match find_by_name sections selected_sub_section_name with
      | None => emit (st_error SectionNotFound) ;;; ret (Return tt)
      | Some selected_sub_section =>
        page_numbers <- lift (get_page_numbers list_capacity selected_sub_section) ;;
        ret (Next (page_numbers, selected_sub_section_name))
      end
    end
  else
    match selected_main_section_details with
    | None => raise TypeError
    | Some details =>
      page_numbers <- lift (get_page_numbers list_capacity details) ;;
      ret (Next (page_numbers, None))
    end.

Definition main : M unit :=
  emit (st_set_page_config (py "NHÓM 1")) ;;;
  emit (st_title (py "NHÓM 1")) ;;;
  sections <- parse_data_detail data_detail_path ;;
  match sections with
  | [] => emit (st_error NoValidSections)
  | _ :: _ =>
    emit (st_sidebar_header (py "Chọn Phần Chính")) ;;;
    selected <- selectbox (py "Chọn một phần chính:") (map name (main_sections sections)) ;;
    match selected with
    | None => raise AttributeError
    | Some selected_main_section =>
      r <- resolve sections selected_main_section ;;
      match r with
      | Return _ => ret tt
      | Next (page_numbers, selected_sub_section_name) =>
        present selected_main_section selected_sub_section_name page_numbers
      end
    end
  end.

End Program.

(** * Vocabulary of the properties *)

(** A computation that returns: it raises nothing. *)
Definition returns {A} (m : M A) : Prop :=
  ∀ ss, ∃ a, value (m ss) = Ok a.

(** A computation that leaves the session state as it found it. *)
Definition keeps_state {A} (m : M A) : Prop :=
  ∀ ss, state_after (m ss) = ss.

(** A computation all of whose events satisfy [P]. *)
Definition emits_only {A} (P : event → Prop) (m : M A) : Prop :=
  ∀ ss, Forall P (emitted (m ss)).

(** The page number is not one of the document. *)
Definition out_of_range (doc : Document) (page_number : Z) : Prop :=
  page_number < 0 ∨ page_count doc <= page_number.

(** The ways in which extracting the text of a page fails. *)
Inductive extraction_fails (open_document : pystr → result Document)
    (pdf_path : pystr) (page_number : Z) : Prop :=
| extraction_open_fails e :
    open_document pdf_path = Raise e →
    extraction_fails open_document pdf_path page_number
| extraction_out_of_range doc :
    open_document pdf_path = Ok doc → out_of_range doc page_number →
    extraction_fails open_document pdf_path page_number
| extraction_load_fails doc e :
    open_document pdf_path = Ok doc → load_page doc page_number = Raise e →
    extraction_fails open_document pdf_path page_number
| extraction_text_fails doc page e :
    open_document pdf_path = Ok doc → load_page doc page_number = Ok page →
    get_text page = Raise e →
    extraction_fails open_document pdf_path page_number.

(** The ways in which converting a page to an image fails. *)
Inductive rendering_fails (open_document : pystr → result Document)
    (pdf_path : pystr) (page_number : Z) (zoom : float) : Prop :=
| rendering_open_fails e :
    open_document pdf_path = Raise e →
    rendering_fails open_document pdf_path page_number zoom
| rendering_out_of_range doc :
    open_document pdf_path = Ok doc → out_of_range doc page_number →
    rendering_fails open_document pdf_path page_number zoom
| rendering_load_fails doc e :
    open_document pdf_path = Ok doc → load_page doc page_number = Raise e →
    rendering_fails open_document pdf_path page_number zoom
| rendering_pixmap_fails doc page e :
    open_document pdf_path = Ok doc → load_page doc page_number = Ok page →
    get_pixmap page zoom = Raise e →
    rendering_fails open_document pdf_path page_number zoom
| rendering_png_fails doc page pix e :
    open_document pdf_path = Ok doc → load_page doc page_number = Ok page →
    get_pixmap page zoom = Ok pix → tobytes_png pix = Raise e →
    rendering_fails open_document pdf_path page_number zoom.

(** The sections with which the loop over the lines [f] is left. *)
Definition sections_after (f : list pystr) (ss : session_state) : list section :=
  match value (for_line_in [] f ss) with
  | Ok r => fst r
  | Raise _ => []
  end.

(** The record [s] is the one that the line [line] gives. *)
Definition line_gives (line : pystr) (s : section) : Prop :=
  ∃ part0 part1 part2 more,
    split hash (strip line) = part0 :: part1 :: part2 :: more
    ∧ int part0 = Some (start s)
    ∧ int part1 = Some (end_ s)
    ∧ name s = strip part2.

(** The line [line] has three fields or more and [int] fails on one of the
    first two. *)
Definition line_fails (line : pystr) : Prop :=
  ∃ part0 part1 part2 more,
    split hash (strip line) = part0 :: part1 :: part2 :: more
    ∧ (int part0 = None ∨ int part1 = None).

(** The paths that a run asked [os.path.isfile] about, in order. *)
Definition files_checked (trace : list event) : list pystr :=
  omap (λ e, match e with os_path_isfile p => Some p | _ => None end) trace.

(** The events other than a call of [os.path.isfile]. *)
Definition no_file_check (e : event) : Prop :=
  match e with
  | os_path_isfile _ => False
  | _ => True
  end.


(** The record of a line, when the line gives one: what the body of the
    loop appends, as a function of the line alone. *)
Definition line_record (line : pystr) : option section :=
  match split hash (strip line) with
  | part0 :: part1 :: part2 :: _ =>
    match int part0, int part1 with
    | Some start_page, Some end_page =>
      Some {| start := start_page; end_ := end_page; name := strip part2 |}
    | _, _ => None
    end
  | _ => None
  end.

(** A computation that changes no field of the session state other than
    ['total_pages'], and nothing at all when that field is present. *)
Definition writes_total_pages_once {A} (m : M A) : Prop :=
  ∀ ss,
    (∀ k, k ≠ total_pages_key → state_after (m ss) !! k = ss !! k)
    ∧ (is_Some (ss !! total_pages_key) → state_after (m ss) = ss).

(** The events that are no download button for a text file. *)
Definition no_text_download (e : event) : Prop :=
  match e with
  | st_download_button _ _ _ mime => mime ≠ py "text/plain"
  | _ => True
  end.

(** What the first loop shows for the bytes the renderer returned. *)
Definition image_or_message (img_bytes : bytes) (page_num : Z) : event :=
  match img_bytes with
  | _ :: _ => st_image img_bytes (py "Trang " ++ str_of_int page_num)
  | [] => st_error CannotShowImage
  end.

(** The text download buttons of a run carry a file name made of the
    characters that [safe_char] accepts, without white space at its end,
    followed by ["_Trang_"], the page number and [".txt"]. *)
Definition text_download_is_safe (isalnum : pychar → bool) (page_num : Z)
    (e : event) : Prop :=
  match e with
  | st_download_button _ _ file_name mime =>
    mime = py "text/plain" →
    ∃ safe_section_name,
      file_name = safe_section_name ++ py "_Trang_" ++ str_of_int page_num ++ py ".txt"
      ∧ Forall (λ c, safe_char isalnum c = true) safe_section_name
      ∧ (∀ c, last safe_section_name = Some c → Py_UNICODE_ISSPACE c = false)
  | _ => True
  end.

(** What a round of the second loop shows for the download of the PDF
    file, from what reading the file gave. *)
Definition pdf_download_part (page_num : Z) (read : result bytes) : list event :=
  [ open_file (pdf_path page_num) (py "rb");
    match read with
    | Ok pdf_bytes =>
      st_download_button (py "📥 Tải Xuống Trang PDF") pdf_bytes
        (pdf_filename page_num) (py "application/pdf")
    | Raise e => st_error (PdfDownloadError e)
    end ].

(** What it shows for the download of the text. *)
Definition text_download_part (isalnum : pychar → bool) (page_num : Z)
    (selected_sub_section_name : option pystr) (page_text : pystr) : event :=
  match encode_utf8 page_text, selected_sub_section_name with
  | Some buffer, Some section_name =>
    st_download_button (py "📄 Tải Xuống Văn Bản Đã Trích Xuất") buffer
      (rstrip (List.filter (safe_char isalnum) section_name)
       ++ py "_Trang_" ++ str_of_int page_num ++ py ".txt")
      (py "text/plain")
  | Some _, None => st_error (TextDownloadError NameError)
  | None, _ => st_error (TextDownloadError UnicodeEncodeError)
  end.

(** The events that show the extracted text or offer it for download. *)
Definition shows_no_text (e : event) : Prop :=
  match e with
  | st_text_area _ _ => False
  | st_download_button _ _ _ mime => mime ≠ py "text/plain"
  | st_error (TextDownloadError _) => False
  | _ => True
  end.

(** The warning that a line gets: one for a line that is not blank and has
    fewer than three fields. *)
Definition line_warning (line : pystr) : option event :=
  if bool_decide (strip line = []) then None
  else match split hash (strip line) with
       | _ :: _ :: _ :: _ => None
       | _ => Some (st_warning (InvalidLineSkipped (strip line)))
       end.

(** The events that enter neither page function. *)
Definition no_page_call (e : event) : Prop :=
  match e with
  | call_pymupdf_parse_page _ _ => False
  | call_pymupdf_render_page_as_image _ _ _ => False
  | _ => True
  end.


(** The paths with which a run entered the page functions, in order. *)
Definition files_entered (trace : list event) : list pystr :=
  omap (λ e, match e with
             | call_pymupdf_render_page_as_image p _ _ => Some p
             | call_pymupdf_parse_page p _ => Some p
             | _ => None
             end) trace.

(** The label of the text areas of the second loop. *)
Definition text_area_label : pystr := py "Văn Bản Đã Trích Xuất:".

(** ** Example inputs *)

(** A manifest of three lines: a section, a blank line, a line of two
    fields. *)
Definition manifest_lines : list pystr :=
  [ py "1#12# NHỮNG QUỐC GIA "; py "   "; py "13#XÂY DỰNG" ].

(** A manifest whose second line has a first field that is no integer. *)
Definition broken_manifest : pystr → result text_stream :=
  λ _, Ok {| lines := [py "1#2#A"; py "x#3#B"; py "4#5#C"]; failure := None |}.

(** A manifest whose only line has its second bound below the first. *)
Definition reversed_manifest : pystr → result text_stream :=
  λ _, Ok {| lines := [py "5#3#Ch"]; failure := None |}.

(** A manifest with two main sections: the first with a section inside it,
    the second with two sections that start inside it (one of them ends
    outside it), followed by a section that starts after it. *)
Definition nested_manifest : list section :=
  [ {| start := 1; end_ := 2; name := py "NHỮNG QUỐC GIA" |};
    {| start := 2; end_ := 2; name := py "i" |};
    {| start := 3; end_ := 6; name := py "XÂY DỰNG" |};
    {| start := 4; end_ := 5; name := py "a" |};
    {| start := 5; end_ := 9; name := py "b" |};
    {| start := 7; end_ := 8; name := py "c" |} ].

(** A manifest whose only section is a main section that holds the page
    -5 alone. *)
Definition negative_manifest : pystr → result text_stream :=
  λ _, Ok {| lines := [py "-5#-5#NHỮNG QUỐC GIA"]; failure := None |}.

(** A manifest whose only section is a main section of the pages 3 to 5. *)
Definition pages_3_to_5_manifest : pystr → result text_stream :=
  λ _, Ok {| lines := [py "3#5#NHỮNG QUỐC GIA"]; failure := None |}.

(** A document of one page with the given text. *)
Definition one_page_document (text : pystr) : Document :=
  {| page_count := 1;
     load_page := λ _,
       Ok {| get_text := Ok text;
             get_pixmap := λ _, Ok {| tobytes_png := Ok [x89; x50; x4e; x47] |} |} |}.

(** A PDF library in which every file is a page of 230005 characters. *)
Definition long_documents : pystr → result Document :=
  λ _, Ok (one_page_document (repeat 0x61%N (N.to_nat 230005))).

(** A PDF library in which every file is a page whose text is the path of
    the file: no two pages have the same text. *)
Definition numbered_documents : pystr → result Document :=
  λ p, Ok (one_page_document p).

(** A PDF library in which no file can be opened. *)
Definition no_documents : pystr → result Document :=
  λ _, Raise (OtherException (py "cannot open")).

(** A data directory in which only the file of page 4 is missing. *)
Definition page_4_missing : pystr → bool :=
  λ p, negb (bool_decide (p = py "./data/page_004.pdf")).

(** * Properties *)

(** ** String literals *)

Example literal_XAY_DUNG :
  py "XÂY DỰNG" = [0x58; 0xC2; 0x59; 0x20; 0x44; 0x1EF0; 0x4E; 0x47]%N.
Proof. reflexivity. Qed.

Example literal_NHUNG_QUOC_GIA :
  py "NHỮNG QUỐC GIA"
  = [0x4E; 0x48; 0x1EEE; 0x4E; 0x47; 0x20; 0x51; 0x55; 0x1ED0; 0x43; 0x20;
     0x47; 0x49; 0x41]%N.
Proof. reflexivity. Qed.

(** ** Reasoning about computations *)

Lemma outcome_eta {A} (o : outcome A) :
  Outcome (value o) (state_after o) (emitted o) = o.
Proof. by destruct o. Qed.

Section MonadLaws.
Context {A B : Type}.

Lemma bind_ok (m : M A) (f : A → M B) ss a ss1 t1 :
  m ss = Outcome (Ok a) ss1 t1 →
  bind m f ss
  = Outcome (value (f a ss1)) (state_after (f a ss1)) (t1 ++ emitted (f a ss1)).
Proof. intros H. unfold bind. rewrite H. by destruct (f a ss1). Qed.

Lemma bind_raise (m : M A) (f : A → M B) ss e ss1 t1 :
  m ss = Outcome (Raise e) ss1 t1 → bind m f ss = Outcome (Raise e) ss1 t1.
Proof. intros H. unfold bind. by rewrite H. Qed.

Lemma bind_ret (a : A) (f : A → M B) ss : bind (ret a) f ss = f a ss.
Proof. unfold bind, ret. by destruct (f a ss). Qed.

Lemma bind_emit e (f : unit → M B) ss :
  bind (emit e) f ss
  = Outcome (value (f tt ss)) (state_after (f tt ss)) (e :: emitted (f tt ss)).
Proof. unfold bind, emit. by destruct (f tt ss). Qed.

Lemma bind_assoc {C} (m : M A) (f : A → M B) (g : B → M C) ss :
  bind (bind m f) g ss = bind m (λ a, bind (f a) g) ss.
Proof.
  unfold bind. destruct (m ss) as [[a|e] ss1 t1]; [|done].
  destruct (f a ss1) as [[b|e] ss2 t2]; [|done].
  destruct (g b ss2) as [v ss3 t3]. by rewrite app_assoc.
Qed.

(** The first event of a computation stays the first event of what
    follows it. *)
Lemma first_event_bind (m : M A) (f : A → M B) ss e t :
  emitted (m ss) = e :: t → ∃ t', emitted (bind m f ss) = e :: t'.
Proof.
  unfold bind. destruct (m ss) as [[a|x] ss1 t1]; simpl; intros ->.
  - destruct (f a ss1). by eexists.
  - by eexists.
Qed.


Lemma returns_ret (a : A) : returns (ret a).
Proof. intros ss. by exists a. Qed.

Lemma returns_emit e : returns (emit e).
Proof. intros ss. by exists tt. Qed.

Lemma returns_bind (m : M A) (f : A → M B) :
  returns m → (∀ a, returns (f a)) → returns (bind m f).
Proof.
  intros Hm Hf ss. unfold bind. destruct (Hm ss) as [a Ha].
  destruct (m ss) as [v ss1 t1]. simpl in Ha. subst v.
  destruct (Hf a ss1) as [b Hb]. destruct (f a ss1). by exists b.
Qed.

Lemma returns_try_except (m : M A) (h : exn → M A) :
  (∀ e, returns (h e)) → returns (try_except m h).
Proof.
  intros Hh ss. unfold try_except.
  destruct (m ss) as [[a|e] ss1 t1]; [by exists a|].
  destruct (Hh e ss1) as [a Ha]. destruct (h e ss1). by exists a.
Qed.

Lemma returns_attempt (m : M A) : returns (attempt m).
Proof. intros ss. unfold attempt. destruct (m ss). by eexists. Qed.

Lemma keeps_ret (a : A) : keeps_state (ret a).
Proof. by intros ss. Qed.

Lemma keeps_raise e : keeps_state (raise (A:=A) e).
Proof. by intros ss. Qed.

Lemma keeps_lift (r : result A) : keeps_state (lift r).
Proof. by intros ss. Qed.

Lemma keeps_emit e : keeps_state (emit e).
Proof. by intros ss. Qed.

Lemma keeps_bind (m : M A) (f : A → M B) :
  keeps_state m → (∀ a, keeps_state (f a)) → keeps_state (bind m f).
Proof.
  intros Hm Hf ss. unfold bind. specialize (Hm ss).
  destruct (m ss) as [[a|e] ss1 t1]; simpl in *; [|done].
  specialize (Hf a ss1). destruct (f a ss1). simpl in *. congruence.
Qed.

Lemma keeps_try_except (m : M A) (h : exn → M A) :
  keeps_state m → (∀ e, keeps_state (h e)) → keeps_state (try_except m h).
Proof.
  intros Hm Hh ss. unfold try_except. specialize (Hm ss).
  destruct (m ss) as [[a|e] ss1 t1]; simpl in *; [done|].
  specialize (Hh e ss1). destruct (h e ss1). simpl in *. congruence.
Qed.

Lemma keeps_attempt (m : M A) : keeps_state m → keeps_state (attempt m).
Proof. intros Hm ss. unfold attempt. specialize (Hm ss). by destruct (m ss). Qed.

Lemma emits_ret P (a : A) : emits_only P (ret a).
Proof. intros ss. constructor. Qed.

Lemma emits_raise P e : emits_only P (raise (A:=A) e).
Proof. intros ss. constructor. Qed.

Lemma emits_lift P (r : result A) : emits_only P (lift r).
Proof. intros ss. constructor. Qed.

Lemma emits_emit (P : event → Prop) e : P e → emits_only P (emit e).
Proof. intros He ss. by repeat constructor. Qed.

Lemma emits_bind P (m : M A) (f : A → M B) :
  emits_only P m → (∀ a, emits_only P (f a)) → emits_only P (bind m f).
Proof.
  intros Hm Hf ss. unfold bind. specialize (Hm ss).
  destruct (m ss) as [[a|e] ss1 t1]; simpl in *; [|done].
  specialize (Hf a ss1). destruct (f a ss1). simpl in *.
  apply Forall_app. by split.
Qed.

Lemma emits_try_except P (m : M A) (h : exn → M A) :
  emits_only P m → (∀ e, emits_only P (h e)) → emits_only P (try_except m h).
Proof.
  intros Hm Hh ss. unfold try_except. specialize (Hm ss).
  destruct (m ss) as [[a|e] ss1 t1]; simpl in *; [done|].
  specialize (Hh e ss1). destruct (h e ss1). simpl in *.
  apply Forall_app. by split.
Qed.

Lemma emits_attempt P (m : M A) : emits_only P m → emits_only P (attempt m).
Proof. intros Hm ss. unfold attempt. specialize (Hm ss). by destruct (m ss). Qed.

End MonadLaws.

Lemma returns_for_each {A} (xs : list A) (body : A → M unit) :
  (∀ x, returns (body x)) → returns (for_each xs body).
Proof.
  intros Hb. induction xs as [|x xs IH]; simpl.
  - apply returns_ret.
  - apply returns_bind; auto.
Qed.

Lemma keeps_for_each {A} (xs : list A) (body : A → M unit) :
  (∀ x, keeps_state (body x)) → keeps_state (for_each xs body).
Proof.
  intros Hb. induction xs as [|x xs IH]; simpl.
  - apply keeps_ret.
  - apply keeps_bind; auto.
Qed.

Lemma emits_for_each {A} P (xs : list A) (body : A → M unit) :
  (∀ x, emits_only P (body x)) → emits_only P (for_each xs body).
Proof.
  intros Hb. induction xs as [|x xs IH]; simpl.
  - apply emits_ret.
  - apply emits_bind; auto.
Qed.

(** A loop whose body returns and keeps the state emits the events of its
    rounds one after the other. *)
Lemma emitted_for_each {A} (xs : list A) (body : A → M unit) ss :
  (∀ x, returns (body x)) → (∀ x, keeps_state (body x)) →
  emitted (for_each xs body ss) = concat (map (λ x, emitted (body x ss)) xs).
Proof.
  intros Hr Hk. induction xs as [|x xs IH]; simpl; [done|].
  destruct (Hr x ss) as [[] Hv]. specialize (Hk x ss).
  destruct (body x ss) as [v ss1 t1] eqn:Hb. simpl in *. subst.
  rewrite (bind_ok _ _ _ _ _ _ Hb). simpl. by rewrite IH.
Qed.

Lemma keeps_for_each_with {A S} (xs : list A) (body : S → A → M S) :
  (∀ s x, keeps_state (body s x)) → ∀ s, keeps_state (for_each_with xs s body).
Proof.
  intros Hb. induction xs as [|x xs IH]; intros s; simpl.
  - apply keeps_ret.
  - apply keeps_bind; auto.
Qed.

Lemma emits_for_each_with {A S} P (xs : list A) (body : S → A → M S) :
  (∀ s x, emits_only P (body s x)) → ∀ s, emits_only P (for_each_with xs s body).
Proof.
  intros Hb. induction xs as [|x xs IH]; intros s; simpl.
  - apply emits_ret.
  - apply emits_bind; auto.
Qed.

Create HintDb py discriminated.
#[local] Hint Resolve returns_ret returns_emit returns_attempt returns_for_each
  keeps_ret keeps_raise keeps_lift keeps_emit keeps_attempt keeps_for_each
  emits_ret emits_raise emits_lift emits_attempt emits_for_each : py.

(** ** The Section Resolver: [get_page_numbers] *)

Lemma range_length lo hi : lo <= hi → Z.of_nat (length (range lo hi)) = hi - lo.
Proof. intros H. unfold range. rewrite length_seqZ. lia. Qed.

Lemma range_lookup lo hi (i : nat) :
  Z.of_nat i < hi - lo → range lo hi !! i = Some (lo + Z.of_nat i).
Proof. apply lookup_seqZ_lt. Qed.

Lemma range_elem lo hi n : n ∈ range lo hi ↔ lo <= n < hi.
Proof. unfold range. rewrite elem_of_seqZ. lia. Qed.

Lemma range_ascending lo hi : StronglySorted Z.lt (range lo hi).
Proof.
  unfold range. remember (Z.to_nat (hi - lo)) as k eqn:Hk.
  revert lo hi Hk. induction k as [|k IH]; intros lo hi Hk.
  - rewrite seqZ_nil by lia. constructor.
  - rewrite seqZ_cons by lia. constructor.
    + replace (Z.pred (hi - lo)) with (hi - Z.succ lo) by lia. apply IH. lia.
    + apply Forall_seqZ. lia.
Qed.

Lemma range_len_nonneg lo hi : lo <= hi → range_len lo hi = hi - lo.
Proof. unfold range_len. lia. Qed.

(** [list(range(lo, hi))] in its three cases. *)
Lemma list_of_range_ok list_capacity lo hi :
  range_len lo hi <= sys_maxsize → range_len lo hi <= list_capacity →
  list_of_range list_capacity lo hi = Ok (range lo hi).
Proof.
  intros H1 H2. unfold list_of_range.
  rewrite (proj2 (Z.ltb_ge _ _) H1). by rewrite (proj2 (Z.ltb_ge _ _) H2).
Qed.

Lemma list_of_range_overflow list_capacity lo hi :
  sys_maxsize < range_len lo hi →
  list_of_range list_capacity lo hi = Raise OverflowError.
Proof. intros H. unfold list_of_range. by rewrite (proj2 (Z.ltb_lt _ _) H). Qed.

Lemma list_of_range_memory list_capacity lo hi :
  range_len lo hi <= sys_maxsize → list_capacity < range_len lo hi →
  list_of_range list_capacity lo hi = Raise MemoryError.
Proof.
  intros H1 H2. unfold list_of_range.
  rewrite (proj2 (Z.ltb_ge _ _) H1). by rewrite (proj2 (Z.ltb_lt _ _) H2).
Qed.

(** What [list(range(lo, hi))] returns, when it returns, is the range. *)
Lemma list_of_range_inv list_capacity lo hi l :
  list_of_range list_capacity lo hi = Ok l →
  l = range lo hi ∧ range_len lo hi <= sys_maxsize ∧ range_len lo hi <= list_capacity.
Proof.
  unfold list_of_range.
  destruct (sys_maxsize <? range_len lo hi) eqn:H1; [done|].
  destruct (list_capacity <? range_len lo hi) eqn:H2; [done|].
  intros [= <-]. apply Z.ltb_ge in H1, H2. done.
Qed.

(** C1, as stated, fails: the section from 0 to 2^63 - 1 has its start below
    its end, and [get_page_numbers] raises [OverflowError] for it, whatever
    the memory of the machine: a list cannot have 2^63 elements. *)
Lemma C1_section_of_any_length_counterexample :
  start {| start := 0; end_ := 2 ^ 63 - 1; name := py "A" |}
  <= end_ {| start := 0; end_ := 2 ^ 63 - 1; name := py "A" |}
  ∧ get_page_numbers sys_maxsize {| start := 0; end_ := 2 ^ 63 - 1; name := py "A" |}
    = Raise OverflowError.
Proof. split; [simpl; lia|reflexivity]. Qed.

(** C1, amended: for a section with start <= end whose number of pages,
    end - start + 1, is at most [sys.maxsize] and at most what the machine
    can allocate, [get_page_numbers] returns the list start, start + 1, ...,
    end: it has end - start + 1 elements, its element of index i is
    start + i, it begins with start and ends with end, and it holds exactly
    the integers between the two bounds. With more pages than [sys.maxsize]
    it raises [OverflowError]; with at most that many but more than the
    machine can allocate, [MemoryError]. *)
Theorem C1_get_page_numbers_consecutive
    (list_capacity : Z) (s : section) (H : start s <= end_ s) :
  (end_ s - start s + 1 <= sys_maxsize → end_ s - start s + 1 <= list_capacity →
   ∃ page_numbers,
     get_page_numbers list_capacity s = Ok page_numbers
     ∧ Z.of_nat (length page_numbers) = end_ s - start s + 1
     ∧ (∀ i : nat, Z.of_nat i <= end_ s - start s →
          page_numbers !! i = Some (start s + Z.of_nat i))
     ∧ head page_numbers = Some (start s)
     ∧ last page_numbers = Some (end_ s)
     ∧ (∀ n, n ∈ page_numbers ↔ start s <= n <= end_ s))
  ∧ (sys_maxsize < end_ s - start s + 1 →
     get_page_numbers list_capacity s = Raise OverflowError)
  ∧ (end_ s - start s + 1 <= sys_maxsize → list_capacity < end_ s - start s + 1 →
     get_page_numbers list_capacity s = Raise MemoryError).
Proof.
  assert (range_len (start s) (end_ s + 1) = end_ s - start s + 1) as Hlen
    by (unfold range_len; lia).
  unfold get_page_numbers. split_and!.
  - intros Hsize Hmem. exists (range (start s) (end_ s + 1)).
    rewrite list_of_range_ok by lia. split_and!.
    + done.
    + rewrite range_length; lia.
    + intros i Hi. apply range_lookup. lia.
    + rewrite head_lookup, (range_lookup _ _ 0) by lia. f_equal. lia.
    + rewrite last_lookup.
      assert (Z.of_nat (length (range (start s) (end_ s + 1))) = end_ s + 1 - start s)
        as Hl by (apply range_length; lia).
      rewrite range_lookup by lia. f_equal. lia.
    + intros n. rewrite range_elem. lia.
  - intros Hsize. apply list_of_range_overflow. lia.
  - intros Hsize Hmem. apply list_of_range_memory; lia.
Qed.

Lemma C1_get_page_numbers_consecutive_witness :
  ∃ page_numbers,
    get_page_numbers 1000 {| start := 3; end_ := 5; name := py "A" |} = Ok page_numbers
    ∧ Z.of_nat (length page_numbers) = 5 - 3 + 1
    ∧ (∀ i : nat, Z.of_nat i <= 5 - 3 → page_numbers !! i = Some (3 + Z.of_nat i))
    ∧ head page_numbers = Some 3
    ∧ last page_numbers = Some 5
    ∧ (∀ n, n ∈ page_numbers ↔ 3 <= n <= 5).
Proof.
  exact (proj1 (C1_get_page_numbers_consecutive 1000
                  {| start := 3; end_ := 5; name := py "A" |}
                  ltac:(simpl; lia))
           ltac:(vm_compute; discriminate) ltac:(vm_compute; discriminate)).
Defined.

Example get_page_numbers_3_5 :
  get_page_numbers 1000 {| start := 3; end_ := 5; name := py "A" |} = Ok [3; 4; 5].
Proof. reflexivity. Qed.

Example get_page_numbers_5_3 :
  get_page_numbers 1000 {| start := 5; end_ := 3; name := py "A" |} = Ok [].
Proof. reflexivity. Qed.

Example get_page_numbers_out_of_memory :
  get_page_numbers 1000 {| start := 1; end_ := 1001; name := py "A" |}
  = Raise MemoryError.
Proof. reflexivity. Qed.

(** ** The session state: [initialize_session_state] *)

(** C7: [initialize_session_state] changes no field other than
    ['total_pages']; it stores its argument there when the field is absent
    and changes nothing when the field is present, so a second call, with
    any value, leaves the whole session state as the first call left it. It
    emits nothing and raises nothing. *)
Theorem C7_initialize_session_state_frame (total_pages : pyval) (ss : session_state) :
  let ss1 := state_after (initialize_session_state total_pages ss) in
  (∀ k, k ≠ total_pages_key → ss1 !! k = ss !! k)
  ∧ (ss !! total_pages_key = None → ss1 = <[total_pages_key := total_pages]> ss)
  ∧ (is_Some (ss !! total_pages_key) → ss1 = ss)
  ∧ (∀ again, state_after (initialize_session_state again ss1) = ss1)
  ∧ value (initialize_session_state total_pages ss) = Ok tt
  ∧ emitted (initialize_session_state total_pages ss) = [].
Proof.
  unfold initialize_session_state.
  destruct (ss !! total_pages_key) as [v|] eqn:E; simpl; split_and!; try done.
  - intros again. by rewrite E.
  - intros k Hk. by rewrite lookup_insert_ne.
  - intros again. by rewrite lookup_insert_eq.
Qed.

Example initialize_twice :
  state_after (initialize_session_state (PyInt 9)
    (state_after (initialize_session_state (PyInt 4) ∅))) !! total_pages_key
  = Some (PyInt 4).
Proof. reflexivity. Qed.

(** ** The Page Renderer: [pymupdf_parse_page], [pymupdf_render_page_as_image] *)

Lemma length_slice_to stop (s : pystr) :
  (N.of_nat (length (slice_to stop s)) <= stop)%N.
Proof. unfold slice_to. rewrite length_take. lia. Qed.

Section Pages.
Variable open_document : pystr → result Document.

Lemma range_test_true doc page_number :
  (page_number <? 0) || (page_number >=? page_count doc) = true
  ↔ out_of_range doc page_number.
Proof. unfold out_of_range. rewrite orb_true_iff. lia. Qed.

Lemma range_test_false doc page_number :
  ¬ out_of_range doc page_number →
  (page_number <? 0) || (page_number >=? page_count doc) = false.
Proof. intros H. apply not_true_is_false. by rewrite range_test_true. Qed.

Ltac step_page :=
  match goal with
  | |- context [open_document ?p] => destruct (open_document p) as [?doc|?e] eqn:?
  | |- context [(?n <? 0) || (?n >=? page_count ?d)] =>
      destruct ((n <? 0) || (n >=? page_count d)) eqn:?
  | |- context [load_page ?d ?n] => destruct (load_page d n) as [?page|?e] eqn:?
  | |- context [get_text ?p] => destruct (get_text p) as [?t|?e] eqn:?
  | |- context [get_pixmap ?p ?z] => destruct (get_pixmap p z) as [?pix|?e] eqn:?
  | |- context [tobytes_png ?p] => destruct (tobytes_png p) as [?img|?e] eqn:?
  end; simpl.

Ltac run_page :=
  unfold pymupdf_parse_page, pymupdf_render_page_as_image,
    bind, try_except, emit, lift, ret; simpl; repeat step_page.

(** What the page functions do when nothing fails. *)
Lemma pymupdf_parse_page_text pdf_path page_number ss doc page text :
  open_document pdf_path = Ok doc → ¬ out_of_range doc page_number →
  load_page doc page_number = Ok page → get_text page = Ok text →
  pymupdf_parse_page open_document pdf_path page_number ss
  = Outcome (Ok (slice_to text_limit text)) ss
      [call_pymupdf_parse_page pdf_path page_number; fitz_open pdf_path;
       doc_load_page page_number].
Proof.
  intros Hd Hr%range_test_false Hp Ht.
  unfold pymupdf_parse_page, bind, try_except, emit, lift, ret; simpl.
  rewrite Hd; simpl. rewrite Hr; simpl. rewrite Hp; simpl. by rewrite Ht.
Qed.

Lemma pymupdf_render_page_as_image_png pdf_path page_number zoom ss doc page pix img :
  open_document pdf_path = Ok doc → ¬ out_of_range doc page_number →
  load_page doc page_number = Ok page → get_pixmap page zoom = Ok pix →
  tobytes_png pix = Ok img →
  pymupdf_render_page_as_image open_document pdf_path page_number zoom ss
  = Outcome (Ok img) ss
      [call_pymupdf_render_page_as_image pdf_path page_number zoom;
       fitz_open pdf_path; doc_load_page page_number].
Proof.
  intros Hd Hr%range_test_false Hp Hx Hi.
  unfold pymupdf_render_page_as_image, bind, try_except, emit, lift, ret; simpl.
  rewrite Hd; simpl. rewrite Hr; simpl. rewrite Hp; simpl. rewrite Hx; simpl.
  by rewrite Hi.
Qed.

Lemma pymupdf_parse_page_returns pdf_path page_number :
  returns (pymupdf_parse_page open_document pdf_path page_number).
Proof. intros ss. run_page; by eexists. Qed.

Lemma pymupdf_render_page_as_image_returns pdf_path page_number zoom :
  returns (pymupdf_render_page_as_image open_document pdf_path page_number zoom).
Proof. intros ss. run_page; by eexists. Qed.

Lemma pymupdf_parse_page_keeps pdf_path page_number :
  keeps_state (pymupdf_parse_page open_document pdf_path page_number).
Proof. intros ss. by run_page. Qed.

Lemma pymupdf_render_page_as_image_keeps pdf_path page_number zoom :
  keeps_state (pymupdf_render_page_as_image open_document pdf_path page_number zoom).
Proof. intros ss. by run_page. Qed.

(** C9: the string returned by [pymupdf_parse_page] has at most 230000
    characters, for every path, page number and document: a longer text is
    cut to its first 230000 characters, and no message is emitted for
    it. *)
Theorem C9_parse_page_text_limit pdf_path page_number ss :
  (∃ text,
     value (pymupdf_parse_page open_document pdf_path page_number ss) = Ok text
     ∧ (N.of_nat (length text) <= 230000)%N)
  ∧ (∀ doc page full,
       open_document pdf_path = Ok doc → ¬ out_of_range doc page_number →
       load_page doc page_number = Ok page → get_text page = Ok full →
       pymupdf_parse_page open_document pdf_path page_number ss
       = Outcome (Ok (slice_to 230000 full)) ss
           [call_pymupdf_parse_page pdf_path page_number; fitz_open pdf_path;
            doc_load_page page_number]).
Proof.
  split.
  - run_page; eexists; (split; [reflexivity|]);
      first [apply length_slice_to | simpl; lia].
  - intros doc page full. apply pymupdf_parse_page_text.
Qed.

(** C10: the two page functions always return a value, whatever the PDF
    library does: they raise nothing. When the page number is negative or
    not below the page count, or when opening the file, loading the page,
    extracting its text or converting it fails, [pymupdf_parse_page]
    returns the empty string and [pymupdf_render_page_as_image] the empty
    byte string. *)
Theorem C10_page_functions_catch_everything pdf_path page_number zoom ss :
  (∃ text, value (pymupdf_parse_page open_document pdf_path page_number ss) = Ok text)
  ∧ (∃ img,
       value (pymupdf_render_page_as_image open_document pdf_path page_number zoom ss)
       = Ok img)
  ∧ (extraction_fails open_document pdf_path page_number →
       value (pymupdf_parse_page open_document pdf_path page_number ss) = Ok [])
  ∧ (rendering_fails open_document pdf_path page_number zoom →
       value (pymupdf_render_page_as_image open_document pdf_path page_number zoom ss)
       = Ok []).
Proof.
  split_and!.
  - apply pymupdf_parse_page_returns.
  - apply pymupdf_render_page_as_image_returns.
  - intros [e He|doc Hd Hr|doc e Hd Hl|doc page e Hd Hl Ht];
      unfold pymupdf_parse_page, bind, try_except, emit, lift, ret; simpl;
      rewrite ?He, ?Hd; simpl; try done.
    + apply range_test_true in Hr. by rewrite Hr.
    + destruct ((page_number <? 0) || (page_number >=? page_count doc)); simpl;
        [done|by rewrite Hl].
    + destruct ((page_number <? 0) || (page_number >=? page_count doc)); simpl;
        [done|rewrite Hl; simpl; by rewrite Ht].
  - intros [e He|doc Hd Hr|doc e Hd Hl|doc page e Hd Hl Hx|doc page pix e Hd Hl Hx Hi];
      unfold pymupdf_render_page_as_image, bind, try_except, emit, lift, ret; simpl;
      rewrite ?He, ?Hd; simpl; try done.
    + apply range_test_true in Hr. by rewrite Hr.
    + destruct ((page_number <? 0) || (page_number >=? page_count doc)); simpl;
        [done|by rewrite Hl].
    + destruct ((page_number <? 0) || (page_number >=? page_count doc)); simpl;
        [done|rewrite Hl; simpl; by rewrite Hx].
    + destruct ((page_number <? 0) || (page_number >=? page_count doc)); simpl;
        [done|rewrite Hl; simpl; rewrite Hx; simpl; by rewrite Hi].
Qed.

End Pages.

(** ** The Manifest Parser: [parse_data_detail] *)

(** One round of the loop. *)
Lemma for_line_in_cons sections line rest ss :
  for_line_in sections (line :: rest) ss
  = match parse_line sections line ss with
    | Outcome (Ok sections') ss1 t1 =>
      let o := for_line_in sections' rest ss1 in
      Outcome (value o) (state_after o) (t1 ++ emitted o)
    | Outcome (Raise e) ss1 t1 => Outcome (Ok (sections, Some e)) ss1 t1
    end.
Proof.
  simpl. unfold bind, attempt.
  destruct (parse_line sections line ss) as [[secs|e] ss1 t1]; simpl.
  - by destruct (for_line_in secs rest ss1).
  - unfold ret. by rewrite app_nil_r.
Qed.

(** What the loop body does, case by case. *)
Lemma parse_line_blank sections line :
  strip line = [] → parse_line sections line = ret sections.
Proof. intros H. unfold parse_line. by rewrite H. Qed.

Lemma parse_line_short sections line :
  strip line ≠ [] → (length (split hash (strip line)) < 3)%nat →
  parse_line sections line
  = (emit (st_warning (InvalidLineSkipped (strip line))) ;;; ret sections).
Proof.
  intros Hne Hlen. unfold parse_line.
  rewrite bool_decide_eq_false_2 by done.
  destruct (split hash (strip line)) as [|p0 [|p1 [|p2 more]]]; simpl in *;
    try done; lia.
Qed.

Lemma parse_line_record sections line part0 part1 part2 more start_page end_page ss :
  split hash (strip line) = part0 :: part1 :: part2 :: more →
  int part0 = Some start_page → int part1 = Some end_page →
  parse_line sections line ss
  = Outcome (Ok (sections ++ [ {| start := start_page; end_ := end_page;
                                  name := strip part2 |} ])) ss [].
Proof.
  intros Hs H0 H1. unfold parse_line.
  assert (strip line ≠ []) as Hne by (intros E; by rewrite E in Hs).
  rewrite bool_decide_eq_false_2 by done. rewrite Hs.
  unfold int_or_raise. by rewrite H0, H1.
Qed.

Lemma parse_line_bad_integer sections line part0 part1 part2 more ss :
  split hash (strip line) = part0 :: part1 :: part2 :: more →
  int part0 = None ∨ int part1 = None →
  parse_line sections line ss = Outcome (Raise ValueError) ss [].
Proof.
  intros Hs Hbad. unfold parse_line.
  assert (strip line ≠ []) as Hne by (intros E; by rewrite E in Hs).
  rewrite bool_decide_eq_false_2 by done. rewrite Hs.
  unfold int_or_raise, bind, raise, ret.
  destruct (int part0) as [a|]; simpl; [|done].
  destruct Hbad as [?|Hb]; [done|]. by rewrite Hb.
Qed.

(** The loop leaves the session state alone and raises nothing itself. *)
Lemma int_or_raise_keeps s : keeps_state (int_or_raise s).
Proof. unfold int_or_raise. destruct (int s); auto with py. Qed.

Lemma parse_line_keeps sections line : keeps_state (parse_line sections line).
Proof.
  unfold parse_line. case_bool_decide; [apply keeps_ret|].
  destruct (split hash (strip line)) as [|p0 [|p1 [|p2 more]]];
    try (apply keeps_bind; auto with py).
  - apply int_or_raise_keeps.
  - intros a. apply keeps_bind; [apply int_or_raise_keeps|auto with py].
Qed.

Lemma for_line_in_keeps f : ∀ sections, keeps_state (for_line_in sections f).
Proof.
  induction f as [|line rest IH]; intros sections; simpl; [apply keeps_ret|].
  apply keeps_bind; [apply keeps_attempt, parse_line_keeps|].
  intros [secs|e]; auto with py.
Qed.

Lemma for_line_in_returns f : ∀ sections, returns (for_line_in sections f).
Proof.
  induction f as [|line rest IH]; intros sections; simpl; [apply returns_ret|].
  apply returns_bind; [apply returns_attempt|].
  intros [secs|e]; auto with py.
Qed.

Lemma report_read_failure_value file_path e ss :
  value (report_read_failure file_path e ss) = Ok tt.
Proof. by destruct e. Qed.

Lemma parse_data_detail_value open_text file_path ss f :
  open_text file_path = Ok f →
  value (parse_data_detail open_text file_path ss) = Ok (sections_after (lines f) ss).
Proof.
  intros Hf. unfold parse_data_detail, sections_after. rewrite Hf.
  rewrite bind_emit. simpl.
  destruct (for_line_in_returns (lines f) [] ss) as [[secs exc] Hv].
  destruct (for_line_in [] (lines f) ss) as [v ss1 t1] eqn:Hrun.
  simpl in Hv. subst v. rewrite (bind_ok _ _ _ _ _ _ Hrun). simpl.
  destruct exc as [e|]; [|destruct (failure f) as [e|]]; try done.
  - unfold bind. pose proof (report_read_failure_value file_path e ss1) as Hr.
    destruct (report_read_failure file_path e ss1) as [v ? ?]. simpl in Hr.
    by subst v.
  - unfold bind. pose proof (report_read_failure_value file_path e ss1) as Hr.
    destruct (report_read_failure file_path e ss1) as [v ? ?]. simpl in Hr.
    by subst v.
Qed.

Lemma parse_data_detail_returns open_text file_path :
  returns (parse_data_detail open_text file_path).
Proof.
  intros ss. destruct (open_text file_path) as [f|e] eqn:Hf.
  - eexists. by apply parse_data_detail_value.
  - exists []. unfold parse_data_detail. rewrite Hf.
    rewrite bind_emit. simpl. unfold bind. by destruct e.
Qed.

Lemma parse_data_detail_keeps open_text file_path :
  keeps_state (parse_data_detail open_text file_path).
Proof.
  unfold parse_data_detail. apply keeps_bind; [apply keeps_emit|]. intros _.
  destruct (open_text file_path) as [f|e].
  - apply keeps_bind; [apply for_line_in_keeps|]. intros r.
    destruct (match r.2 with Some e => Some e | None => failure f end) as [e|];
      [|apply keeps_ret].
    apply keeps_bind; [destruct e; apply keeps_emit|auto with py].
  - apply keeps_bind; [destruct e; apply keeps_emit|auto with py].
Qed.

(** A line at which [int] fails ends the loop. *)
Lemma for_line_in_bad_integer sections line rest ss part0 part1 part2 more :
  split hash (strip line) = part0 :: part1 :: part2 :: more →
  int part0 = None ∨ int part1 = None →
  for_line_in sections (line :: rest) ss
  = Outcome (Ok (sections, Some ValueError)) ss [].
Proof.
  intros Hs Hbad. rewrite for_line_in_cons.
  by rewrite (parse_line_bad_integer _ _ _ _ _ _ _ Hs Hbad).
Qed.

(** The loop over [pre ++ suffix] is the loop over [pre], followed by the
    loop over [suffix] when the first was not left by an exception. *)
Lemma for_line_in_app pre suffix : ∀ sections ss,
  for_line_in sections (pre ++ suffix) ss
  = match for_line_in sections pre ss with
    | Outcome (Ok (secs, None)) ss1 t1 =>
      let o := for_line_in secs suffix ss1 in
      Outcome (value o) (state_after o) (t1 ++ emitted o)
    | o => o
    end.
Proof.
  induction pre as [|line pre IH]; intros sections ss.
  - simpl. by rewrite outcome_eta.
  - rewrite <- app_comm_cons, !for_line_in_cons.
    destruct (parse_line sections line ss) as [[secs|e] ss1 t1]; [|done].
    simpl. rewrite IH.
    destruct (for_line_in secs pre ss1) as [[[secs' [e|]]|e] ss2 t2]; simpl; try done.
    by rewrite app_assoc.
Qed.

Lemma parse_line_cases sections line ss :
  value (parse_line sections line ss) = Ok sections
  ∨ (∃ s, line_gives line s ∧ value (parse_line sections line ss) = Ok (sections ++ [s]))
  ∨ value (parse_line sections line ss) = Raise ValueError.
Proof.
  unfold parse_line. case_bool_decide; [by left|].
  destruct (split hash (strip line)) as [|p0 [|p1 [|p2 more]]] eqn:Hs;
    try by left.
  unfold int_or_raise, bind, raise, ret.
  destruct (int p0) as [a|] eqn:H0; simpl; [|by right; right].
  destruct (int p1) as [b|] eqn:H1; simpl; [|by right; right].
  right; left. eexists. split; [|reflexivity]. by exists p0, p1, p2, more.
Qed.

(** The loop only appends to [sections]. *)
Lemma for_line_in_extends f : ∀ sections ss secs exc,
  value (for_line_in sections f ss) = Ok (secs, exc) →
  ∃ later, secs = sections ++ later.
Proof.
  induction f as [|line rest IH]; intros sections ss secs exc.
  - simpl. intros [= <- <-]. exists []. by rewrite app_nil_r.
  - rewrite for_line_in_cons.
    destruct (parse_line_cases sections line ss) as [Hv|[[s' [Hg Hv]]|Hv]];
      destruct (parse_line sections line ss) as [v ss1 t1];
      cbn [value] in Hv; subst v; cbn [value].
    + apply IH.
    + intros Hrest. destruct (IH _ _ _ _ Hrest) as [later ->].
      exists (s' :: later). by rewrite <- app_assoc.
    + intros [= <- <-]. exists []. by rewrite app_nil_r.
Qed.

(** The loop body raises at the lines that fail only. *)
Lemma parse_line_raises sections line ss e :
  value (parse_line sections line ss) = Raise e → line_fails line.
Proof.
  unfold parse_line. case_bool_decide; [done|].
  destruct (split hash (strip line)) as [|p0 [|p1 [|p2 more]]] eqn:Hs; try done.
  unfold int_or_raise, bind, raise, ret.
  destruct (int p0) as [a|] eqn:H0; simpl.
  - destruct (int p1) as [b|] eqn:H1; simpl; [done|].
    intros _. exists p0, p1, p2, more. auto.
  - intros _. exists p0, p1, p2, more. auto.
Qed.

(** The loop reaches the end of lines that do not fail. *)
Lemma for_line_in_reaches f : ∀ sections ss,
  Forall (λ line, ¬ line_fails line) f →
  ∃ secs, value (for_line_in sections f ss) = Ok (secs, None).
Proof.
  induction f as [|line rest IH]; intros sections ss Hall.
  - by exists sections.
  - apply Forall_cons in Hall as [Hline Hrest]. rewrite for_line_in_cons.
    destruct (parse_line sections line ss) as [[secs|e] ss1 t1] eqn:Hrun.
    + cbn [value]. apply IH, Hrest.
    + destruct Hline. apply (parse_line_raises sections line ss e).
      by rewrite Hrun.
Qed.

(** C2, as stated, fails: a line with three fields and two integers that
    follows a line on which [int] fails gives no record, because the loop
    never reaches it. *)
Lemma C2_every_line_appends_counterexample :
  ∃ line,
    broken_manifest data_detail_path
    = Ok {| lines := [py "1#2#A"; py "x#3#B"; line]; failure := None |}
    ∧ strip line ≠ []
    ∧ split hash (strip line) = [py "4"; py "5"; py "C"]
    ∧ int (py "4") = Some 4
    ∧ int (py "5") = Some 5
    ∧ value (parse_data_detail broken_manifest data_detail_path ∅)
      = Ok [ {| start := 1; end_ := 2; name := py "A" |} ].
Proof.
  exists (py "4#5#C"). split_and!; first [done | by vm_compute].
Qed.

(** C2, amended: when the loop of [parse_data_detail] is at a line that,
    once stripped, is not empty and splits at ['#'] into three fields or
    more of which the first two are integers, it goes on to the next line
    with exactly one record appended to [sections]: the two integers and
    the third field stripped. At a blank line, and at a line of fewer than
    three fields, it goes on with [sections] unchanged (after a warning for
    the latter). The loop reaches a line when [int] has failed on no line
    before it; the record of such a line then comes, in the list that
    [parse_data_detail] returns, right after the records of the lines
    before it. *)
Theorem C2_reached_line_appends_one_record
    (sections : list section) (rest : list pystr) (ss : session_state) :
  (∀ line part0 part1 part2 more start_page end_page,
     strip line ≠ [] →
     split hash (strip line) = part0 :: part1 :: part2 :: more →
     int part0 = Some start_page →
     int part1 = Some end_page →
     for_line_in sections (line :: rest) ss
     = for_line_in
         (sections ++ [ {| start := start_page; end_ := end_page; name := strip part2 |} ])
         rest ss)
  ∧ (∀ blank, strip blank = [] →
       for_line_in sections (blank :: rest) ss = for_line_in sections rest ss)
  ∧ (∀ short, strip short ≠ [] → (length (split hash (strip short)) < 3)%nat →
       for_line_in sections (short :: rest) ss
       = (emit (st_warning (InvalidLineSkipped (strip short))) ;;;
          for_line_in sections rest) ss)
  ∧ (∀ open_text file_path pre line fail part0 part1 part2 more start_page end_page,
       open_text file_path = Ok {| lines := pre ++ line :: rest; failure := fail |} →
       Forall (λ earlier, ¬ line_fails earlier) pre →
       strip line ≠ [] →
       split hash (strip line) = part0 :: part1 :: part2 :: more →
       int part0 = Some start_page →
       int part1 = Some end_page →
       ∃ later,
         value (parse_data_detail open_text file_path ss)
         = Ok (sections_after pre ss
               ++ {| start := start_page; end_ := end_page; name := strip part2 |}
               :: later)).
Proof.
  assert (∀ sections line part0 part1 part2 more start_page end_page,
     split hash (strip line) = part0 :: part1 :: part2 :: more →
     int part0 = Some start_page →
     int part1 = Some end_page →
     for_line_in sections (line :: rest) ss
     = for_line_in
         (sections ++ [ {| start := start_page; end_ := end_page; name := strip part2 |} ])
         rest ss) as Hrecord.
  { intros secs line part0 part1 part2 more start_page end_page Hfields Hstart Hend.
    rewrite for_line_in_cons.
    rewrite (parse_line_record _ _ _ _ _ _ _ _ _ Hfields Hstart Hend).
    simpl. apply outcome_eta. }
  split_and!.
  - intros line part0 part1 part2 more start_page end_page _. apply Hrecord.
  - intros blank Hb. rewrite for_line_in_cons, (parse_line_blank _ _ Hb).
    simpl. apply outcome_eta.
  - intros short Hne Hlen. rewrite for_line_in_cons, (parse_line_short _ _ Hne Hlen).
    by rewrite !bind_emit.
  - intros open_text file_path pre line fail part0 part1 part2 more start_page end_page
      Hfile Hpre _ Hfields Hstart Hend.
    rewrite (parse_data_detail_value _ _ _ _ Hfile). unfold sections_after.
    cbn [lines]. rewrite for_line_in_app.
    pose proof (for_line_in_keeps pre [] ss) as Hk.
    destruct (for_line_in_reaches pre [] ss Hpre) as [earlier Hv].
    destruct (for_line_in [] pre ss) as [v ss1 t1]. cbn [value state_after] in *.
    subst v ss1. cbv zeta. cbn [value fst].
    rewrite (Hrecord _ _ _ _ _ _ _ _ Hfields Hstart Hend).
    destruct (for_line_in_returns rest
                (earlier ++ [ {| start := start_page; end_ := end_page;
                                 name := strip part2 |} ]) ss) as [[secs exc] Hv].
    rewrite Hv. destruct (for_line_in_extends _ _ _ _ _ Hv) as [later ->].
    exists later. cbn [fst]. by rewrite <- app_assoc.
Qed.

Lemma C2_reached_line_appends_one_record_witness :
  ∃ later,
    value (parse_data_detail broken_manifest data_detail_path ∅)
    = Ok (sections_after [] ∅
          ++ {| start := 1; end_ := 2; name := strip (py "A") |} :: later).
Proof.
  exact (proj2 (proj2 (proj2
    (C2_reached_line_appends_one_record [] [py "x#3#B"; py "4#5#C"] ∅)))
    broken_manifest data_detail_path [] (py "1#2#A") None
    (py "1") (py "2") (py "A") [] 1 2
    eq_refl (Forall_nil_2 _) ltac:(vm_compute; discriminate) eq_refl eq_refl eq_refl).
Defined.

Example manifest_lines_parsed :
  for_line_in [] manifest_lines ∅
  = Outcome (Ok ([ {| start := 1; end_ := 12; name := py "NHỮNG QUỐC GIA" |} ], None)) ∅
      [ st_warning (InvalidLineSkipped (py "13#XÂY DỰNG")) ].
Proof. vm_compute. reflexivity. Qed.

(** C8: a line of three fields or more whose first or second field is not
    an integer ends the loop of [parse_data_detail] at that line, with
    [sections] as the earlier lines left it; the function then returns what
    it returns for the file cut before that line, whatever follows the
    line. The line is not skipped: the lines after it are never read. *)
Theorem C8_bad_integer_stops_parsing
    (open_text : pystr → result text_stream) (file_path : pystr)
    (pre : list pystr) (line : pystr) (post : list pystr) (fail : option exn)
    (part0 part1 part2 : pystr) (more : list pystr) (ss : session_state)
    (Hfile : open_text file_path = Ok {| lines := pre ++ line :: post; failure := fail |})
    (Hfields : split hash (strip line) = part0 :: part1 :: part2 :: more)
    (Hbad : int part0 = None ∨ int part1 = None) :
  (∀ sections,
     for_line_in sections (line :: post) ss
     = Outcome (Ok (sections, Some ValueError)) ss [])
  ∧ value (parse_data_detail open_text file_path ss)
    = value (parse_data_detail (λ _, Ok {| lines := pre; failure := None |}) file_path ss)
  ∧ ∃ sections, value (parse_data_detail open_text file_path ss) = Ok sections.
Proof.
  split_and!.
  - intros sections. by eapply for_line_in_bad_integer.
  - rewrite (parse_data_detail_value _ _ _ _ Hfile).
    rewrite (parse_data_detail_value (λ _, Ok {| lines := pre; failure := None |})
               file_path ss _ eq_refl).
    f_equal. unfold sections_after. simpl. rewrite for_line_in_app.
    pose proof (for_line_in_keeps pre [] ss) as Hk.
    destruct (for_line_in [] pre ss) as [[[secs [e|]]|e] ss1 t1];
      cbn [value state_after emitted fst] in *; try done.
    subst ss1.
    by rewrite (for_line_in_bad_integer _ _ _ _ _ _ _ _ Hfields Hbad).
  - apply parse_data_detail_returns.
Qed.

Lemma C8_bad_integer_stops_parsing_witness :
  value (parse_data_detail broken_manifest data_detail_path ∅)
  = value (parse_data_detail
             (λ _, Ok {| lines := [py "1#2#A"]; failure := None |})
             data_detail_path ∅).
Proof.
  exact (proj1 (proj2 (C8_bad_integer_stops_parsing
    broken_manifest data_detail_path [py "1#2#A"] (py "x#3#B") [py "4#5#C"] None
    (py "x") (py "3") (py "B") [] ∅ eq_refl eq_refl (or_introl eq_refl)))).
Defined.

Example broken_manifest_run :
  parse_data_detail broken_manifest data_detail_path ∅
  = Outcome (Ok [ {| start := 1; end_ := 2; name := py "A" |} ]) ∅
      [ open_file data_detail_path (py "r");
        st_error (ManifestReadError data_detail_path ValueError) ].
Proof. vm_compute. reflexivity. Qed.

(** Every record the loop holds at its end was there at its start or is
    given by one of the lines. *)
Lemma for_line_in_records f : ∀ sections ss secs exc s,
  value (for_line_in sections f ss) = Ok (secs, exc) → s ∈ secs →
  s ∈ sections ∨ ∃ line, line ∈ f ∧ line_gives line s.
Proof.
  induction f as [|line rest IH]; intros sections ss secs exc s.
  - simpl. intros [= <- <-] Hs. by left.
  - rewrite for_line_in_cons.
    destruct (parse_line_cases sections line ss) as [Hv|[[s' [Hg Hv]]|Hv]];
      destruct (parse_line sections line ss) as [v ss1 t1];
      cbn [value] in Hv; subst v; cbn [value].
    + intros Hrest Hs. destruct (IH _ _ _ _ _ Hrest Hs) as [?|[l [Hl ?]]]; [by left|].
      right. exists l. split; [by right|done].
    + intros Hrest Hs. destruct (IH _ _ _ _ _ Hrest Hs) as [Hin|[l [Hl ?]]].
      * apply elem_of_app in Hin as [?|Hin]; [by left|].
        apply list_elem_of_singleton in Hin as ->.
        right. exists line. split; [by left|done].
      * right. exists l. split; [by right|done].
    + intros [= <- <-] Hs. by left.
Qed.

(** C3, as stated, fails: a line whose first integer is above its second
    gives a record with start > end. *)
Lemma C3_sections_ordered_counterexample :
  ∃ s, value (parse_data_detail reversed_manifest data_detail_path ∅) = Ok [s]
       ∧ start s = 5 ∧ end_ s = 3 ∧ ¬ (start s <= end_ s).
Proof.
  exists {| start := 5; end_ := 3; name := py "Ch" |}.
  split_and!; [by vm_compute|done|done|simpl; lia].
Qed.

(** C3, amended: every record that [parse_data_detail] returns is the one
    given by a line of the manifest: its start and end are the integers of
    the first two fields of that line, as they are. The bounds are not
    compared: a record has start <= end when its line has. *)
Theorem C3_sections_carry_line_bounds
    (open_text : pystr → result text_stream) (file_path : pystr)
    (ss : session_state) (sections : list section) (s : section)
    (Hrun : value (parse_data_detail open_text file_path ss) = Ok sections)
    (Hin : s ∈ sections) :
  ∃ f line part0 part1 part2 more,
    open_text file_path = Ok f
    ∧ line ∈ lines f
    ∧ split hash (strip line) = part0 :: part1 :: part2 :: more
    ∧ int part0 = Some (start s)
    ∧ int part1 = Some (end_ s)
    ∧ name s = strip part2.
Proof.
  destruct (open_text file_path) as [f|e] eqn:Hf.
  - rewrite (parse_data_detail_value _ _ _ _ Hf) in Hrun.
    injection Hrun as <-. unfold sections_after in Hin.
    destruct (for_line_in_returns (lines f) [] ss) as [[secs exc] Hv].
    rewrite Hv in Hin. simpl in Hin.
    destruct (for_line_in_records _ _ _ _ _ _ Hv Hin) as [Hnil|[line [Hl Hg]]].
    + by apply elem_of_nil in Hnil.
    + destruct Hg as (p0 & p1 & p2 & more & ? & ? & ? & ?).
      by exists f, line, p0, p1, p2, more.
  - destruct (parse_data_detail_returns open_text file_path ss) as [secs Hsecs].
    unfold parse_data_detail in Hrun. rewrite Hf, bind_emit in Hrun.
    cbn [value] in Hrun. unfold bind in Hrun.
    pose proof (report_read_failure_value file_path e ss) as Hr.
    destruct (report_read_failure file_path e ss) as [v ? ?]. simpl in Hr. subst v.
    simpl in Hrun. injection Hrun as <-. by apply elem_of_nil in Hin.
Qed.

Lemma C3_sections_carry_line_bounds_witness :
  ∃ f line part0 part1 part2 more,
    reversed_manifest data_detail_path = Ok f
    ∧ line ∈ lines f
    ∧ split hash (strip line) = part0 :: part1 :: part2 :: more
    ∧ int part0 = Some 5
    ∧ int part1 = Some 3
    ∧ py "Ch" = strip part2.
Proof.
  exact (C3_sections_carry_line_bounds reversed_manifest data_detail_path ∅
           [ {| start := 5; end_ := 3; name := py "Ch" |} ]
           {| start := 5; end_ := 3; name := py "Ch" |}
           eq_refl ltac:(apply list_elem_of_singleton; reflexivity)).
Defined.

(** ** The Section Resolver: nested sub-sections *)


(** For a main section of another name [resolve] shows nothing, no select
    box for sub-sections, and gives the pages of the section found under
    that name. *)
Lemma resolve_without_sub_sections
    selected_index list_capacity sections selected_main_section m ss :
  startswith selected_main_section (py "XÂY DỰNG") = false →
  find_by_name sections (Some selected_main_section) = Some m →
  resolve selected_index list_capacity sections selected_main_section ss
  = Outcome (match get_page_numbers list_capacity m with
             | Ok page_numbers => Ok (Next (page_numbers, None))
             | Raise e => Raise e
             end) ss [].
Proof.
  intros H Hm. unfold resolve. rewrite H, Hm.
  by destruct (get_page_numbers list_capacity m).
Qed.



(** ** The Presentation Layer *)

Ltac emits_step :=
  lazymatch goal with
  | |- emits_only _ (bind _ _) => apply emits_bind; [|intros ?]
  | |- emits_only _ (emit _) => apply emits_emit; simpl; try done
  | |- emits_only _ (ret _) => apply emits_ret
  | |- emits_only _ (raise _) => apply emits_raise
  | |- emits_only _ (lift _) => apply emits_lift
  | |- emits_only _ (try_except _ _) => apply emits_try_except; [|intros ?]
  | |- emits_only _ (attempt _) => apply emits_attempt
  | |- emits_only _ (for_each _ _) => apply emits_for_each; intros ?
  | |- emits_only _ (for_each_with _ _ _) => apply emits_for_each_with; intros ? ?
  | |- emits_only _ (st_text_area_call _ _ _) => unfold st_text_area_call
  | |- emits_only _ (encode_or_raise _) => unfold encode_or_raise
  | |- emits_only _ (read_local _) => unfold read_local
  | |- emits_only _ (int_or_raise _) => unfold int_or_raise
  | |- emits_only _ (if ?c then _ else _) => destruct c
  | |- emits_only _ (match ?x with _ => _ end) => destruct x
  end.

Ltac keeps_step :=
  lazymatch goal with
  | |- keeps_state (bind _ _) => apply keeps_bind; [|intros ?]
  | |- keeps_state (emit _) => apply keeps_emit
  | |- keeps_state (ret _) => apply keeps_ret
  | |- keeps_state (raise _) => apply keeps_raise
  | |- keeps_state (lift _) => apply keeps_lift
  | |- keeps_state (try_except _ _) => apply keeps_try_except; [|intros ?]
  | |- keeps_state (attempt _) => apply keeps_attempt
  | |- keeps_state (for_each _ _) => apply keeps_for_each; intros ?
  | |- keeps_state (for_each_with _ _ _) => apply keeps_for_each_with; intros ? ?
  | |- keeps_state (st_text_area_call _ _ _) => unfold st_text_area_call
  | |- keeps_state (if ?c then _ else _) => destruct c
  | |- keeps_state (match ?x with _ => _ end) => destruct x
  end.

Ltac returns_step :=
  lazymatch goal with
  | |- returns (bind _ _) => apply returns_bind; [|intros ?]
  | |- returns (emit _) => apply returns_emit
  | |- returns (ret _) => apply returns_ret
  | |- returns (try_except _ _) => apply returns_try_except; intros ?
  | |- returns (attempt _) => apply returns_attempt
  | |- returns (for_each _ _) => apply returns_for_each; intros ?
  | |- returns (if ?c then _ else _) => destruct c
  | |- returns (match ?x with _ => _ end) => destruct x
  end.

Lemma files_checked_app t1 t2 :
  files_checked (t1 ++ t2) = files_checked t1 ++ files_checked t2.
Proof. apply omap_app. Qed.

Lemma files_checked_none t : Forall no_file_check t → files_checked t = [].
Proof.
  induction 1 as [|e t He _ IH]; [done|].
  change (e :: t) with ([e] ++ t). rewrite files_checked_app, IH.
  by destruct e.
Qed.

Lemma files_checked_isfile p t :
  files_checked (os_path_isfile p :: t) = p :: files_checked t.
Proof. done. Qed.

Lemma files_checked_expander label t :
  files_checked (st_sidebar_expander label :: t) = files_checked t.
Proof. done. Qed.

(** From the events of one run to the events of every run. *)
Ltac to_emits :=
  lazymatch goal with
  | |- Forall ?P (emitted (?m ?ss)) => revert ss; change (emits_only P m)
  end.

Section Presentation.
Variable isfile : pystr → bool.
Variable read_bytes : pystr → result bytes.
Variable open_document : pystr → result Document.
Variable isalnum : pychar → bool.

Lemma pymupdf_parse_page_emits (P : event → Prop) pdf_path page_number :
  P (call_pymupdf_parse_page pdf_path page_number) →
  P (fitz_open pdf_path) →
  P (st_error (PageOutOfRange (page_number + 1) pdf_path)) →
  P (doc_load_page page_number) →
  (∀ e, P (st_error (PdfOpenError pdf_path e))) →
  emits_only P (pymupdf_parse_page open_document pdf_path page_number).
Proof.
  intros. unfold pymupdf_parse_page. repeat emits_step.
Qed.

Lemma pymupdf_render_page_as_image_emits (P : event → Prop) pdf_path page_number zoom :
  P (call_pymupdf_render_page_as_image pdf_path page_number zoom) →
  P (fitz_open pdf_path) →
  P (st_error (PageOutOfRange (page_number + 1) pdf_path)) →
  P (doc_load_page page_number) →
  (∀ e, P (st_error (PdfConvertError pdf_path e))) →
  emits_only P (pymupdf_render_page_as_image open_document pdf_path page_number zoom).
Proof.
  intros. unfold pymupdf_render_page_as_image. repeat emits_step.
Qed.

(** The first event of a page function is its own call. *)
Lemma pymupdf_parse_page_first pdf_path page_number ss :
  ∃ t, emitted (pymupdf_parse_page open_document pdf_path page_number ss)
       = call_pymupdf_parse_page pdf_path page_number :: t.
Proof. unfold pymupdf_parse_page. rewrite bind_emit. by eexists. Qed.


(** The body of the first loop returns; the bodies of both loops keep the
    session state. *)
Lemma show_page_returns zoom n : returns (show_page isfile open_document zoom n).
Proof. unfold show_page. repeat returns_step. Qed.

Lemma show_page_keeps zoom n : keeps_state (show_page isfile open_document zoom n).
Proof.
  unfold show_page. repeat keeps_step;
    apply pymupdf_render_page_as_image_keeps.
Qed.

Lemma encode_or_raise_keeps s : keeps_state (encode_or_raise s).
Proof. unfold encode_or_raise. destruct (encode_utf8 s); auto with py. Qed.

Lemma read_local_keeps {A} (v : option A) : keeps_state (read_local v).
Proof. destruct v; simpl; auto with py. Qed.

Lemma page_info_keeps show_text sub text_areas n :
  keeps_state
    (page_info isfile read_bytes open_document isalnum show_text sub text_areas n).
Proof.
  unfold page_info. repeat keeps_step;
    first [apply pymupdf_parse_page_keeps | apply encode_or_raise_keeps
          | apply read_local_keeps].
Qed.

(** Each round of a loop asks about one file, the file of its page. *)
Lemma show_page_files zoom n ss :
  files_checked (emitted (show_page isfile open_document zoom n ss)) = [pdf_path n].
Proof.
  unfold show_page. rewrite bind_emit. cbn [emitted].
  rewrite files_checked_isfile, files_checked_none; [done|].
  to_emits. repeat emits_step. by apply pymupdf_render_page_as_image_emits.
Qed.

Lemma page_info_files show_text sub text_areas n ss :
  files_checked
    (emitted (page_info isfile read_bytes open_document isalnum show_text sub
                text_areas n ss))
  = [pdf_path n].
Proof.
  unfold page_info. rewrite !bind_emit. cbn [emitted].
  rewrite files_checked_expander, files_checked_isfile, files_checked_none; [done|].
  to_emits. repeat emits_step. by apply pymupdf_parse_page_emits.
Qed.

Lemma for_each_files (body : Z → M unit) pages ss :
  (∀ n, returns (body n)) → (∀ n, keeps_state (body n)) →
  (∀ n ss, files_checked (emitted (body n ss)) = [pdf_path n]) →
  files_checked (emitted (for_each pages body ss)) = map pdf_path pages.
Proof.
  intros Hr Hk Hf. rewrite emitted_for_each by done.
  induction pages as [|n pages IH]; [done|].
  simpl. by rewrite files_checked_app, Hf, IH.
Qed.

(** A round for a page whose file is missing: the check and the message,
    nothing else. *)
Lemma show_page_missing zoom n ss :
  isfile (pdf_path n) = false →
  show_page isfile open_document zoom n ss
  = Outcome (Ok tt) ss
      [os_path_isfile (pdf_path n);
       st_error (PdfFileMissing (pdf_filename n) data_dir)].
Proof. intros H. unfold show_page. by rewrite H. Qed.

Lemma page_info_missing show_text sub text_areas n ss :
  isfile (pdf_path n) = false →
  page_info isfile read_bytes open_document isalnum show_text sub text_areas n ss
  = Outcome (Ok text_areas) ss
      [st_sidebar_expander (py "📄 Trang " ++ str_of_int n);
       os_path_isfile (pdf_path n);
       st_error (PdfFileMissing (pdf_filename n) data_dir)].
Proof. intros H. unfold page_info. by rewrite H. Qed.

(** The name of the file of a page. *)
Lemma pdf_path_spelled n : pdf_path n = py "./data/page_" ++ format_03 n ++ py ".pdf".
Proof. reflexivity. Qed.

Lemma format_03_nonneg n :
  0 <= n →
  format_03 n = repeat 0x30%N (3 - length (str_of_int n)) ++ str_of_int n.
Proof.
  intros H. unfold format_03, str_of_int.
  by rewrite (proj2 (Z.ltb_ge n 0) H).
Qed.

Lemma format_03_negative n :
  n < 0 →
  format_03 n
  = minus_sign :: repeat 0x30%N (2 - length (digits_of_abs n)) ++ digits_of_abs n.
Proof.
  intros H. unfold format_03. by rewrite (proj2 (Z.ltb_lt n 0) H).
Qed.

Lemma format_03_below_1000_checked :
  forallb (λ n, (length (format_03 n) =? 3)%nat
                && match int (format_03 n) with
                   | Some m => m =? n
                   | None => false
                   end)
          (seqZ 0 1000) = true.
Proof. vm_compute. reflexivity. Qed.

Lemma format_03_below_1000 n :
  0 <= n < 1000 → length (format_03 n) = 3%nat ∧ int (format_03 n) = Some n.
Proof.
  intros H. pose proof format_03_below_1000_checked as Hall.
  rewrite forallb_forall in Hall. specialize (Hall n).
  rewrite <- list_elem_of_In, elem_of_seqZ in Hall.
  specialize (Hall ltac:(lia)). apply andb_true_iff in Hall as [Hlen Hint].
  split; [by apply Nat.eqb_eq|].
  destruct (int (format_03 n)) as [m|]; [|done].
  apply Z.eqb_eq in Hint. by subst.
Qed.




Lemma page_info_calls_extractor show_text sub text_areas n ss :
  isfile (pdf_path n) = true →
  call_pymupdf_parse_page (pdf_path n) 0
  ∈ emitted (page_info isfile read_bytes open_document isalnum show_text sub
               text_areas n ss).
Proof.
  intros H. unfold page_info. rewrite !bind_emit, H. cbn [emitted negb].
  do 2 apply list_elem_of_further.
  destruct (pymupdf_parse_page_first (pdf_path n) page_number_default ss) as [t Ht].
  eapply first_event_bind in Ht as [t1 Ht].
  rewrite Ht. apply list_elem_of_here.
Qed.

End Presentation.


(** ** The whole program *)

Section Main.
Variable open_text : pystr → result text_stream.
Variable isfile : pystr → bool.
Variable read_bytes : pystr → result bytes.
Variable open_document : pystr → result Document.
Variable isalnum : pychar → bool.
Variable selected_index : pystr → nat.
Variable show_text_input : bool.
Variable zoom_input : float.
Variable list_capacity : Z.







End Main.

(** ** Worked examples *)

Example sub_sections_of_nested_manifest :
  map name (sub_sections nested_manifest
              {| start := 3; end_ := 6; name := py "XÂY DỰNG" |})
  = [py "XÂY DỰNG"; py "a"; py "b"].
Proof. reflexivity. Qed.

Example long_text_is_cut :
  ∃ text,
    value (pymupdf_parse_page long_documents (pdf_path 1) 0 ∅) = Ok text
    ∧ N.of_nat (length text) = 230000%N.
Proof.
  eexists. split.
  - by rewrite (pymupdf_parse_page_text long_documents (pdf_path 1) 0 ∅ _ _ _
                  eq_refl ltac:(unfold out_of_range; simpl; lia) eq_refl eq_refl).
  - unfold slice_to, text_limit. rewrite length_take, repeat_length. lia.
Qed.

Example page_1_of_a_one_page_document :
  pymupdf_parse_page long_documents (pdf_path 7) 1 ∅
  = Outcome (Ok []) ∅
      [ call_pymupdf_parse_page (pdf_path 7) 1; fitz_open (pdf_path 7);
        st_error (PageOutOfRange 2 (pdf_path 7)) ].
Proof. reflexivity. Qed.

Example render_of_a_file_that_cannot_be_opened :
  pymupdf_render_page_as_image no_documents (pdf_path 7) 0 zoom_default ∅
  = Outcome (Ok []) ∅
      [ call_pymupdf_render_page_as_image (pdf_path 7) 0 zoom_default;
        fitz_open (pdf_path 7);
        st_error (PdfConvertError (pdf_path 7) (OtherException (py "cannot open"))) ].
Proof. reflexivity. Qed.

Example first_loop_with_page_4_missing :
  emitted (for_each [3; 4; 5] (show_page page_4_missing no_documents zoom_default) ∅)
  = [ os_path_isfile (py "./data/page_003.pdf");
      call_pymupdf_render_page_as_image (py "./data/page_003.pdf") 0 zoom_default;
      fitz_open (py "./data/page_003.pdf");
      st_error (PdfConvertError (py "./data/page_003.pdf")
                  (OtherException (py "cannot open")));
      st_error CannotShowImage;
      st_markdown (py "---");
      os_path_isfile (py "./data/page_004.pdf");
      st_error (PdfFileMissing (py "page_004.pdf") (py "./data"));
      os_path_isfile (py "./data/page_005.pdf");
      call_pymupdf_render_page_as_image (py "./data/page_005.pdf") 0 zoom_default;
      fitz_open (py "./data/page_005.pdf");
      st_error (PdfConvertError (py "./data/page_005.pdf")
                  (OtherException (py "cannot open")));
      st_error CannotShowImage;
      st_markdown (py "---") ].
Proof. vm_compute. reflexivity. Qed.

Example format_03_examples :
  format_03 5 = py "005" ∧ format_03 42 = py "042" ∧ format_03 123 = py "123"
  ∧ format_03 1234 = py "1234" ∧ format_03 (-5) = py "-05".
Proof. repeat split; reflexivity. Qed.

(** ** The theorems at the example inputs *)


Lemma C9_parse_page_text_limit_witness :
  pymupdf_parse_page long_documents (pdf_path 1) 0 ∅
  = Outcome (Ok (slice_to 230000 (repeat 0x61%N (N.to_nat 230005)))) ∅
      [call_pymupdf_parse_page (pdf_path 1) 0; fitz_open (pdf_path 1); doc_load_page 0].
Proof.
  exact (proj2 (C9_parse_page_text_limit long_documents (pdf_path 1) 0 ∅)
           (one_page_document (repeat 0x61%N (N.to_nat 230005))) _ _
           eq_refl ltac:(unfold out_of_range; simpl; lia) eq_refl eq_refl).
Defined.

Lemma C10_page_functions_catch_everything_witness :
  value (pymupdf_parse_page no_documents (pdf_path 7) 0 ∅) = Ok []
  ∧ value (pymupdf_render_page_as_image no_documents (pdf_path 7) 0 zoom_default ∅)
    = Ok [].
Proof.
  exact (conj
    (proj1 (proj2 (proj2
       (C10_page_functions_catch_everything no_documents (pdf_path 7) 0 zoom_default ∅)))
       (extraction_open_fails no_documents (pdf_path 7) 0 _ eq_refl))
    (proj2 (proj2 (proj2
       (C10_page_functions_catch_everything no_documents (pdf_path 7) 0 zoom_default ∅)))
       (rendering_open_fails no_documents (pdf_path 7) 0 zoom_default _ eq_refl))).
Defined.

Lemma C7_initialize_session_state_frame_witness :
  state_after (initialize_session_state (PyInt 9)
                 (state_after (initialize_session_state (PyInt 4) ∅)))
  = state_after (initialize_session_state (PyInt 4) ∅).
Proof.
  exact (proj1 (proj2 (proj2 (proj2
           (C7_initialize_session_state_frame (PyInt 4) ∅)))) (PyInt 9)).
Defined.

(** * Further properties of the program *)

(** ** [get_page_numbers] on any section *)

(** X1: [get_page_numbers] on every section, also one whose end is below
    its start. Let n be max(0, end - start + 1). When n is at most
    [sys.maxsize] and at most what the machine can allocate, the function
    returns a list of n elements without repetition, which is empty exactly
    when end < start. When n is above [sys.maxsize] it raises
    [OverflowError]; when n is at most [sys.maxsize] and above what the
    machine can allocate, [MemoryError]. It returns in no other case. *)
Theorem get_page_numbers_any_section (list_capacity : Z) (s : section) :
  let n := Z.max 0 (end_ s - start s + 1) in
  (n <= sys_maxsize → n <= list_capacity →
   ∃ page_numbers,
     get_page_numbers list_capacity s = Ok page_numbers
     ∧ Z.of_nat (length page_numbers) = n
     ∧ NoDup page_numbers
     ∧ (page_numbers = [] ↔ end_ s < start s))
  ∧ (sys_maxsize < n → get_page_numbers list_capacity s = Raise OverflowError)
  ∧ (n <= sys_maxsize → list_capacity < n →
     get_page_numbers list_capacity s = Raise MemoryError)
  ∧ (∀ page_numbers,
       get_page_numbers list_capacity s = Ok page_numbers →
       n <= sys_maxsize ∧ n <= list_capacity).
Proof.
  intros n.
  assert (range_len (start s) (end_ s + 1) = n) as Hlen
    by (unfold range_len, n; f_equal; lia).
  unfold get_page_numbers. split_and!.
  - intros Hsize Hmem. exists (range (start s) (end_ s + 1)).
    rewrite list_of_range_ok by lia. unfold range. split_and!.
    + done.
    + rewrite length_seqZ. lia.
    + apply NoDup_seqZ.
    + split.
      * intros H. apply (f_equal length) in H. rewrite length_seqZ in H.
        simpl in H. lia.
      * intros H. apply seqZ_nil. lia.
  - intros Hsize. apply list_of_range_overflow. lia.
  - intros Hsize Hmem. apply list_of_range_memory; lia.
  - intros pages Hpages. apply list_of_range_inv in Hpages. lia.
Qed.

(** ** The Manifest Parser on whole files *)

(** What the loop body leaves in [sections] when it raises nothing. *)
Lemma parse_line_ok sections line ss secs :
  value (parse_line sections line ss) = Ok secs →
  secs = match line_record line with
         | Some r => sections ++ [r]
         | None => sections
         end.
Proof.
  unfold parse_line, line_record. case_bool_decide as Hblank.
  - rewrite Hblank. simpl. by intros [= <-].
  - destruct (split hash (strip line)) as [|p0 [|p1 [|p2 more]]];
      try (by intros [= <-]).
    unfold int_or_raise, bind, raise, ret.
    destruct (int p0) as [a|]; simpl; [|done].
    destruct (int p1) as [b|]; simpl; [|done].
    by intros [= <-].
Qed.

(** The loop holds, when it is left, the records of the lines it went
    through, in their order. *)
Lemma for_line_in_prefix f : ∀ sections ss,
  ∃ pre post exc,
    f = pre ++ post
    ∧ value (for_line_in sections f ss) = Ok (sections ++ omap line_record pre, exc)
    ∧ (exc = None → post = [])
    ∧ (∀ e, exc = Some e → ∃ line rest, post = line :: rest ∧ line_fails line).
Proof.
  induction f as [|line rest IH]; intros sections ss.
  - exists [], [], None. simpl. rewrite app_nil_r. by split_and!.
  - rewrite for_line_in_cons.
    destruct (parse_line sections line ss) as [[secs|e] ss1 t1] eqn:Hrun.
    + pose proof (parse_line_ok sections line ss secs) as Hok.
      rewrite Hrun in Hok. specialize (Hok eq_refl).
      destruct (IH secs ss1) as (pre & post & exc & -> & Hv & Hnone & Hsome).
      exists (line :: pre), post, exc. cbn [value]. rewrite Hv.
      split_and!; try done. f_equal. f_equal. subst secs. simpl.
      destruct (line_record line); [by rewrite <- app_assoc|done].
    + exists [], (line :: rest), (Some e). cbn [value omap]. simpl.
      rewrite app_nil_r. split_and!; try done. intros e' _. exists line, rest. split; [done|].
      apply (parse_line_raises sections line ss e). by rewrite Hrun.
Qed.

Lemma parse_data_detail_catches_everything_aux open_text file_path ss e :
  open_text file_path = Raise e →
  value (parse_data_detail open_text file_path ss) = Ok []
  ∧ state_after (parse_data_detail open_text file_path ss) = ss.
Proof.
  intros H. unfold parse_data_detail. rewrite H. by destruct e.
Qed.

(** X2: [parse_data_detail] raises nothing and leaves the session state
    alone. When the file cannot be opened it returns the empty list after
    one message: "not found" for [FileNotFoundError], "read error" for any
    other exception. *)
Theorem parse_data_detail_catches_everything
    (open_text : pystr → result text_stream) (file_path : pystr) (ss : session_state) :
  (∃ sections, value (parse_data_detail open_text file_path ss) = Ok sections)
  ∧ state_after (parse_data_detail open_text file_path ss) = ss
  ∧ (open_text file_path = Raise FileNotFoundError →
       parse_data_detail open_text file_path ss
       = Outcome (Ok []) ss
           [open_file file_path (py "r"); st_error (ManifestNotFound file_path)])
  ∧ (∀ e, open_text file_path = Raise e → e ≠ FileNotFoundError →
       parse_data_detail open_text file_path ss
       = Outcome (Ok []) ss
           [open_file file_path (py "r"); st_error (ManifestReadError file_path e)]).
Proof.
  split_and!.
  - apply parse_data_detail_returns.
  - apply parse_data_detail_keeps.
  - intros H. unfold parse_data_detail. by rewrite H.
  - intros e H Hne. unfold parse_data_detail. rewrite H. by destruct e.
Qed.

Lemma parse_data_detail_catches_everything_witness :
  parse_data_detail (λ _, Raise FileNotFoundError) data_detail_path ∅
  = Outcome (Ok []) ∅
      [open_file data_detail_path (py "r"); st_error (ManifestNotFound data_detail_path)].
Proof.
  exact (proj1 (proj2 (proj2
    (parse_data_detail_catches_everything (λ _, Raise FileNotFoundError)
       data_detail_path ∅))) eq_refl).
Defined.

(** X3: the list that [parse_data_detail] returns is the list of the
    records of a first part of the lines, in the order of the lines; it is
    the list of the records of all the lines when [int] fails on none of
    them, also when reading the file fails after the last line. *)
Theorem parse_data_detail_records_in_line_order
    (open_text : pystr → result text_stream) (file_path : pystr)
    (f : text_stream) (ss : session_state)
    (Hfile : open_text file_path = Ok f) :
  (∃ pre post,
     lines f = pre ++ post
     ∧ value (parse_data_detail open_text file_path ss) = Ok (omap line_record pre))
  ∧ (Forall (λ line, ¬ line_fails line) (lines f) →
       value (parse_data_detail open_text file_path ss)
       = Ok (omap line_record (lines f))).
Proof.
  rewrite (parse_data_detail_value _ _ _ _ Hfile). unfold sections_after.
  destruct (for_line_in_prefix (lines f) [] ss)
    as (pre & post & exc & Hsplit & Hv & Hnone & Hsome).
  rewrite Hv. cbn [fst app]. split.
  - by exists pre, post.
  - intros Hall. destruct exc as [e|].
    + destruct (Hsome e eq_refl) as (line & rest & -> & Hfails).
      rewrite Hsplit in Hall. apply Forall_app in Hall as [_ Hall].
      apply Forall_cons in Hall as [Hline _]. by destruct Hline.
    + rewrite Hsplit, (Hnone eq_refl). by rewrite app_nil_r.
Qed.

Lemma parse_data_detail_records_in_line_order_witness :
  (∃ pre post,
     [py "1#2#A"; py "x#3#B"; py "4#5#C"] = pre ++ post
     ∧ value (parse_data_detail broken_manifest data_detail_path ∅)
       = Ok (omap line_record pre))
  ∧ (Forall (λ line, ¬ line_fails line) [py "1#2#A"; py "x#3#B"; py "4#5#C"] →
       value (parse_data_detail broken_manifest data_detail_path ∅)
       = Ok (omap line_record [py "1#2#A"; py "x#3#B"; py "4#5#C"])).
Proof.
  exact (parse_data_detail_records_in_line_order broken_manifest data_detail_path
           {| lines := [py "1#2#A"; py "x#3#B"; py "4#5#C"]; failure := None |}
           ∅ eq_refl).
Defined.

(** ** The names of the records *)

Lemma lstrip_suffix s :
  ∃ spaces, s = spaces ++ lstrip s ∧ Forall (λ c, Py_UNICODE_ISSPACE c = true) spaces.
Proof.
  induction s as [|c r IH]; [by exists []|]. simpl.
  destruct (Py_UNICODE_ISSPACE c) eqn:Hc; [|by exists []].
  destruct IH as (spaces & Hr & Hall). exists (c :: spaces).
  split; [simpl; congruence|by constructor].
Qed.

Lemma lstrip_head s c : head (lstrip s) = Some c → Py_UNICODE_ISSPACE c = false.
Proof.
  induction s as [|a r IH]; simpl; [done|].
  destruct (Py_UNICODE_ISSPACE a) eqn:Ha; [done|]. simpl. by intros [= <-].
Qed.

Lemma rstrip_prefix s :
  ∃ spaces, s = rstrip s ++ spaces ∧ Forall (λ c, Py_UNICODE_ISSPACE c = true) spaces.
Proof.
  unfold rstrip. destruct (lstrip_suffix (rev s)) as (spaces & Hs & Hall).
  exists (rev spaces). split; [|by apply Forall_rev].
  rewrite <- rev_app_distr, <- Hs. by rewrite rev_involutive.
Qed.

Lemma rstrip_last s c : last (rstrip s) = Some c → Py_UNICODE_ISSPACE c = false.
Proof.
  unfold rstrip. rewrite rev_alt. fold (reverse (lstrip (rev s))).
  rewrite last_reverse. apply lstrip_head.
Qed.

(** [strip] cuts white space off both ends and nothing else. *)
Lemma strip_middle s :
  ∃ before after,
    s = before ++ strip s ++ after
    ∧ Forall (λ c, Py_UNICODE_ISSPACE c = true) before
    ∧ Forall (λ c, Py_UNICODE_ISSPACE c = true) after.
Proof.
  unfold strip. destruct (lstrip_suffix s) as (before & Hs & Hb).
  destruct (rstrip_prefix (lstrip s)) as (after & Hl & Ha).
  exists before, after. split_and!; try done. by rewrite <- Hl.
Qed.

Lemma strip_ends s :
  (∀ c, head (strip s) = Some c → Py_UNICODE_ISSPACE c = false)
  ∧ (∀ c, last (strip s) = Some c → Py_UNICODE_ISSPACE c = false).
Proof.
  split; [|apply rstrip_last].
  intros c Hc. unfold strip in *.
  destruct (rstrip_prefix (lstrip s)) as (after & Hl & _).
  apply (lstrip_head s). rewrite Hl.
  destruct (rstrip (lstrip s)); [done|]. exact Hc.
Qed.

(** No field of a split holds the separator. *)
Lemma split_fields_without_separator sep s :
  Forall (λ field, sep ∉ field) (split sep s).
Proof.
  induction s as [|c r IH]; simpl.
  - repeat constructor. apply not_elem_of_nil.
  - destruct (N.eqb_spec c sep) as [->|Hne].
    + constructor; [apply not_elem_of_nil|done].
    + destruct (split sep r) as [|field fields]; [repeat constructor|].
      * rewrite list_elem_of_singleton. congruence.
      * apply Forall_cons in IH as [Hfield Hfields]. constructor; [|done].
        rewrite elem_of_cons. intros [?|?]; [congruence|done].
Qed.

(** X4: the name of every record that [parse_data_detail] returns has no
    white space at its beginning or at its end and holds no ['#']: what
    follows a third ['#'] on a line is not part of the name. *)
Theorem parse_data_detail_names_are_clean
    (open_text : pystr → result text_stream) (file_path : pystr)
    (ss : session_state) (sections : list section) (s : section)
    (Hrun : value (parse_data_detail open_text file_path ss) = Ok sections)
    (Hin : s ∈ sections) :
  (hash ∉ name s)
  ∧ (∀ c, head (name s) = Some c → Py_UNICODE_ISSPACE c = false)
  ∧ (∀ c, last (name s) = Some c → Py_UNICODE_ISSPACE c = false).
Proof.
  assert (∃ line, line_gives line s) as [line Hg].
  { destruct (open_text file_path) as [f|e] eqn:Hf.
    - rewrite (parse_data_detail_value _ _ _ _ Hf) in Hrun.
      injection Hrun as <-. unfold sections_after in Hin.
      destruct (for_line_in_returns (lines f) [] ss) as [[secs exc] Hv].
      rewrite Hv in Hin. simpl in Hin.
      destruct (for_line_in_records _ _ _ _ _ _ Hv Hin) as [Hnil|[line [_ Hg]]];
        [by apply elem_of_nil in Hnil|by exists line].
    - destruct (parse_data_detail_catches_everything_aux open_text file_path ss e Hf)
        as [Hv _]. rewrite Hv in Hrun. injection Hrun as <-.
      by apply elem_of_nil in Hin. }
  destruct Hg as (p0 & p1 & p2 & more & Hsplit & _ & _ & ->).
  split; [|apply strip_ends].
  pose proof (split_fields_without_separator hash (strip line)) as Hall.
  rewrite Hsplit in Hall.
  apply Forall_cons in Hall as [_ Hall]. apply Forall_cons in Hall as [_ Hall].
  apply Forall_cons in Hall as [Hp2 _].
  destruct (strip_middle p2) as (before & after & Heq & _ & _).
  intros Hin2. apply Hp2. rewrite Heq. rewrite !elem_of_app. auto.
Qed.

Lemma parse_data_detail_names_are_clean_witness :
  (hash ∉ py "A b")
  ∧ (∀ c, head (py "A b") = Some c → Py_UNICODE_ISSPACE c = false)
  ∧ (∀ c, last (py "A b") = Some c → Py_UNICODE_ISSPACE c = false).
Proof.
  exact (parse_data_detail_names_are_clean
           (λ _, Ok {| lines := [py " 1#2#  A b #rest "]; failure := None |})
           data_detail_path ∅
           [ {| start := 1; end_ := 2; name := py "A b" |} ]
           {| start := 1; end_ := 2; name := py "A b" |}
           eq_refl (list_elem_of_here _ _)).
Defined.

(** ** The page functions when nothing fails *)

(** X5: when the file opens, the page number is one of the document and
    loading and extracting succeed, [pymupdf_parse_page] returns the text
    of that page, unchanged if it has at most 230000 characters, and
    [pymupdf_render_page_as_image] returns the PNG bytes of the pixmap of
    that page at the given zoom; both leave the session state alone and
    show no message. *)
Theorem page_functions_return_the_page
    (open_document : pystr → result Document) (pdf_path : pystr) (page_number : Z)
    (zoom : float) (ss : session_state) (doc : Document) (page : Page)
    (Hopen : open_document pdf_path = Ok doc)
    (Hrange : 0 <= page_number < page_count doc)
    (Hload : load_page doc page_number = Ok page) :
  (∀ text, get_text page = Ok text → (N.of_nat (length text) <= 230000)%N →
     pymupdf_parse_page open_document pdf_path page_number ss
     = Outcome (Ok text) ss
         [call_pymupdf_parse_page pdf_path page_number; fitz_open pdf_path;
          doc_load_page page_number])
  ∧ (∀ pix img, get_pixmap page zoom = Ok pix → tobytes_png pix = Ok img →
       pymupdf_render_page_as_image open_document pdf_path page_number zoom ss
       = Outcome (Ok img) ss
           [call_pymupdf_render_page_as_image pdf_path page_number zoom;
            fitz_open pdf_path; doc_load_page page_number]).
Proof.
  assert (¬ out_of_range doc page_number) as Hin by (unfold out_of_range; lia).
  split.
  - intros text Htext Hlen.
    rewrite (pymupdf_parse_page_text _ _ _ _ _ _ _ Hopen Hin Hload Htext).
    do 2 f_equal. unfold slice_to, text_limit. apply take_ge. lia.
  - intros pix img Hpix Himg.
    by apply (pymupdf_render_page_as_image_png _ _ _ _ _ doc page pix).
Qed.

Lemma page_functions_return_the_page_witness :
  pymupdf_parse_page (λ _, Ok (one_page_document (py "text of the page")))
    (pdf_path 3) 0 ∅
  = Outcome (Ok (py "text of the page")) ∅
      [call_pymupdf_parse_page (pdf_path 3) 0; fitz_open (pdf_path 3); doc_load_page 0].
Proof.
  exact (proj1 (page_functions_return_the_page
                  (λ _, Ok (one_page_document (py "text of the page")))
                  (pdf_path 3) 0 zoom_default ∅
                  (one_page_document (py "text of the page")) _
                  eq_refl ltac:(simpl; lia) eq_refl)
           (py "text of the page") eq_refl ltac:(vm_compute; discriminate)).
Defined.

(** ** The session state in [main] *)

Lemma state_after_bind_keeps {A B} (m : M A) (f : A → M B) ss :
  (∀ a, keeps_state (f a)) → state_after (bind m f ss) = state_after (m ss).
Proof.
  intros Hf. unfold bind. destruct (m ss) as [[a|e] ss1 t1]; [|done].
  specialize (Hf a ss1). by destruct (f a ss1).
Qed.

Lemma keeps_writes_once {A} (m : M A) : keeps_state m → writes_total_pages_once m.
Proof. intros Hk ss. rewrite (Hk ss). by split. Qed.

Lemma initialize_session_state_writes_once total_pages :
  writes_total_pages_once (initialize_session_state total_pages).
Proof.
  intros ss. unfold initialize_session_state.
  destruct (ss !! total_pages_key) as [v|] eqn:E; simpl; split; try done.
  intros k Hk. by rewrite lookup_insert_ne.
Qed.

Lemma writes_once_after_keeps {A B} (m : M A) (f : A → M B) :
  keeps_state m → (∀ a, writes_total_pages_once (f a)) →
  writes_total_pages_once (bind m f).
Proof.
  intros Hm Hf ss. unfold bind. specialize (Hm ss).
  destruct (m ss) as [[a|e] ss1 t1]; simpl in Hm; subst ss1; [|done].
  specialize (Hf a ss). by destruct (f a ss).
Qed.

Section MainState.
Variable open_text : pystr → result text_stream.
Variable isfile : pystr → bool.
Variable read_bytes : pystr → result bytes.
Variable open_document : pystr → result Document.
Variable isalnum : pychar → bool.
Variable selected_index : pystr → nat.
Variable show_text_input : bool.
Variable zoom_input : float.
Variable list_capacity : Z.

Lemma selectbox_keeps label options : keeps_state (selectbox selected_index label options).
Proof. unfold selectbox. repeat keeps_step. Qed.

Lemma resolve_keeps sections selected_main_section :
  keeps_state (resolve selected_index list_capacity sections selected_main_section).
Proof. unfold resolve. repeat keeps_step; apply selectbox_keeps. Qed.

(** The state that [present] leaves is the one its first statement
    leaves. *)
Lemma present_state selected_main_section selected_sub_section_name page_numbers ss :
  state_after (present isfile read_bytes open_document isalnum show_text_input
                 zoom_input selected_main_section selected_sub_section_name
                 page_numbers ss)
  = state_after (initialize_session_state
                   (PyInt (Z.of_nat (length page_numbers))) ss).
Proof.
  unfold present. apply state_after_bind_keeps. intros _.
  repeat keeps_step;
    first [ apply read_local_keeps | apply show_page_keeps | apply page_info_keeps ].
Qed.

Lemma present_writes_once selected_main_section selected_sub_section_name page_numbers :
  writes_total_pages_once
    (present isfile read_bytes open_document isalnum show_text_input zoom_input
       selected_main_section selected_sub_section_name page_numbers).
Proof.
  intros ss. rewrite present_state. apply initialize_session_state_writes_once.
Qed.

Lemma main_writes_once :
  writes_total_pages_once
    (main open_text isfile read_bytes open_document isalnum selected_index
       show_text_input zoom_input list_capacity).
Proof.
  unfold main.
  apply writes_once_after_keeps; [apply keeps_emit|intros _].
  apply writes_once_after_keeps; [apply keeps_emit|intros _].
  apply writes_once_after_keeps; [apply parse_data_detail_keeps|intros sections].
  destruct sections as [|s sections]; [apply keeps_writes_once, keeps_emit|].
  apply writes_once_after_keeps; [apply keeps_emit|intros _].
  apply writes_once_after_keeps; [apply selectbox_keeps|intros [sel|]].
  - apply writes_once_after_keeps; [apply resolve_keeps|intros [[]|[pages sub]]].
    + apply keeps_writes_once, keeps_ret.
    + apply present_writes_once.
  - apply keeps_writes_once, keeps_raise.
Qed.

(** X6: a run of [main] changes no field of the session state other than
    ['total_pages'], whatever it shows and also when it raises; when
    ['total_pages'] is present at the start it changes nothing at all, so
    the count stored by an earlier run stays, whatever section is selected
    now. When the Presentation Layer starts with the field absent, it
    stores the number of resolved pages. *)
Theorem main_writes_total_pages_only (ss : session_state) :
  (∀ k, k ≠ total_pages_key →
     state_after (main open_text isfile read_bytes open_document isalnum
                    selected_index show_text_input zoom_input list_capacity ss) !! k
     = ss !! k)
  ∧ (is_Some (ss !! total_pages_key) →
       state_after (main open_text isfile read_bytes open_document isalnum
                      selected_index show_text_input zoom_input list_capacity ss)
       = ss)
  ∧ (∀ selected_main_section selected_sub_section_name page_numbers,
       ss !! total_pages_key = None →
       state_after (present isfile read_bytes open_document isalnum show_text_input
                      zoom_input selected_main_section selected_sub_section_name
                      page_numbers ss)
       = <[total_pages_key := PyInt (Z.of_nat (length page_numbers))]> ss).
Proof.
  split_and!.
  - apply main_writes_once.
  - apply main_writes_once.
  - intros sel sub pages Hnone. rewrite present_state.
    unfold initialize_session_state. by rewrite Hnone.
Qed.

End MainState.

(** ** When [main] raises *)

Lemma try_except_ok {A} (body : M A) (handler : exn → M A) ss a ss1 t1 :
  body ss = Outcome (Ok a) ss1 t1 → try_except body handler ss = Outcome (Ok a) ss1 t1.
Proof. intros H. unfold try_except. by rewrite H. Qed.

Lemma try_except_raise {A} (body : M A) (handler : exn → M A) ss e ss1 t1 :
  body ss = Outcome (Raise e) ss1 t1 →
  try_except body handler ss
  = Outcome (value (handler e ss1)) (state_after (handler e ss1))
      (t1 ++ emitted (handler e ss1)).
Proof. intros H. unfold try_except. rewrite H. by destruct (handler e ss1). Qed.

Lemma value_bind {A B} (m : M A) (f : A → M B) ss a ss1 t1 :
  m ss = Outcome (Ok a) ss1 t1 → value (bind m f ss) = value (f a ss1).
Proof. intros H. by rewrite (bind_ok _ _ _ _ _ _ H). Qed.

Lemma value_bind_emit {B} e (f : unit → M B) ss :
  value (bind (emit e) f ss) = value (f tt ss).
Proof. by rewrite bind_emit. Qed.

Lemma find_by_name_of_section sections n :
  n ∈ map name sections → is_Some (find_by_name sections (Some n)).
Proof.
  intros Hn. unfold find_by_name.
  destruct (List.find (λ s, bool_decide (name s = n)) sections) as [s|] eqn:Hfind;
    [by eexists|].
  apply list_elem_of_fmap in Hn as (s & -> & Hs).
  apply list_elem_of_In in Hs.
  pose proof (find_none _ _ Hfind s Hs) as Hfalse. simpl in Hfalse.
  by rewrite bool_decide_eq_true_2 in Hfalse.
Qed.

Section MainRuns.
Variable open_text : pystr → result text_stream.
Variable isfile : pystr → bool.
Variable read_bytes : pystr → result bytes.
Variable open_document : pystr → result Document.
Variable isalnum : pychar → bool.
Variable selected_index : pystr → nat.
Variable show_text_input : bool.
Variable zoom_input : float.
Variable list_capacity : Z.

(** The select box gives one of its options, and [None] only when there is
    none. *)
Lemma selectbox_run label options ss :
  ∃ choice,
    selectbox selected_index label options ss
    = Outcome (Ok choice) ss [st_sidebar_selectbox label options]
    ∧ (options = [] → choice = None)
    ∧ (options ≠ [] → ∃ n, choice = Some n ∧ n ∈ options).
Proof.
  unfold selectbox. rewrite bind_emit. eexists. split; [reflexivity|].
  destruct (options !! selected_index label) as [x|] eqn:Hx.
  - split.
    + intros ->. by rewrite lookup_nil in Hx.
    + intros _. exists x. split; [done|]. by eapply list_elem_of_lookup_2.
  - destruct options as [|o options]; [done|]. split; [done|].
    intros _. exists o. split; [done|]. apply list_elem_of_here.
Qed.

(** X8: when the manifest gives no section (also when it is missing or
    cannot be read), [main] shows the title, the messages of the parser and
    the message "no valid section", and nothing else: no select box, no
    file is looked for, the session state is not touched. *)
Theorem main_without_sections
    (ss : session_state)
    (Hparse : value (parse_data_detail open_text data_detail_path ss) = Ok []) :
  main open_text isfile read_bytes open_document isalnum selected_index
    show_text_input zoom_input list_capacity ss
  = Outcome (Ok tt) ss
      (st_set_page_config (py "NHÓM 1") :: st_title (py "NHÓM 1")
       :: emitted (parse_data_detail open_text data_detail_path ss)
       ++ [st_error NoValidSections]).
Proof.
  pose proof (parse_data_detail_keeps open_text data_detail_path ss) as Hkeep.
  destruct (parse_data_detail open_text data_detail_path ss) as [v ss1 t1] eqn:Hrun.
  cbn [value state_after emitted] in *. subst v ss1.
  unfold main. rewrite !bind_emit, (bind_ok _ _ _ _ _ _ Hrun). done.
Qed.

End MainRuns.

Lemma main_without_sections_witness :
  main (λ _, Raise FileNotFoundError) page_4_missing (λ _, Ok []) no_documents
    (λ _, false) (λ _, 0%nat) true zoom_default 1000 ∅
  = Outcome (Ok tt) ∅
      (st_set_page_config (py "NHÓM 1") :: st_title (py "NHÓM 1")
       :: emitted (parse_data_detail (λ _, Raise FileNotFoundError) data_detail_path ∅)
       ++ [st_error NoValidSections]).
Proof.
  exact (main_without_sections (λ _, Raise FileNotFoundError) page_4_missing
           (λ _, Ok []) no_documents (λ _, false) (λ _, 0%nat) true zoom_default
           1000 ∅ eq_refl).
Defined.

(** ** The rounds of the two loops *)

Section Rounds.
Variable isfile : pystr → bool.
Variable read_bytes : pystr → result bytes.
Variable open_document : pystr → result Document.
Variable isalnum : pychar → bool.

(** X9: for a page whose file exists, a round of the first loop checks
    the file, enters the renderer, then shows either the image with the
    caption "Trang n" (when the renderer returned bytes) or the message
    "cannot show the image" (when it returned none), and ends with the
    separator; it raises nothing and leaves the session state alone. *)
Theorem show_page_shows_image_or_message
    (zoom_factor : float) (n : Z) (ss : session_state)
    (Hfile : isfile (pdf_path n) = true) :
  ∃ img_bytes,
    value (pymupdf_render_page_as_image open_document (pdf_path n) 0 zoom_factor ss)
    = Ok img_bytes
    ∧ show_page isfile open_document zoom_factor n ss
      = Outcome (Ok tt) ss
          (os_path_isfile (pdf_path n)
           :: emitted (pymupdf_render_page_as_image open_document (pdf_path n) 0
                         zoom_factor ss)
           ++ [image_or_message img_bytes n; st_markdown (py "---")]).
Proof.
  destruct (pymupdf_render_page_as_image_returns open_document (pdf_path n) 0
              zoom_factor ss) as [img Himg].
  pose proof (pymupdf_render_page_as_image_keeps open_document (pdf_path n) 0
                zoom_factor ss) as Hkeep.
  exists img. split; [done|].
  unfold show_page. rewrite bind_emit, Hfile. cbn [negb].
  destruct (pymupdf_render_page_as_image open_document (pdf_path n) 0 zoom_factor ss)
    as [v ss1 t1] eqn:Hrun.
  cbn [value state_after emitted] in *. subst v ss1.
  erewrite (bind_ok (try_except _ _)); last first.
  { apply try_except_ok. rewrite (bind_ok _ _ _ _ _ _ Hrun).
    instantiate (1 := t1 ++ [image_or_message img n]). instantiate (1 := ss).
    instantiate (1 := tt). by destruct img. }
  unfold emit. cbn [value state_after emitted]. by rewrite <- app_assoc.
Qed.

Lemma rstrip_Forall (P : pychar → Prop) s : Forall P s → Forall P (rstrip s).
Proof.
  intros H. destruct (rstrip_prefix s) as (spaces & Hs & _).
  rewrite Hs in H. by apply Forall_app in H as [H _].
Qed.

Lemma filter_safe_Forall name :
  Forall (λ c, safe_char isalnum c = true) (List.filter (safe_char isalnum) name).
Proof.
  apply Forall_forall. intros c Hc.
  apply list_elem_of_In, filter_In in Hc. tauto.
Qed.

Lemma emits_bind_raise {A B} P e (f : A → M B) : emits_only P (bind (raise e) f).
Proof. intros ss. constructor. Qed.

Ltac emits_step_plain :=
  lazymatch goal with
  | |- emits_only _ (bind (read_local None) _) => apply (emits_bind_raise _ NameError)
  | |- emits_only _ (bind _ _) => apply emits_bind; [|intros ?]
  | |- emits_only _ (emit _) => apply emits_emit
  | |- emits_only _ (ret _) => apply emits_ret
  | |- emits_only _ (raise _) => apply emits_raise
  | |- emits_only _ (lift _) => apply emits_lift
  | |- emits_only _ (try_except _ _) => apply emits_try_except; [|intros ?]
  | |- emits_only _ (encode_or_raise _) => unfold encode_or_raise
  | |- emits_only _ (st_text_area_call _ _ _) => unfold st_text_area_call
  | |- emits_only _ (read_local None) => apply (emits_raise _ NameError)
  | |- emits_only _ (read_local _) => unfold read_local
  | |- emits_only _ (if ?c then _ else _) => destruct c
  | |- emits_only _ (match ?x with _ => _ end) => destruct x
  end.

Lemma not_elem_of_Forall {A} (P : A → Prop) (l : list A) (x : A) :
  Forall P l → ¬ P x → x ∉ l.
Proof. intros Hall Hx Hin. by apply Hx, (proj1 (Forall_forall P l) Hall). Qed.

Lemma pymupdf_parse_page_Forall (P : event → Prop) pdf_path page_number ss text t :
  pymupdf_parse_page open_document pdf_path page_number ss = Outcome (Ok text) ss t →
  P (call_pymupdf_parse_page pdf_path page_number) →
  P (fitz_open pdf_path) →
  P (st_error (PageOutOfRange (page_number + 1) pdf_path)) →
  P (doc_load_page page_number) →
  (∀ e, P (st_error (PdfOpenError pdf_path e))) →
  Forall P t.
Proof.
  intros Hrun H1 H2 H3 H4 H5.
  pose proof (pymupdf_parse_page_emits open_document P pdf_path page_number
                H1 H2 H3 H4 H5 ss) as H.
  by rewrite Hrun in H.
Qed.

(** The whole round of the second loop for a page whose file exists. With
    the text shown, the round raises at the text area when the text of the
    page is the value of a text area created earlier in the run: nothing of
    the round follows. Otherwise it runs to its end. *)
Lemma page_info_run show_text selected_sub_section_name text_areas n ss :
  isfile (pdf_path n) = true →
  ∃ page_text t_parse,
    pymupdf_parse_page open_document (pdf_path n) page_number_default ss
    = Outcome (Ok page_text) ss t_parse
    ∧ page_info isfile read_bytes open_document isalnum show_text
        selected_sub_section_name text_areas n ss
      = if show_text && bool_decide (page_text ∈ text_areas)
        then Outcome (Raise StreamlitDuplicateElementId) ss
               (st_sidebar_expander (py "📄 Trang " ++ str_of_int n)
                :: os_path_isfile (pdf_path n)
                :: t_parse)
        else Outcome (Ok (if show_text then page_text :: text_areas else text_areas)) ss
               (st_sidebar_expander (py "📄 Trang " ++ str_of_int n)
                :: os_path_isfile (pdf_path n)
                :: t_parse
                ++ (if show_text
                    then [st_text_area (py "Văn Bản Đã Trích Xuất:") page_text]
                    else [])
                ++ st_columns 2
                :: pdf_download_part n (read_bytes (pdf_path n))
                ++ (if show_text
                    then [text_download_part isalnum n selected_sub_section_name
                            page_text]
                    else [])).
Proof.
  intros Hfile.
  destruct (pymupdf_parse_page_returns open_document (pdf_path n)
              page_number_default ss) as [text Htext].
  pose proof (pymupdf_parse_page_keeps open_document (pdf_path n)
                page_number_default ss) as Hkeep.
  destruct (pymupdf_parse_page open_document (pdf_path n) page_number_default ss)
    as [v ss1 t1] eqn:Hparse. cbn [value state_after] in *. subst v ss1.
  exists text, t1. split; [done|].
  assert (try_except
            (emit (open_file (pdf_path n) (py "rb")) ;;;
             pdf_bytes <- lift (read_bytes (pdf_path n)) ;;
             emit (st_download_button (py "📥 Tải Xuống Trang PDF") pdf_bytes
                     (pdf_filename n) (py "application/pdf")))
            (λ e, emit (st_error (PdfDownloadError e))) ss
          = Outcome (Ok tt) ss (pdf_download_part n (read_bytes (pdf_path n))))
    as Hpdf.
  { unfold pdf_download_part. by destruct (read_bytes (pdf_path n)). }
  unfold page_info. rewrite !bind_emit, Hfile. cbn [negb].
  rewrite (bind_ok _ _ _ _ _ _ Hparse).
  destruct show_text; cbn [andb].
  - unfold st_text_area_call. case_bool_decide as Hdup.
    + rewrite (bind_raise _ _ ss StreamlitDuplicateElementId ss []) by done.
      cbn [value state_after emitted]. by rewrite app_nil_r.
    + rewrite bind_assoc, bind_emit, bind_ret, bind_emit.
      rewrite (bind_ok _ _ _ _ _ _ Hpdf).
      assert (try_except
                (buffer <- encode_or_raise text ;;
                 section_name <- read_local selected_sub_section_name ;;
                 emit (st_download_button (py "📄 Tải Xuống Văn Bản Đã Trích Xuất")
                         buffer
                         (rstrip (List.filter (safe_char isalnum) section_name)
                          ++ py "_Trang_" ++ str_of_int n ++ py ".txt")
                         (py "text/plain")))
                (λ e, emit (st_error (TextDownloadError e))) ss
              = Outcome (Ok tt) ss
                  [text_download_part isalnum n selected_sub_section_name text])
        as Htxt.
      { unfold text_download_part, encode_or_raise.
        destruct (encode_utf8 text) as [buffer|]; [|done].
        by destruct selected_sub_section_name. }
      rewrite (bind_ok _ _ _ _ _ _ Htxt).
      unfold ret. cbn [value state_after emitted]. by rewrite app_nil_r.
  - rewrite bind_ret, bind_emit, (bind_ok _ _ _ _ _ _ Hpdf), bind_ret.
    unfold ret. cbn [value state_after emitted]. by rewrite !app_nil_r.
Qed.

(** X10: every button for the download of the text that a round of the
    second loop shows has a file name that begins with letters, digits,
    blanks, underscores and hyphens only (what is kept of the section
    name), without white space at their end, followed by ["_Trang_"], the
    page number and [".txt"]. *)
Theorem page_info_text_file_name_is_safe
    (show_text : bool) (selected_sub_section_name : option pystr)
    (text_areas : list pystr) (n : Z) (ss : session_state) :
  Forall (text_download_is_safe isalnum n)
    (emitted (page_info isfile read_bytes open_document isalnum show_text
                selected_sub_section_name text_areas n ss)).
Proof.
  to_emits. unfold page_info. repeat emits_step_plain.
  all: try exact I.
  all: try (apply pymupdf_parse_page_emits; intros; exact I).
  - intros Hmime. vm_compute in Hmime. discriminate.
  - intros _.
    match goal with
    | |- context [rstrip (List.filter _ ?name)] =>
        exists (rstrip (List.filter (safe_char isalnum) name))
    end.
    split_and!; [done| |apply rstrip_last].
    apply rstrip_Forall, filter_safe_Forall.
Qed.

(** X11: when no sub-section was selected (the first part), a round of
    the second loop never shows a button for the download of the text. With
    the text shown and the file of the page present, a round that runs to
    its end shows an error message in its place: the name of the
    sub-section, which the file name needs, was never bound ([NameError]),
    unless the text could not be encoded first. A round that does not run
    to its end was stopped at the text area (the text of the page is the
    value of an earlier text area) and shows nothing about downloads. *)
Theorem page_info_first_part_has_no_text_download
    (show_text : bool) (text_areas : list pystr) (n : Z) (ss : session_state) :
  let run := page_info isfile read_bytes open_document isalnum show_text None
               text_areas n ss in
  Forall no_text_download (emitted run)
  ∧ (show_text = true → isfile (pdf_path n) = true →
     ∀ text_areas', value run = Ok text_areas' →
       st_error (TextDownloadError NameError) ∈ emitted run
       ∨ st_error (TextDownloadError UnicodeEncodeError) ∈ emitted run)
  ∧ (∀ e, value run = Raise e →
       e = StreamlitDuplicateElementId
       ∧ show_text = true
       ∧ isfile (pdf_path n) = true
       ∧ (st_columns 2 ∉ emitted run)
       ∧ (∃ page_text,
            value (pymupdf_parse_page open_document (pdf_path n)
                     page_number_default ss) = Ok page_text
            ∧ page_text ∈ text_areas)).
Proof.
  intros run. subst run. split_and!.
  - to_emits. unfold page_info. repeat emits_step_plain.
    all: try exact I.
    all: try (apply pymupdf_parse_page_emits; intros; exact I).
    intros Hmime. vm_compute in Hmime. discriminate.
  - intros -> Hfile text_areas'.
    destruct (page_info_run true None text_areas n ss Hfile)
      as (text & t & Hparse & ->).
    cbn [andb]. case_bool_decide as Hdup; [done|]. intros _.
    cbn [emitted]. unfold text_download_part.
    destruct (encode_utf8 text) as [buffer|]; [left|right].
    all: do 2 apply list_elem_of_further.
    all: apply elem_of_app; right.
    all: do 2 apply list_elem_of_further.
    all: apply elem_of_app; right; apply list_elem_of_here.
  - intros e. destruct (isfile (pdf_path n)) eqn:Hfile.
    + destruct (page_info_run show_text None text_areas n ss Hfile)
        as (text & t & Hparse & ->).
      destruct show_text; cbn [andb]; [|done].
      case_bool_decide as Hdup; [|done].
      cbn [value emitted]. intros [= <-]. split_and!; try done.
      * apply (not_elem_of_Forall (λ ev, ev ≠ st_columns 2)); [|by intros H].
        repeat apply Forall_cons_2; try done.
        by eapply pymupdf_parse_page_Forall.
      * exists text. by rewrite Hparse.
    + by rewrite (page_info_missing _ _ _ _ _ _ _ _ _ Hfile).
Qed.

End Rounds.

(** ** Page numbers and file names *)

Lemma digits_of_uint_digits l :
  Forall (λ c, (0x30 <= c <= 0x39)%N) (digits_of_uint l).
Proof. induction l; simpl; constructor; try done; lia. Qed.

Lemma digits_of_uint_nil l : digits_of_uint l = [] → l = Decimal.Nil.
Proof. by destruct l. Qed.

Lemma digits_of_abs_not_nil n : digits_of_abs n ≠ [].
Proof.
  unfold digits_of_abs. intros H%digits_of_uint_nil.
  destruct (Z.abs_N n) as [|p]; [done|]. by apply (DecimalPos.Unsigned.to_uint_nonnil p).
Qed.

Lemma digit_value_of_digit c :
  (0x30 <= c <= 0x39)%N → digit_value c = Some (Z.of_N c - 0x30) ∧ c ≠ underscore.
Proof.
  intros H. unfold digit_value, underscore.
  rewrite (proj2 (andb_true_iff _ _)) by (split; apply N.leb_le; lia).
  split; [done|lia].
Qed.

(** Scanning the digits that [digits_of_uint] prints gives back the
    number. *)
Lemma scan_digits_of_uint_acc l : ∀ acc digs,
  scan_digits false (Z.pos acc) digs (digits_of_uint l)
  = Some (Z.pos (Pos.of_uint_acc l acc),
          (digs + N.of_nat (length (digits_of_uint l)))%N, []).
Proof.
  induction l; intros acc digs; simpl;
    [do 2 f_equal; f_equal; lia|..];
    match goal with
    | |- scan_digits false ?a _ _ = Some (Z.pos (Pos.of_uint_acc l ?p), _, _) =>
        replace a with (Z.pos p) by lia
    end;
    rewrite IHl; do 2 f_equal; f_equal; lia.
Qed.

Lemma scan_digits_of_uint l : ∀ digs,
  scan_digits false 0 digs (digits_of_uint l)
  = Some (Z.of_N (Pos.of_uint l),
          (digs + N.of_nat (length (digits_of_uint l)))%N, []).
Proof.
  induction l; intros digs; simpl;
    [do 2 f_equal; f_equal; lia
    |change (10 * 0 + (48 - 48)) with 0; rewrite IHl; do 2 f_equal; f_equal; lia
    |match goal with
     | |- scan_digits false ?a _ _ = Some (Z.pos (Pos.of_uint_acc l ?p), _, _) =>
         change a with (Z.pos p)
     end;
     rewrite (scan_digits_of_uint_acc l); do 2 f_equal; f_equal; lia..].
Qed.

Lemma scan_digits_zeros k s : ∀ digs,
  scan_digits false 0 digs (repeat 0x30%N k ++ s)
  = scan_digits false 0 (digs + N.of_nat k)%N s.
Proof.
  induction k as [|k IH]; intros digs; simpl.
  - f_equal. lia.
  - rewrite IH. f_equal. lia.
Qed.

Lemma scan_digits_of_abs n k :
  scan_digits false 0 0%N (repeat 0x30%N k ++ digits_of_abs n)
  = Some (Z.abs n, N.of_nat (k + length (digits_of_abs n)), []).
Proof.
  rewrite scan_digits_zeros. unfold digits_of_abs. rewrite scan_digits_of_uint.
  change (Pos.of_uint (N.to_uint (Z.abs_N n))) with (N.of_uint (N.to_uint (Z.abs_N n))).
  rewrite DecimalN.Unsigned.of_to. f_equal. f_equal. f_equal; lia.
Qed.

Lemma format_03_digits n :
  0 <= n →
  format_03 n ≠ [] ∧ Forall (λ c, (0x30 <= c <= 0x39)%N) (format_03 n)
  ∧ scan_digits false 0 0%N (format_03 n)
    = Some (n, N.of_nat (length (format_03 n)), []).
Proof.
  intros H. unfold format_03. rewrite (proj2 (Z.ltb_ge n 0) H). cbn [app length].
  split_and!.
  - intros Hnil. apply app_eq_nil in Hnil as [_ Hnil].
    by apply digits_of_abs_not_nil in Hnil.
  - apply Forall_app. split; [|apply digits_of_uint_digits].
    apply Forall_forall. intros c Hc%list_elem_of_In%repeat_spec. lia.
  - rewrite scan_digits_of_abs, length_app, repeat_length.
    do 2 f_equal. f_equal. lia.
Qed.

(** Reading a formatted page number back: the sign, then the digits. *)
Lemma format_03_decodes n :
  match format_03 n with
  | c :: r =>
    if (c =? minus_sign)%N
    then option_map (λ x, - x.1.1) (scan_digits false 0 0%N r)
    else option_map (λ x, x.1.1) (scan_digits false 0 0%N (c :: r))
  | [] => None
  end = Some n.
Proof.
  destruct (Z.ltb_spec n 0) as [Hneg|Hpos].
  - rewrite (format_03_negative n Hneg). rewrite N.eqb_refl, scan_digits_of_abs.
    simpl. f_equal. lia.
  - destruct (format_03_digits n Hpos) as (Hnil & Hall & Hscan).
    destruct (format_03 n) as [|c r]; [done|].
    apply Forall_cons in Hall as [Hc _].
    destruct (N.eqb_spec c minus_sign) as [->|_]; [unfold minus_sign in Hc; lia|].
    by rewrite Hscan.
Qed.

(** X12: two page numbers have the same file only when they are equal:
    the name of the file, and its path, determine the page number. *)
Theorem pdf_path_injective (n m : Z) :
  (pdf_filename n = pdf_filename m → n = m)
  ∧ (pdf_path n = pdf_path m → n = m).
Proof.
  assert (format_03 n = format_03 m → n = m) as Hformat.
  { intros Heq. pose proof (format_03_decodes n) as Hn.
    rewrite Heq, format_03_decodes in Hn. by injection Hn. }
  split.
  - unfold pdf_filename. intros Heq. apply Hformat.
    apply app_inv_head, app_inv_tail in Heq. exact Heq.
  - rewrite !pdf_path_spelled. intros Heq. apply Hformat.
    apply app_inv_head, app_inv_tail in Heq. exact Heq.
Qed.

(** ** [int] on what the program prints *)

Lemma transform_ascii s :
  Forall (λ c, (c < 127)%N) s → transform_decimal_and_space_to_ascii s = Some s.
Proof.
  induction 1 as [|c r Hc _ IH]; simpl; [done|].
  unfold transform_char. rewrite (proj2 (N.ltb_lt c 127) Hc). by rewrite IH.
Qed.

Lemma long_from_string_digits s v :
  s ≠ [] → Forall (λ c, (0x30 <= c <= 0x39)%N) s →
  scan_digits false 0 0%N s = Some (v, N.of_nat (length s), []) →
  (N.of_nat (length s) <= int_max_str_digits)%N →
  long_from_string s = Some v
  ∧ long_from_string (minus_sign :: s) = Some (- v).
Proof.
  intros Hnil Hall Hscan Hlen. destruct s as [|c r]; [done|].
  pose proof Hall as Hc. apply Forall_cons in Hc as [Hc _].
  assert (Py_ISSPACE c = false) as Hspace.
  { unfold Py_ISSPACE. apply orb_false_iff. split.
    - apply andb_false_iff. right. apply N.leb_gt. lia.
    - apply N.eqb_neq. lia. }
  assert ((c =? 0x2B)%N = false) as Hplus by (apply N.eqb_neq; lia).
  assert ((c =? 0x2D)%N = false) as Hminus by (apply N.eqb_neq; lia).
  assert ((c =? underscore)%N = false) as Hunder
    by (apply N.eqb_neq; unfold underscore; lia).
  assert ((N.of_nat (length (c :: r)) =? 0)%N = false) as Hzero
    by (apply N.eqb_neq; simpl; lia).
  assert ((int_max_str_digits <? N.of_nat (length (c :: r)))%N = false) as Hmax
    by (apply N.ltb_ge; exact Hlen).
  split.
  - unfold long_from_string. cbn [skip_spaces]. rewrite Hspace, Hplus, Hminus, Hunder.
    rewrite Hscan, Hzero, Hmax. cbn [skip_spaces]. f_equal. lia.
  - unfold long_from_string. cbn [skip_spaces].
    change (Py_ISSPACE minus_sign) with false. cbv iota.
    change (minus_sign =? 0x2B)%N with false. change (minus_sign =? 0x2D)%N with true.
    cbv iota. rewrite Hunder, Hscan, Hzero, Hmax. cbn [skip_spaces]. done.
Qed.

(** X13: [int] reads back the integers that the program prints: for an
    integer of at most 4300 digits, [int] of its decimal text ([str], the
    captions and labels) and [int] of its zero-padded form (the file
    names) are the integer itself. *)
Theorem int_reads_printed_integers (n : Z)
    (Hdigits : (N.of_nat (length (digits_of_abs n)) <= int_max_str_digits)%N) :
  int (str_of_int n) = Some n
  ∧ int (format_03 n) = Some n.
Proof.
  assert (∀ k, (N.of_nat (k + length (digits_of_abs n)) <= int_max_str_digits)%N →
            long_from_string (repeat 0x30%N k ++ digits_of_abs n) = Some (Z.abs n)
            ∧ long_from_string (minus_sign :: repeat 0x30%N k ++ digits_of_abs n)
              = Some (- Z.abs n)) as Hlong.
  { intros k Hk. apply long_from_string_digits.
    - intros Hnil. apply app_eq_nil in Hnil as [_ Hnil].
      by apply digits_of_abs_not_nil in Hnil.
    - apply Forall_app. split; [|apply digits_of_uint_digits].
      apply Forall_forall. intros c Hc%list_elem_of_In%repeat_spec. lia.
    - rewrite scan_digits_of_abs, length_app, repeat_length. done.
    - by rewrite length_app, repeat_length. }
  assert (∀ k, Forall (λ c, (c < 127)%N) (repeat 0x30%N k ++ digits_of_abs n)) as Hascii.
  { intros k. apply Forall_app. split.
    - apply Forall_forall. intros c Hc%list_elem_of_In%repeat_spec. lia.
    - eapply Forall_impl; [apply digits_of_uint_digits|]. simpl. lia. }
  unfold int, str_of_int, format_03. destruct (Z.ltb_spec n 0) as [Hneg|Hpos].
  - split.
    + destruct (Hlong 0%nat Hdigits) as [_ H]. cbn [repeat app] in H.
      rewrite (transform_ascii (minus_sign :: digits_of_abs n)), H.
      * f_equal. lia.
      * constructor; [unfold minus_sign; lia|apply (Hascii 0%nat)].
    + cbn [app length].
      destruct (Hlong (3 - 1 - length (digits_of_abs n))%nat) as [_ H].
      { unfold int_max_str_digits in *. lia. }
      rewrite (transform_ascii (minus_sign :: _)), H.
      * f_equal. lia.
      * constructor; [unfold minus_sign; lia|apply Hascii].
  - split.
    + destruct (Hlong 0%nat Hdigits) as [H _]. cbn [repeat app] in H.
      rewrite (transform_ascii (digits_of_abs n)), H by apply (Hascii 0%nat).
      f_equal. lia.
    + cbn [app length].
      destruct (Hlong (3 - 0 - length (digits_of_abs n))%nat) as [H _].
      { unfold int_max_str_digits in *. lia. }
      rewrite transform_ascii, H by apply Hascii. f_equal. lia.
Qed.

Lemma int_reads_printed_integers_witness :
  int (str_of_int (-42)) = Some (-42) ∧ int (format_03 (-42)) = Some (-42).
Proof.
  exact (int_reads_printed_integers (-42) ltac:(vm_compute; discriminate)).
Defined.

(** ** The Section Resolver when names are unique *)

Lemma find_by_name_unique sections s :
  NoDup (map name sections) → s ∈ sections →
  find_by_name sections (Some (name s)) = Some s.
Proof.
  unfold find_by_name. induction sections as [|a sections IH]; simpl.
  - intros _ Hs. by apply elem_of_nil in Hs.
  - intros Hnodup Hs. apply NoDup_cons in Hnodup as [Ha Hnodup].
    apply elem_of_cons in Hs as [->|Hs].
    + by rewrite bool_decide_eq_true_2.
    + rewrite bool_decide_eq_false_2; [by apply IH|].
      intros Heq. apply Ha. rewrite Heq. apply list_elem_of_fmap. by exists s.
Qed.

Section Resolver.
Variable selected_index : pystr → nat.
Variable list_capacity : Z.

(** X14: when no two sections of the manifest have the same name, the
    pages resolved for the selected main section [m] are: the pages of [m]
    itself when its name does not start with the title of the second part;
    otherwise the pages of one of the sections offered as sub-sections of
    [m], whose name is kept as the name of the sub-section; and when no
    section is offered (the start of [m] is above its end and no section
    starts in between), the message "section not found" and no page. The
    pages of a section are what [get_page_numbers] gives for it: when that
    raises (a section too long for a list), the resolver raises the same
    exception, after the select box if there is one. *)
Theorem resolve_with_unique_names
    (sections : list section) (m : section) (ss : session_state)
    (Hunique : NoDup (map name sections))
    (Hm : m ∈ sections) :
  (startswith (name m) (py "XÂY DỰNG") = false →
     resolve selected_index list_capacity sections (name m) ss
     = Outcome (match get_page_numbers list_capacity m with
                | Ok page_numbers => Ok (Next (page_numbers, None))
                | Raise e => Raise e
                end) ss [])
  ∧ (startswith (name m) (py "XÂY DỰNG") = true → sub_sections sections m = [] →
       resolve selected_index list_capacity sections (name m) ss
       = Outcome (Ok (Return tt)) ss
           [st_sidebar_header (py "Chọn Phần Con");
            st_sidebar_selectbox (py "Chọn một phần con:") [];
            st_error SectionNotFound])
  ∧ (startswith (name m) (py "XÂY DỰNG") = true → sub_sections sections m ≠ [] →
       ∃ s, s ∈ sub_sections sections m
            ∧ resolve selected_index list_capacity sections (name m) ss
              = Outcome (match get_page_numbers list_capacity s with
                         | Ok page_numbers => Ok (Next (page_numbers, Some (name s)))
                         | Raise e => Raise e
                         end) ss
                  [st_sidebar_header (py "Chọn Phần Con");
                   st_sidebar_selectbox (py "Chọn một phần con:")
                     (map name (sub_sections sections m))]).
Proof.
  pose proof (find_by_name_unique sections m Hunique Hm) as Hfind.
  split_and!.
  - intros Hsel. by apply resolve_without_sub_sections.
  - intros Hsel Hempty. unfold resolve. rewrite Hsel, Hfind, Hempty. done.
  - intros Hsel Hsome. unfold resolve. rewrite Hsel, Hfind.
    destruct (selectbox_run selected_index (py "Chọn một phần con:")
                (map name (sub_sections sections m)) ss)
      as (choice & Hbox & _ & Hchoice).
    destruct Hchoice as (n & -> & Hn).
    { intros Hmap. apply Hsome. by apply fmap_nil_inv in Hmap. }
    apply list_elem_of_fmap in Hn as (s & -> & Hs). exists s. split; [done|].
    assert (s ∈ sections) as Hin.
    { unfold sub_sections in Hs. apply list_elem_of_In, filter_In in Hs as [Hs _].
      by apply list_elem_of_In. }
    rewrite bind_emit, (bind_ok _ _ _ _ _ _ Hbox).
    rewrite (find_by_name_unique sections s Hunique Hin).
    by destruct (get_page_numbers list_capacity s).
Qed.

End Resolver.

Lemma resolve_with_unique_names_witness :
  ∃ s, s ∈ sub_sections nested_manifest
             {| start := 3; end_ := 6; name := py "XÂY DỰNG" |}
       ∧ resolve (λ _, 1%nat) 1000 nested_manifest (py "XÂY DỰNG") ∅
         = Outcome (match get_page_numbers 1000 s with
                    | Ok page_numbers => Ok (Next (page_numbers, Some (name s)))
                    | Raise e => Raise e
                    end) ∅
             [st_sidebar_header (py "Chọn Phần Con");
              st_sidebar_selectbox (py "Chọn một phần con:")
                (map name (sub_sections nested_manifest
                             {| start := 3; end_ := 6; name := py "XÂY DỰNG" |}))].
Proof.
  exact (proj2 (proj2
    (resolve_with_unique_names (λ _, 1%nat) 1000 nested_manifest
       {| start := 3; end_ := 6; name := py "XÂY DỰNG" |} ∅
       (bool_decide_unpack (NoDup (map name nested_manifest)) I)
       ltac:(do 2 apply list_elem_of_further; apply list_elem_of_here)))
    eq_refl ltac:(discriminate)).
Defined.

Lemma show_page_shows_image_or_message_witness :
  ∃ img_bytes,
    value (pymupdf_render_page_as_image long_documents (pdf_path 3) 0 zoom_default ∅)
    = Ok img_bytes
    ∧ show_page page_4_missing long_documents zoom_default 3 ∅
      = Outcome (Ok tt) ∅
          (os_path_isfile (pdf_path 3)
           :: emitted (pymupdf_render_page_as_image long_documents (pdf_path 3) 0
                         zoom_default ∅)
           ++ [image_or_message img_bytes 3; st_markdown (py "---")]).
Proof.
  exact (show_page_shows_image_or_message page_4_missing long_documents
           zoom_default 3 ∅ eq_refl).
Defined.

(** ** The downloads of a round of the second loop *)

Section SecondLoopProperties.
Variable isfile : pystr → bool.
Variable read_bytes : pystr → result bytes.
Variable open_document : pystr → result Document.
Variable isalnum : pychar → bool.

(** X15: with the display of the text switched off, a round of the second
    loop shows no text area, offers no text download and reports no text
    download error; it does not depend on the name of the sub-section; it
    returns, whatever text areas the run has, and adds none; and the text
    of the page is extracted all the same when the file exists. *)
Theorem page_info_without_text
    (selected_sub_section_name other_name : option pystr)
    (text_areas : list pystr) (n : Z) (ss : session_state) :
  Forall shows_no_text
    (emitted (page_info isfile read_bytes open_document isalnum false
                selected_sub_section_name text_areas n ss))
  ∧ page_info isfile read_bytes open_document isalnum false selected_sub_section_name
      text_areas n ss
    = page_info isfile read_bytes open_document isalnum false other_name
        text_areas n ss
  ∧ value (page_info isfile read_bytes open_document isalnum false
             selected_sub_section_name text_areas n ss)
    = Ok text_areas
  ∧ (if isfile (pdf_path n)
     then call_pymupdf_parse_page (pdf_path n) 0
          ∈ emitted (page_info isfile read_bytes open_document isalnum false
                       selected_sub_section_name text_areas n ss)
     else ∀ p i, call_pymupdf_parse_page p i
                 ∉ emitted (page_info isfile read_bytes open_document isalnum false
                              selected_sub_section_name text_areas n ss)).
Proof.
  destruct (isfile (pdf_path n)) eqn:Hfile.
  - destruct (page_info_run isfile read_bytes open_document isalnum false
                selected_sub_section_name text_areas n ss Hfile)
      as (text & t & Hparse & ->).
    destruct (page_info_run isfile read_bytes open_document isalnum false
                other_name text_areas n ss Hfile) as (text' & t' & Hparse' & ->).
    rewrite Hparse in Hparse'. injection Hparse' as <- <-.
    cbn [andb]. split_and!; [|done|done|].
    + cbn [emitted app]. repeat apply Forall_cons_2; try done.
      apply Forall_app_2.
      * by eapply pymupdf_parse_page_Forall.
      * rewrite app_nil_r. unfold pdf_download_part.
        repeat apply Forall_cons_2; try done.
        destruct (read_bytes (pdf_path n)); [|done]. by vm_compute.
    + cbn [emitted]. do 2 apply list_elem_of_further. apply elem_of_app. left.
      destruct (pymupdf_parse_page_first open_document (pdf_path n)
                  page_number_default ss) as [t0 Ht0].
      rewrite Hparse in Ht0. cbn [emitted] in Ht0. rewrite Ht0.
      apply list_elem_of_here.
  - rewrite !(page_info_missing _ _ _ _ _ _ _ _ _ Hfile). split_and!; [|done|done|].
    + cbn [emitted]. by repeat apply Forall_cons_2.
    + intros p i Hin. cbn [emitted] in Hin.
      repeat (apply elem_of_cons in Hin as [Hin|Hin]; [done|]).
      by apply elem_of_nil in Hin.
Qed.

(** X16: a round of the second loop for a page whose file exists, with
    [page_text] the text extracted from the page. When the text is shown
    and [page_text] is the value of a text area created earlier in the run,
    the round raises at the text area: no download is offered and no
    download error is shown. In every other case the round returns; the
    bytes read from the file of the page are offered for download under the
    name [page_NNN.pdf] as [application/pdf], or, when reading the file
    raises, the error message is shown instead and no PDF download is
    offered; and with the text shown the round still comes to the download
    of the text, which is its last event. *)
Theorem page_info_pdf_download
    (show_text : bool) (selected_sub_section_name : option pystr)
    (text_areas : list pystr) (n : Z)
    (ss : session_state) (Hfile : isfile (pdf_path n) = true) :
  let run := page_info isfile read_bytes open_document isalnum show_text
               selected_sub_section_name text_areas n ss in
  ∃ page_text t_parse,
    pymupdf_parse_page open_document (pdf_path n) page_number_default ss
    = Outcome (Ok page_text) ss t_parse
    ∧ if show_text && bool_decide (page_text ∈ text_areas)
      then
        value run = Raise StreamlitDuplicateElementId
        ∧ (∀ label data file_name mime,
             st_download_button label data file_name mime ∉ emitted run)
        ∧ (∀ e, st_error (PdfDownloadError e) ∉ emitted run)
        ∧ (∀ e, st_error (TextDownloadError e) ∉ emitted run)
      else
        value run = Ok (if show_text then page_text :: text_areas else text_areas)
        ∧ match read_bytes (pdf_path n) with
          | Ok pdf_bytes =>
            st_download_button (py "📥 Tải Xuống Trang PDF") pdf_bytes
              (pdf_filename n) (py "application/pdf") ∈ emitted run
            ∧ ∀ e, st_error (PdfDownloadError e) ∉ emitted run
          | Raise e =>
            st_error (PdfDownloadError e) ∈ emitted run
            ∧ ∀ label data file_name,
                st_download_button label data file_name (py "application/pdf")
                ∉ emitted run
          end
        ∧ (show_text = true →
           last (emitted run)
           = Some (text_download_part isalnum n selected_sub_section_name page_text)).
Proof.
  intros run. subst run.
  destruct (page_info_run isfile read_bytes open_document isalnum show_text
              selected_sub_section_name text_areas n ss Hfile)
    as (text & t & Hparse & ->).
  exists text, t. split; [done|].
  destruct (show_text && bool_decide (text ∈ text_areas)) eqn:Hstop.
  { cbn [value emitted]. split_and!; [done| | |].
    - intros label data file_name mime.
      apply (not_elem_of_Forall
               (λ ev, ∀ l d f m, ev ≠ st_download_button l d f m));
        [|intros H; by apply (H label data file_name mime)].
      repeat apply Forall_cons_2; try done.
      by eapply pymupdf_parse_page_Forall.
    - intros e.
      apply (not_elem_of_Forall (λ ev, ∀ x, ev ≠ st_error (PdfDownloadError x)));
        [|intros H; by apply (H e)].
      repeat apply Forall_cons_2; try done.
      by eapply pymupdf_parse_page_Forall.
    - intros e.
      apply (not_elem_of_Forall (λ ev, ∀ x, ev ≠ st_error (TextDownloadError x)));
        [|intros H; by apply (H e)].
      repeat apply Forall_cons_2; try done.
      by eapply pymupdf_parse_page_Forall. }
  cbn [value emitted]. split_and!; [done| |].
  - destruct (read_bytes (pdf_path n)) as [pdf_bytes|e]; split.
    + do 2 apply list_elem_of_further. apply elem_of_app. right.
      apply elem_of_app. right. apply list_elem_of_further.
      unfold pdf_download_part. cbn [app].
      apply list_elem_of_further, list_elem_of_here.
    + intros e. apply (not_elem_of_Forall
                         (λ ev, ∀ x, ev ≠ st_error (PdfDownloadError x)));
        [|intros H; by apply (H e)].
      unfold pdf_download_part, text_download_part.
      destruct show_text, (encode_utf8 text), selected_sub_section_name.
      all: repeat first [ apply Forall_cons_2 | apply Forall_app_2
                        | apply Forall_nil_2 ]; try done.
      all: by eapply pymupdf_parse_page_Forall.
    + do 2 apply list_elem_of_further. apply elem_of_app. right.
      apply elem_of_app. right. apply list_elem_of_further.
      unfold pdf_download_part. cbn [app].
      apply list_elem_of_further, list_elem_of_here.
    + intros label data file_name.
      apply (not_elem_of_Forall
               (λ ev, ∀ l d f, ev ≠ st_download_button l d f (py "application/pdf")));
        [|intros H; by apply (H label data file_name)].
      unfold pdf_download_part, text_download_part.
      destruct show_text, (encode_utf8 text), selected_sub_section_name.
      all: repeat first [ apply Forall_cons_2 | apply Forall_app_2
                        | apply Forall_nil_2 ]; try done.
      all: try (by eapply pymupdf_parse_page_Forall).
      all: intros l d f [= _ _ _ H]; by vm_compute in H.
  - intros ->.
    repeat first [ rewrite last_cons | rewrite last_app ]. by cbn [last].
Qed.

End SecondLoopProperties.

Lemma page_info_pdf_download_witness :
  let run := page_info page_4_missing (λ _, Raise (OtherException (py "denied")))
               no_documents (λ _, false) true None [] 3 ∅ in
  ∃ page_text t_parse,
    pymupdf_parse_page no_documents (pdf_path 3) page_number_default ∅
    = Outcome (Ok page_text) ∅ t_parse
    ∧ if true && bool_decide (page_text ∈ [])
      then
        value run = Raise StreamlitDuplicateElementId
        ∧ (∀ label data file_name mime,
             st_download_button label data file_name mime ∉ emitted run)
        ∧ (∀ e, st_error (PdfDownloadError e) ∉ emitted run)
        ∧ (∀ e, st_error (TextDownloadError e) ∉ emitted run)
      else
        value run = Ok (if true then page_text :: [] else [])
        ∧ (st_error (PdfDownloadError (OtherException (py "denied"))) ∈ emitted run
           ∧ ∀ label data file_name,
               st_download_button label data file_name (py "application/pdf")
               ∉ emitted run)
        ∧ (true = true →
           last (emitted run)
           = Some (text_download_part (λ _, false) 3 None page_text)).
Proof.
  exact (page_info_pdf_download page_4_missing
           (λ _, Raise (OtherException (py "denied"))) no_documents (λ _, false)
           true None [] 3 ∅ eq_refl).
Defined.

(** ** The messages of the Manifest Parser *)

(** One round of the loop over the lines: a line on which [int] fails
    raises [ValueError] before anything is shown; any other line shows its
    warning, if it has one, and appends its record, if it has one. *)
Lemma parse_line_run sections line ss :
  (¬ line_fails line
   ∧ parse_line sections line ss
     = Outcome (Ok (match line_record line with
                    | Some r => sections ++ [r]
                    | None => sections
                    end))
         ss (match line_warning line with Some w => [w] | None => [] end))
  ∨ (line_fails line
     ∧ parse_line sections line ss = Outcome (Raise ValueError) ss []).
Proof.
  unfold parse_line, line_record, line_warning, line_fails.
  case_bool_decide as Hblank.
  - left. rewrite Hblank. split; [|done].
    intros (p0 & p1 & p2 & more & Hsplit & _). by vm_compute in Hsplit.
  - destruct (split hash (strip line)) as [|p0 [|p1 [|p2 more]]] eqn:Hs.
    1-3: left; split; [by intros (? & ? & ? & ? & ? & _)|done].
    unfold int_or_raise.
    destruct (int p0) as [a|] eqn:H0; [destruct (int p1) as [b|] eqn:H1|].
    + left. split; [|done].
      intros (? & ? & ? & ? & [= <- <- <- <-] & [?|?]); congruence.
    + right. split; [|done]. exists p0, p1, p2, more. auto.
    + right. split; [|done]. exists p0, p1, p2, more. auto.
Qed.

(** The loop over the lines, in full: the lines it went through, their
    records and their warnings, and the line that stopped it. *)
Lemma for_line_in_run f : ∀ sections ss,
  ∃ pre post,
    f = pre ++ post
    ∧ Forall (λ line, ¬ line_fails line) pre
    ∧ for_line_in sections f ss
      = Outcome (Ok (sections ++ omap line_record pre,
                     match post with [] => None | _ => Some ValueError end))
          ss (omap line_warning pre)
    ∧ match post with [] => True | line :: _ => line_fails line end.
Proof.
  induction f as [|line rest IH]; intros sections ss.
  - exists [], []. simpl. rewrite app_nil_r. by split_and!.
  - rewrite for_line_in_cons.
    destruct (parse_line_run sections line ss) as [[Hgood ->]|[Hbad ->]].
    + destruct (IH (match line_record line with
                    | Some r => sections ++ [r]
                    | None => sections
                    end) ss) as (pre & post & -> & Hpre & -> & Hpost).
      exists (line :: pre), post. cbn [value state_after emitted].
      split_and!; [done|by constructor| |done].
      change (line :: pre) with ([line] ++ pre). rewrite !omap_app. simpl.
      destruct (line_record line); [|done]. by rewrite <- app_assoc.
    + exists [], (line :: rest). simpl. rewrite app_nil_r. by split_and!.
Qed.

(** X17: what [parse_data_detail] shows for a file that opens. It goes
    through the lines up to the first one on which [int] fails; each line
    gone through that is not blank and has fewer than three fields gets one
    warning, in the order of the lines, and nothing else is shown for the
    lines. Then one message follows if a line stopped the loop (the read
    error with [ValueError]) or reading the file failed after the last
    line; no message follows otherwise. The list returned holds the records
    of the lines gone through. *)
Theorem parse_data_detail_messages
    (open_text : pystr → result text_stream) (file_path : pystr)
    (f : text_stream) (ss : session_state)
    (Hfile : open_text file_path = Ok f) :
  ∃ pre post,
    lines f = pre ++ post
    ∧ Forall (λ line, ¬ line_fails line) pre
    ∧ match post with [] => True | line :: _ => line_fails line end
    ∧ parse_data_detail open_text file_path ss
      = Outcome (Ok (omap line_record pre)) ss
          (open_file file_path (py "r")
           :: omap line_warning pre
           ++ match post, failure f with
              | _ :: _, _ => [st_error (ManifestReadError file_path ValueError)]
              | [], Some e => emitted (report_read_failure file_path e ss)
              | [], None => []
              end).
Proof.
  destruct (for_line_in_run (lines f) [] ss) as (pre & post & Hsplit & Hpre & Hrun & Hpost).
  exists pre, post. split_and!; try done.
  unfold parse_data_detail. rewrite Hfile, bind_emit.
  rewrite (bind_ok _ _ _ _ _ _ Hrun). cbn [value state_after emitted fst snd app].
  destruct post as [|line rest].
  - destruct (failure f) as [e|]; [|by rewrite !app_nil_r].
    by destruct e.
  - done.
Qed.

Lemma parse_data_detail_messages_witness :
  ∃ pre post,
    [py "1#2#A"; py "x#3#B"; py "4#5#C"] = pre ++ post
    ∧ Forall (λ line, ¬ line_fails line) pre
    ∧ match post with [] => True | line :: _ => line_fails line end
    ∧ parse_data_detail broken_manifest data_detail_path ∅
      = Outcome (Ok (omap line_record pre)) ∅
          (open_file data_detail_path (py "r")
           :: omap line_warning pre
           ++ match post, @None exn with
              | _ :: _, _ => [st_error (ManifestReadError data_detail_path ValueError)]
              | [], Some e => emitted (report_read_failure data_detail_path e ∅)
              | [], None => []
              end).
Proof.
  exact (parse_data_detail_messages broken_manifest data_detail_path
           {| lines := [py "1#2#A"; py "x#3#B"; py "4#5#C"]; failure := None |}
           ∅ eq_refl).
Defined.

(** ** The two loops of the Presentation Layer *)



Section Loops.
Variable isfile : pystr → bool.
Variable read_bytes : pystr → result bytes.
Variable open_document : pystr → result Document.
Variable isalnum : pychar → bool.

(** One round of the second loop, as the loop sees it: the file it checks,
    the call of the extractor, the text areas it leaves, and the one way in
    which it raises. *)
Lemma page_info_round show_text sub text_areas n ss :
  ∃ v t,
    page_info isfile read_bytes open_document isalnum show_text sub text_areas n ss
    = Outcome v ss t
    ∧ files_checked t = [pdf_path n]
    ∧ (isfile (pdf_path n) = true → call_pymupdf_parse_page (pdf_path n) 0 ∈ t)
    ∧ match v with
      | Ok text_areas' =>
        (show_text = false → text_areas' = text_areas)
        ∧ (∀ x, x ∈ text_areas' → x ∈ text_areas ∨ st_text_area text_area_label x ∈ t)
      | Raise e =>
        e = StreamlitDuplicateElementId
        ∧ show_text = true
        ∧ isfile (pdf_path n) = true
        ∧ ∃ page_text,
            value (pymupdf_parse_page open_document (pdf_path n)
                     page_number_default ss) = Ok page_text
            ∧ page_text ∈ text_areas
      end.
Proof.
  pose proof (page_info_keeps isfile read_bytes open_document isalnum show_text sub
                text_areas n ss) as Hk.
  pose proof (page_info_files isfile read_bytes open_document isalnum show_text sub
                text_areas n ss) as Hf.
  pose proof (page_info_calls_extractor isfile read_bytes open_document isalnum
                show_text sub text_areas n ss) as Hc.
  destruct (isfile (pdf_path n)) eqn:Hfile.
  - destruct (page_info_run isfile read_bytes open_document isalnum show_text sub
                text_areas n ss Hfile) as (text & tp & Hparse & Heq).
    rewrite Heq in Hk, Hf, Hc. rewrite Heq. clear Heq.
    destruct show_text; cbn [andb] in *.
    + case_bool_decide as Hdup; cbn [emitted] in *.
      * eexists _, _. split_and!; [done|done|by auto| ].
        split_and!; try done. exists text. by rewrite Hparse.
      * eexists _, _. split_and!; [done|done|by auto| ].
        split; [done|]. intros x [->|Hx]%elem_of_cons; [right|by left].
        do 2 apply list_elem_of_further. apply elem_of_app. right.
        apply list_elem_of_here.
    + cbn [emitted] in *. eexists _, _. split_and!; [done|done|by auto| ].
      split; [done|]. by left.
  - rewrite (page_info_missing _ _ _ _ _ _ _ _ _ Hfile) in Hf |- *.
    eexists _, _. split_and!; [done|done|done| ].
    split; [done|]. by left.
Qed.

(** The second loop: it goes through a first part of the pages, [k] of
    them, all of them when it returns; it raises only at a text area, in
    the round of the last page it reached, whose text is the value of a
    text area of the run. *)
Lemma second_loop_run show_text sub page_numbers : ∀ text_areas ss,
  ∃ v t k,
    for_each_with page_numbers text_areas
      (page_info isfile read_bytes open_document isalnum show_text sub) ss
    = Outcome v ss t
    ∧ files_checked t = map pdf_path (take k page_numbers)
    ∧ (∀ n, n ∈ take k page_numbers → isfile (pdf_path n) = true →
         call_pymupdf_parse_page (pdf_path n) 0 ∈ t)
    ∧ match v with
      | Ok text_areas' =>
        k = length page_numbers ∧ (show_text = false → text_areas' = text_areas)
      | Raise e =>
        e = StreamlitDuplicateElementId
        ∧ show_text = true
        ∧ ∃ n page_text,
            last (take k page_numbers) = Some n
            ∧ isfile (pdf_path n) = true
            ∧ value (pymupdf_parse_page open_document (pdf_path n)
                       page_number_default ss) = Ok page_text
            ∧ (page_text ∈ text_areas ∨ st_text_area text_area_label page_text ∈ t)
      end.
Proof.
  induction page_numbers as [|n0 rest IH]; intros text_areas ss.
  - exists (Ok text_areas), [], 0%nat. split_and!; try done.
    intros n Hn. by apply elem_of_nil in Hn.
  - destruct (page_info_round show_text sub text_areas n0 ss)
      as (v0 & t0 & Hrun0 & Hf0 & Hc0 & Hv0).
    cbn [for_each_with]. destruct v0 as [text_areas'|e].
    + destruct (IH text_areas' ss) as (v & t & k & Hrun & Hf & Hc & Hv).
      destruct Hv0 as [Hsame Hnew].
      exists v, (t0 ++ t), (S k). rewrite (bind_ok _ _ _ _ _ _ Hrun0), Hrun.
      cbn [value state_after emitted take]. split_and!.
      * done.
      * by rewrite files_checked_app, Hf0, Hf.
      * intros n [->|Hn]%elem_of_cons Hfile; apply elem_of_app; auto.
      * destruct v as [text_areas''|e].
        -- destruct Hv as [-> Hsame']. split; [done|].
           intros Hoff. by rewrite (Hsame' Hoff), (Hsame Hoff).
        -- destruct Hv as (-> & Hshow & n & text & Hlast & Hfile & Hparse & Hdup).
           split_and!; try done. exists n, text. split_and!; try done.
           ++ by rewrite last_cons, Hlast.
           ++ destruct Hdup as [Hdup|Hdup].
              ** destruct (Hnew _ Hdup) as [?|?]; [by left|right].
                 apply elem_of_app. by left.
              ** right. apply elem_of_app. by right.
    + destruct Hv0 as (-> & Hshow & Hfile & text & Hparse & Hdup).
      exists (Raise StreamlitDuplicateElementId), t0, 1%nat.
      rewrite (bind_raise _ _ _ _ _ _ Hrun0). cbn [take]. split_and!; try done.
      * intros n ->%list_elem_of_singleton. done.
      * exists n0, text. split_and!; try done. by left.
Qed.

End Loops.

(** ** The runs of [main] *)

Lemma get_page_numbers_raises list_capacity s e :
  get_page_numbers list_capacity s = Raise e → e = OverflowError ∨ e = MemoryError.
Proof.
  unfold get_page_numbers, list_of_range.
  destruct (sys_maxsize <? _); [intros [= <-]; by left|].
  destruct (list_capacity <? _); [intros [= <-]; by right|done].
Qed.

Lemma get_page_numbers_ascending list_capacity s page_numbers :
  get_page_numbers list_capacity s = Ok page_numbers →
  StronglySorted Z.lt page_numbers.
Proof.
  intros H. apply list_of_range_inv in H as [-> _]. apply range_ascending.
Qed.

Lemma find_by_name_elem sections selected s :
  find_by_name sections selected = Some s → s ∈ sections.
Proof.
  unfold find_by_name. destruct selected as [n|]; [|done].
  intros H. apply find_some in H as [H _]. by apply list_elem_of_In.
Qed.


Section WholeProgram.
Variable open_text : pystr → result text_stream.
Variable isfile : pystr → bool.
Variable read_bytes : pystr → result bytes.
Variable open_document : pystr → result Document.
Variable isalnum : pychar → bool.
Variable selected_index : pystr → nat.
Variable show_text_input : bool.
Variable zoom_input : float.
Variable list_capacity : Z.

Local Abbreviation main_run :=
  (main open_text isfile read_bytes open_document isalnum selected_index
     show_text_input zoom_input list_capacity).

Local Abbreviation present_run :=
  (present isfile read_bytes open_document isalnum show_text_input zoom_input).

Local Abbreviation first_loop page_numbers :=
  (for_each page_numbers (show_page isfile open_document zoom_input)).

Local Abbreviation second_loop sub page_numbers :=
  (for_each_with page_numbers []
     (page_info isfile read_bytes open_document isalnum show_text_input sub)).

(** *** What the parts of [main] show *)

Lemma for_line_in_emits (P : event → Prop) f :
  (∀ m, P (st_warning m)) → ∀ sections, emits_only P (for_line_in sections f).
Proof.
  intros Hw. induction f as [|line rest IH]; intros sections; simpl;
    [apply emits_ret|].
  apply emits_bind.
  - apply emits_attempt. unfold parse_line. repeat emits_step. all: apply Hw.
  - intros [secs|e]; [apply IH|apply emits_ret].
Qed.

Lemma parse_data_detail_emits (P : event → Prop) file_path :
  (∀ m, P (st_warning m)) → (∀ m, P (st_error m)) →
  (∀ path mode, P (open_file path mode)) →
  emits_only P (parse_data_detail open_text file_path).
Proof.
  intros Hw He Ho. unfold parse_data_detail, report_read_failure.
  repeat emits_step.
  all: try (by apply for_line_in_emits).
  all: repeat emits_step.
  all: auto.
Qed.

(** The Section Resolver in a run of [main]: it keeps the state, checks no
    file and enters no page function; the pages it gives are those of a
    section of the manifest, with the name of a sub-section when the
    selected name is one of the second part; and it raises only what
    [get_page_numbers] raises. *)
Lemma resolve_cases sections selected_main_section ss :
  selected_main_section ∈ map name sections →
  ∃ v t,
    resolve selected_index list_capacity sections selected_main_section ss
    = Outcome v ss t
    ∧ Forall no_page_call t
    ∧ files_checked t = []
    ∧ match v with
      | Ok (Return _) => True
      | Ok (Next (page_numbers, selected_sub_section_name)) =>
        (∃ s, s ∈ sections ∧ get_page_numbers list_capacity s = Ok page_numbers)
        ∧ (startswith selected_main_section (py "XÂY DỰNG") = true →
           is_Some selected_sub_section_name)
      | Raise e => ∃ s, s ∈ sections ∧ get_page_numbers list_capacity s = Raise e
      end.
Proof.
  intros Hn. destruct (find_by_name_of_section sections _ Hn) as [m Hm].
  pose proof (find_by_name_elem _ _ _ Hm) as Hmin.
  unfold resolve. rewrite Hm.
  destruct (startswith selected_main_section (py "XÂY DỰNG")) eqn:Hsel.
  - rewrite bind_emit.
    destruct (selectbox_run selected_index (py "Chọn một phần con:")
                (map name (sub_sections sections m)) ss) as (choice & Hrun & _ & _).
    rewrite (bind_ok _ _ _ _ _ _ Hrun).
    destruct (find_by_name sections choice) as [s|] eqn:Hs.
    + pose proof (find_by_name_elem _ _ _ Hs) as Hsin.
      destruct (get_page_numbers list_capacity s) as [pages|e] eqn:Hpages.
      * exists (Ok (Next (pages, choice))),
          [st_sidebar_header (py "Chọn Phần Con");
           st_sidebar_selectbox (py "Chọn một phần con:")
             (map name (sub_sections sections m))].
        split; [done|]. split_and!.
        -- by repeat constructor.
        -- done.
        -- by exists s.
        -- intros _. destruct choice; [by eexists|done].
      * exists (Raise e),
          [st_sidebar_header (py "Chọn Phần Con");
           st_sidebar_selectbox (py "Chọn một phần con:")
             (map name (sub_sections sections m))].
        split; [done|]. split_and!.
        -- by repeat constructor.
        -- done.
        -- by exists s.
    + exists (Ok (Return tt)),
        [st_sidebar_header (py "Chọn Phần Con");
         st_sidebar_selectbox (py "Chọn một phần con:")
           (map name (sub_sections sections m));
         st_error SectionNotFound].
      split; [done|]. split_and!; try done. by repeat constructor.
  - destruct (get_page_numbers list_capacity m) as [pages|e] eqn:Hpages.
    + exists (Ok (Next (pages, None))), []. split; [done|].
      split_and!; try done. by exists m.
    + exists (Raise e), []. split; [done|]. split_and!; try done. by exists m.
Qed.

(** The first loop returns and keeps the state. *)
Lemma first_loop_run page_numbers ss :
  first_loop page_numbers ss
  = Outcome (Ok tt) ss (emitted (first_loop page_numbers ss)).
Proof.
  destruct (returns_for_each page_numbers _
              (show_page_returns isfile open_document zoom_input) ss) as [[] Hv].
  pose proof (keeps_for_each page_numbers _
                (show_page_keeps isfile open_document zoom_input) ss) as Hk.
  rewrite <- (outcome_eta (first_loop page_numbers ss)) at 1.
  by rewrite Hv, Hk.
Qed.

(** The Presentation Layer: its statements in their order. *)
Lemma present_cases selected_main_section selected_sub_section_name page_numbers ss :
  (startswith selected_main_section (py "XÂY DỰNG") = true →
   is_Some selected_sub_section_name) →
  ∃ ss1 shown,
    ss1 = state_after (initialize_session_state
                         (PyInt (Z.of_nat (length page_numbers))) ss)
    ∧ present_run selected_main_section selected_sub_section_name page_numbers ss
      = Outcome
          (match value (second_loop selected_sub_section_name page_numbers ss1) with
           | Ok _ => Ok tt
           | Raise e => Raise e
           end)
          ss1
          (st_sidebar_header (py "Tùy Chọn Hiển Thị")
           :: st_sidebar_checkbox (py "Hiển Thị Văn Bản Đã Trích Xuất")
           :: st_sidebar_slider (py "Mức Thu Phóng")
           :: st_header (py "📄 " ++ shown)
           :: emitted (first_loop page_numbers ss1)
           ++ st_sidebar_header (py "Thông Tin Trang")
           :: emitted (second_loop selected_sub_section_name page_numbers ss1)).
Proof.
  intros Hsub.
  set (ss1 := state_after (initialize_session_state
                             (PyInt (Z.of_nat (length page_numbers))) ss)).
  assert (initialize_session_state (PyInt (Z.of_nat (length page_numbers))) ss
          = Outcome (Ok tt) ss1 []) as Hinit.
  { subst ss1. unfold initialize_session_state.
    by destruct (ss !! total_pages_key). }
  assert (∃ shown,
            (if startswith selected_main_section (py "XÂY DỰNG")
             then read_local selected_sub_section_name
             else ret selected_main_section) ss1
            = Outcome (Ok shown) ss1 []) as [shown Hshown].
  { destruct (startswith selected_main_section (py "XÂY DỰNG")).
    - destruct (Hsub eq_refl) as [x ->]. by exists x.
    - by exists selected_main_section. }
  exists ss1, shown. split; [done|].
  destruct (second_loop_run isfile read_bytes open_document isalnum show_text_input
              selected_sub_section_name page_numbers [] ss1)
    as (v & t & k & Hsecond & _).
  unfold present. rewrite (bind_ok _ _ _ _ _ _ Hinit), !bind_emit.
  rewrite (bind_ok _ _ _ _ _ _ Hshown), bind_emit.
  rewrite (bind_ok _ _ _ _ _ _ (first_loop_run page_numbers ss1)), bind_emit.
  rewrite Hsecond. cbn [value state_after emitted app].
  destruct v as [text_areas|e].
  - rewrite (bind_ok _ _ _ _ _ _ Hsecond). unfold ret.
    cbn [value state_after emitted]. by rewrite app_nil_r.
  - by rewrite (bind_raise _ _ _ _ _ _ Hsecond).
Qed.

(** A run of [main], branch by branch. *)
Lemma main_cases ss :
  ∃ sections t_parse,
    parse_data_detail open_text data_detail_path ss = Outcome (Ok sections) ss t_parse
    ∧ match sections with
      | [] =>
        main_run ss
        = Outcome (Ok tt) ss
            (st_set_page_config (py "NHÓM 1") :: st_title (py "NHÓM 1")
             :: t_parse ++ [st_error NoValidSections])
      | _ :: _ =>
        ∃ choice,
          selectbox selected_index (py "Chọn một phần chính:")
            (map name (main_sections sections)) ss
          = Outcome (Ok choice) ss
              [st_sidebar_selectbox (py "Chọn một phần chính:")
                 (map name (main_sections sections))]
          ∧ match choice with
            | None =>
              main_sections sections = []
              ∧ main_run ss
                = Outcome (Raise AttributeError) ss
                    (st_set_page_config (py "NHÓM 1") :: st_title (py "NHÓM 1")
                     :: t_parse
                     ++ [st_sidebar_header (py "Chọn Phần Chính");
                         st_sidebar_selectbox (py "Chọn một phần chính:")
                           (map name (main_sections sections))])
            | Some selected_main_section =>
              selected_main_section ∈ map name sections
              ∧ main_sections sections ≠ []
              ∧ ∃ v t_resolve,
                  resolve selected_index list_capacity sections
                    selected_main_section ss
                  = Outcome v ss t_resolve
                  ∧ main_run ss
                    = match v with
                      | Ok (Next (page_numbers, selected_sub_section_name)) =>
                        let shown := present_run selected_main_section
                                       selected_sub_section_name page_numbers ss in
                        Outcome (value shown) (state_after shown)
                          (st_set_page_config (py "NHÓM 1") :: st_title (py "NHÓM 1")
                           :: t_parse
                           ++ st_sidebar_header (py "Chọn Phần Chính")
                           :: st_sidebar_selectbox (py "Chọn một phần chính:")
                                (map name (main_sections sections))
                           :: t_resolve ++ emitted shown)
                      | Ok (Return _) =>
                        Outcome (Ok tt) ss
                          (st_set_page_config (py "NHÓM 1") :: st_title (py "NHÓM 1")
                           :: t_parse
                           ++ st_sidebar_header (py "Chọn Phần Chính")
                           :: st_sidebar_selectbox (py "Chọn một phần chính:")
                                (map name (main_sections sections))
                           :: t_resolve)
                      | Raise e =>
                        Outcome (Raise e) ss
                          (st_set_page_config (py "NHÓM 1") :: st_title (py "NHÓM 1")
                           :: t_parse
                           ++ st_sidebar_header (py "Chọn Phần Chính")
                           :: st_sidebar_selectbox (py "Chọn một phần chính:")
                                (map name (main_sections sections))
                           :: t_resolve)
                      end
            end
      end.
Proof.
  destruct (parse_data_detail_returns open_text data_detail_path ss) as [sections Hv].
  pose proof (parse_data_detail_keeps open_text data_detail_path ss) as Hk.
  destruct (parse_data_detail open_text data_detail_path ss) as [v ss1 t_parse] eqn:Hrun.
  cbn [value state_after] in *. subst v ss1.
  exists sections, t_parse. split; [done|].
  unfold main. rewrite !bind_emit, (bind_ok _ _ _ _ _ _ Hrun).
  destruct sections as [|s0 sections0] eqn:Hsections; [done|].
  rewrite <- Hsections. rewrite bind_emit.
  destruct (selectbox_run selected_index (py "Chọn một phần chính:")
              (map name (main_sections sections)) ss)
    as (choice & Hbox & Hnone & Hsome).
  exists choice. split; [done|].
  rewrite (bind_ok _ _ _ _ _ _ Hbox).
  destruct choice as [sel|].
  - assert (main_sections sections ≠ []) as Hmain.
    { intros Hempty. rewrite Hempty in Hnone. by specialize (Hnone eq_refl). }
    destruct Hsome as (sel' & [= <-] & Hsel).
    { intros Hmap. apply Hmain. by apply fmap_nil_inv in Hmap. }
    assert (sel ∈ map name sections) as Hin.
    { apply list_elem_of_fmap in Hsel as (m & -> & Hm).
      apply list_elem_of_fmap. exists m. split; [done|].
      unfold main_sections in Hm. apply list_elem_of_In, filter_In in Hm as [Hm _].
      by apply list_elem_of_In. }
    split_and!; [done|done|].
    destruct (resolve_cases sections sel ss Hin) as (v & t_res & Hres & _).
    exists v, t_res. split; [done|].
    destruct v as [[[]|[pages sub]]|e].
    + rewrite (bind_ok _ _ _ _ _ _ Hres). unfold ret.
      cbn [value state_after emitted app]. by rewrite app_nil_r.
    + rewrite (bind_ok _ _ _ _ _ _ Hres). by cbn [value state_after emitted app].
    + rewrite (bind_raise _ _ _ _ _ _ Hres). by cbn [value state_after emitted app].
  - split.
    + destruct (main_sections sections) as [|m ms] eqn:Hmain; [done|].
      by destruct Hsome as (n & ? & _).
    + unfold raise. by cbn [value state_after emitted app].
Qed.

End WholeProgram.

(** ** The Presentation Layer in a run of [main] *)

Section Presented.
Variable open_text : pystr → result text_stream.
Variable isfile : pystr → bool.
Variable read_bytes : pystr → result bytes.
Variable open_document : pystr → result Document.
Variable isalnum : pychar → bool.
Variable selected_index : pystr → nat.
Variable show_text_input : bool.
Variable zoom_input : float.
Variable list_capacity : Z.

Local Abbreviation main_run :=
  (main open_text isfile read_bytes open_document isalnum selected_index
     show_text_input zoom_input list_capacity).

Local Abbreviation first_loop page_numbers :=
  (for_each page_numbers (show_page isfile open_document zoom_input)).

Local Abbreviation second_loop sub page_numbers :=
  (for_each_with page_numbers []
     (page_info isfile read_bytes open_document isalnum show_text_input sub)).



(** A run of [main] that comes to the Presentation Layer: what it shows
    before the first loop, then the two loops. *)
Lemma main_presents ss sections selected_main_section page_numbers
    selected_sub_section_name :
  value (parse_data_detail open_text data_detail_path ss) = Ok sections →
  value (selectbox selected_index (py "Chọn một phần chính:")
           (map name (main_sections sections)) ss)
  = Ok (Some selected_main_section) →
  value (resolve selected_index list_capacity sections selected_main_section ss)
  = Ok (Next (page_numbers, selected_sub_section_name)) →
  ∃ t0 ss1,
    Forall no_page_call t0
    ∧ files_checked t0 = []
    ∧ (∃ s, s ∈ sections ∧ get_page_numbers list_capacity s = Ok page_numbers)
    ∧ main_run ss
      = Outcome
          (match value (second_loop selected_sub_section_name page_numbers ss1) with
           | Ok _ => Ok tt
           | Raise e => Raise e
           end)
          ss1
          (t0 ++ emitted (first_loop page_numbers ss1)
           ++ st_sidebar_header (py "Thông Tin Trang")
           :: emitted (second_loop selected_sub_section_name page_numbers ss1)).
Proof.
  intros Hparse Hsel Hres.
  destruct (main_cases open_text isfile read_bytes open_document isalnum
              selected_index show_text_input zoom_input list_capacity ss)
    as (sections' & t_parse & Hrun & Hmain).
  rewrite Hrun in Hparse. injection Hparse as ->.
  pose proof (parse_data_detail_emits open_text no_page_call data_detail_path
                ltac:(done) ltac:(done) ltac:(done) ss) as Hcalls.
  pose proof (parse_data_detail_emits open_text no_file_check data_detail_path
                ltac:(done) ltac:(done) ltac:(done) ss) as Hfiles.
  rewrite Hrun in Hcalls, Hfiles. cbn [emitted] in Hcalls, Hfiles.
  destruct sections as [|s0 sections0] eqn:Hsections.
  { exfalso. clear Hmain. revert Hsel. unfold selectbox. rewrite bind_emit. done. }
  rewrite <- Hsections in *. clear Hsections s0 sections0.
  destruct Hmain as (choice & Hbox & Hmain). rewrite Hbox in Hsel.
  injection Hsel as ->.
  destruct Hmain as (Hin & _ & v & t_res & Hresolve & Hmain).
  destruct (resolve_cases selected_index list_capacity sections
              selected_main_section ss Hin) as (v' & t' & Hresolve' & Hc & Hf & Hv).
  rewrite Hresolve in Hresolve'. injection Hresolve' as <- <-.
  rewrite Hresolve in Hres. cbn [value] in Hres. subst v.
  destruct Hv as [Hsection Hsub].
  destruct (present_cases isfile read_bytes open_document isalnum show_text_input
              zoom_input selected_main_section selected_sub_section_name
              page_numbers ss Hsub) as (ss1 & shown & _ & Hpresent).
  rewrite Hmain. cbn zeta. rewrite Hpresent. cbn [value state_after emitted].
  exists (st_set_page_config (py "NHÓM 1") :: st_title (py "NHÓM 1")
          :: t_parse
          ++ st_sidebar_header (py "Chọn Phần Chính")
          :: st_sidebar_selectbox (py "Chọn một phần chính:")
               (map name (main_sections sections))
          :: t_res
          ++ [st_sidebar_header (py "Tùy Chọn Hiển Thị");
              st_sidebar_checkbox (py "Hiển Thị Văn Bản Đã Trích Xuất");
              st_sidebar_slider (py "Mức Thu Phóng");
              st_header (py "📄 " ++ shown)]), ss1.
  split_and!.
  - repeat first [ apply Forall_cons_2 | apply Forall_app_2 | apply Forall_nil_2 ];
      done.
  - change (files_checked (?a :: ?b :: ?l)) with (files_checked l).
    rewrite files_checked_app, (files_checked_none _ Hfiles).
    change (files_checked (?a :: ?b :: ?l)) with (files_checked l).
    by rewrite files_checked_app, Hf.
  - done.
  - f_equal. cbn [app]. f_equal. f_equal. rewrite <- !app_assoc. f_equal.
    cbn [app]. f_equal. f_equal. by rewrite <- !app_assoc.
Qed.

(** C5, amended: in a run of [main] that comes to the Presentation Layer
    with the pages [page_numbers] of the selected section, the pages are in
    ascending order, and the first loop goes through all of them in that
    order: it checks the file [./data/page_NNN.pdf] of each, NNN being the
    page number in the format [03] (zeros up to three characters: three
    digits from 0 to 999, more digits above, and for a negative number the
    sign and two digits or more). A round whose file is missing shows the
    message and ends, and the loop goes on with the next page. The second
    loop checks the same files in the same order, for a first part of the
    pages: all of them when [main] returns, which it does when the text is
    not shown. [main] raises here only at a text area of the second loop. *)
Theorem C5_pages_visited_in_order
    (ss : session_state) (sections : list section) (selected_main_section : pystr)
    (page_numbers : list Z) (selected_sub_section_name : option pystr)
    (Hparse : value (parse_data_detail open_text data_detail_path ss) = Ok sections)
    (Hselect : value (selectbox selected_index (py "Chọn một phần chính:")
                        (map name (main_sections sections)) ss)
               = Ok (Some selected_main_section))
    (Hresolve : value (resolve selected_index list_capacity sections
                         selected_main_section ss)
                = Ok (Next (page_numbers, selected_sub_section_name))) :
  let run := main open_text isfile read_bytes open_document isalnum selected_index
               show_text_input zoom_input list_capacity ss in
  StronglySorted Z.lt page_numbers
  ∧ (∃ s, s ∈ sections ∧ get_page_numbers list_capacity s = Ok page_numbers)
  ∧ (∃ t0 t1 t2 ss1 k,
       emitted run = t0 ++ t1 ++ st_sidebar_header (py "Thông Tin Trang") :: t2
       ∧ files_checked t0 = []
       ∧ t1 = concat (map (λ n, emitted (show_page isfile open_document zoom_input
                                           n ss1)) page_numbers)
       ∧ files_checked t1 = map pdf_path page_numbers
       ∧ files_checked t2 = map pdf_path (take k page_numbers)
       ∧ (value run = Ok tt → k = length page_numbers)
       ∧ (show_text_input = false → value run = Ok tt)
       ∧ (∀ e, value run = Raise e →
            e = StreamlitDuplicateElementId ∧ show_text_input = true))
  ∧ (∀ n, pdf_path n = py "./data/page_" ++ format_03 n ++ py ".pdf")
  ∧ (∀ n, 0 <= n →
       format_03 n = repeat 0x30%N (3 - length (str_of_int n)) ++ str_of_int n)
  ∧ (∀ n, n < 0 →
       format_03 n
       = minus_sign :: repeat 0x30%N (2 - length (digits_of_abs n))
                       ++ digits_of_abs n)
  ∧ (∀ n, 0 <= n < 1000 →
       length (format_03 n) = 3%nat ∧ int (format_03 n) = Some n)
  ∧ (∀ n ss', isfile (pdf_path n) = false →
       show_page isfile open_document zoom_input n ss'
       = Outcome (Ok tt) ss'
           [os_path_isfile (pdf_path n);
            st_error (PdfFileMissing (pdf_filename n) data_dir)])
  ∧ (∀ n text_areas ss', isfile (pdf_path n) = false →
       page_info isfile read_bytes open_document isalnum show_text_input
         selected_sub_section_name text_areas n ss'
       = Outcome (Ok text_areas) ss'
           [st_sidebar_expander (py "📄 Trang " ++ str_of_int n);
            os_path_isfile (pdf_path n);
            st_error (PdfFileMissing (pdf_filename n) data_dir)]).
Proof.
  intros run. subst run.
  destruct (main_presents ss sections selected_main_section page_numbers
              selected_sub_section_name Hparse Hselect Hresolve)
    as (t0 & ss1 & _ & Hf0 & (s & Hs & Hpages) & ->).
  destruct (second_loop_run isfile read_bytes open_document isalnum show_text_input
              selected_sub_section_name page_numbers [] ss1)
    as (v & t2 & k & Hsecond & Hf2 & _ & Hv).
  rewrite Hsecond. cbn [value emitted]. split_and!.
  - by eapply get_page_numbers_ascending.
  - by exists s.
  - exists t0, (emitted (first_loop page_numbers ss1)), t2, ss1, k. split_and!.
    + done.
    + done.
    + apply emitted_for_each; [apply show_page_returns|apply show_page_keeps].
    + apply for_each_files;
        [apply show_page_returns|apply show_page_keeps|apply show_page_files].
    + done.
    + destruct v as [text_areas|e]; [|done]. by destruct Hv.
    + intros Hoff. destruct v as [text_areas|e]; [done|].
      destruct Hv as (_ & Hon & _). congruence.
    + intros e. destruct v as [text_areas|e']; [done|].
      intros [= <-]. by destruct Hv as (-> & Hon & _).
  - apply pdf_path_spelled.
  - apply format_03_nonneg.
  - apply format_03_negative.
  - apply format_03_below_1000.
  - intros n ss'. apply show_page_missing.
  - intros n text_areas ss'. apply page_info_missing.
Qed.


(** X7: the ways in which [main] raises. With no section in the manifest
    it returns. With sections but none whose name starts with one of the
    two titles, the main select box has no option and [main] raises
    [AttributeError]. Otherwise it raises in two ways only: the pages of a
    section cannot be listed ([OverflowError] or [MemoryError] of
    [get_page_numbers]), or, with the text shown, a page of the second loop
    has the text of a text area shown before it
    ([StreamlitDuplicateElementId]). So with a main section to select,
    sections that can all be listed and the text not shown, [main] returns,
    whatever the files and the PDF library do. *)
Theorem main_raises_in_three_ways
    (ss : session_state) (sections : list section)
    (Hparse : value (parse_data_detail open_text data_detail_path ss) = Ok sections) :
  let run := main open_text isfile read_bytes open_document isalnum selected_index
               show_text_input zoom_input list_capacity ss in
  (sections = [] → value run = Ok tt)
  ∧ (sections ≠ [] → main_sections sections = [] → value run = Raise AttributeError)
  ∧ (∀ e, value run = Raise e →
       (e = AttributeError ∧ sections ≠ [] ∧ main_sections sections = [])
       ∨ ((e = OverflowError ∨ e = MemoryError)
          ∧ ∃ s, s ∈ sections ∧ get_page_numbers list_capacity s = Raise e)
       ∨ (e = StreamlitDuplicateElementId
          ∧ show_text_input = true
          ∧ ∃ n page_text ss1,
              isfile (pdf_path n) = true
              ∧ value (pymupdf_parse_page open_document (pdf_path n)
                         page_number_default ss1) = Ok page_text
              ∧ st_text_area text_area_label page_text ∈ emitted run))
  ∧ (main_sections sections ≠ [] →
     (∀ s, s ∈ sections → ∃ page_numbers,
                            get_page_numbers list_capacity s = Ok page_numbers) →
     show_text_input = false →
     value run = Ok tt).
Proof.
  intros run.
  assert (∀ sel page_numbers sub,
            value (selectbox selected_index (py "Chọn một phần chính:")
                     (map name (main_sections sections)) ss) = Ok (Some sel) →
            value (resolve selected_index list_capacity sections sel ss)
            = Ok (Next (page_numbers, sub)) →
            (show_text_input = false → value run = Ok tt)
            ∧ (∀ e, value run = Raise e →
                 e = StreamlitDuplicateElementId
                 ∧ show_text_input = true
                 ∧ ∃ n page_text ss1,
                     isfile (pdf_path n) = true
                     ∧ value (pymupdf_parse_page open_document (pdf_path n)
                                page_number_default ss1) = Ok page_text
                     ∧ st_text_area text_area_label page_text ∈ emitted run))
    as Hpresented.
  { intros sel pages sub Hselect Hresolve. subst run.
    destruct (main_presents ss sections sel pages sub Hparse Hselect Hresolve)
      as (t0 & ss1 & _ & _ & _ & ->).
    destruct (second_loop_run isfile read_bytes open_document isalnum show_text_input
                sub pages [] ss1) as (v & t2 & k & Hsecond & _ & _ & Hv).
    rewrite Hsecond. cbn [value emitted]. split.
    - intros Hoff. destruct v as [text_areas|e]; [done|].
      destruct Hv as (_ & Hon & _). congruence.
    - intros e. destruct v as [text_areas|e']; [done|]. intros [= <-].
      destruct Hv as (-> & Hon & n & text & _ & Hfile & Htext & Hdup).
      split_and!; try done. exists n, text, ss1. split_and!; try done.
      destruct Hdup as [Hdup|Hdup]; [by apply elem_of_nil in Hdup|].
      apply elem_of_app. right. apply elem_of_app. right.
      by apply list_elem_of_further. }
  destruct (main_cases open_text isfile read_bytes open_document isalnum
              selected_index show_text_input zoom_input list_capacity ss)
    as (sections' & t_parse & Hrun & Hmain).
  rewrite Hrun in Hparse. injection Hparse as ->.
  destruct sections as [|s0 sections0] eqn:Hsections.
  { fold run in Hmain. rewrite Hmain. cbn [value]. by split_and!. }
  rewrite <- Hsections in *.
  assert (sections ≠ []) as Hsome by (by rewrite Hsections).
  clear Hsections s0 sections0.
  destruct Hmain as (choice & Hbox & Hmain). destruct choice as [sel|].
  - destruct Hmain as (Hin & Hmains & v & t_res & Hresolve & Hmain).
    fold run in Hmain.
    destruct (resolve_cases selected_index list_capacity sections sel ss Hin)
      as (v' & t' & Hresolve' & _ & _ & Hv).
    rewrite Hresolve in Hresolve'. injection Hresolve' as <- <-.
    destruct v as [[[]|[pages sub]]|e'].
    + rewrite Hmain. cbn [value]. by split_and!.
    + destruct (Hpresented sel pages sub) as [Hoff Hraise].
      { by rewrite Hbox. }
      { by rewrite Hresolve. }
      split_and!; try done.
      intros e He. right. right. by apply Hraise.
    + destruct Hv as (s & Hs & Hpages). rewrite Hmain. cbn [value]. split_and!.
      * done.
      * done.
      * intros e [= <-]. right. left. split; [|by exists s].
        by eapply get_page_numbers_raises.
      * intros _ Hall _. destruct (Hall s Hs) as [pages Hok]. congruence.
  - destruct Hmain as (Hmains & Hmain). fold run in Hmain.
    rewrite Hmain. cbn [value]. split_and!; try done.
    intros e [= <-]. by left.
Qed.

End Presented.

(** ** Runs of [main] at the example inputs *)

(** With the pages 3 to 5 resolved, the file of page 4 missing and a
    different text on every page, [main] returns; both loops check the three
    files, and the page functions are entered for the pages 3 and 5 only. *)
Example main_with_page_4_missing :
  let run := main pages_3_to_5_manifest page_4_missing (λ _, Ok [])
               numbered_documents (λ _, false) (λ _, 0%nat) true zoom_default
               1000 ∅ in
  value run = Ok tt
  ∧ files_checked (emitted run) = map pdf_path [3; 4; 5; 3; 4; 5]
  ∧ files_entered (emitted run) = map pdf_path [3; 5; 3; 5].
Proof. vm_compute. by split_and!. Qed.

(** With the same pages, every file present and no file that can be opened,
    the text of every page is empty: the second loop shows the text area of
    page 3 and raises at the text area of page 4; page 5 is not extracted. *)
Example main_with_equal_texts :
  let run := main pages_3_to_5_manifest (λ _, true) (λ _, Ok [])
               no_documents (λ _, false) (λ _, 0%nat) true zoom_default 1000 ∅ in
  value run = Raise StreamlitDuplicateElementId
  ∧ files_checked (emitted run) = map pdf_path [3; 4; 5; 3; 4]
  ∧ files_entered (emitted run) = map pdf_path [3; 4; 5; 3; 4].
Proof. vm_compute. by split_and!. Qed.

(** A main section of 2^63 pages: [main] raises [OverflowError] after the
    main select box. *)
Example main_with_a_section_too_long :
  value (main (λ _, Ok {| lines := [py "0#9223372036854775807#NHỮNG QUỐC GIA"];
                          failure := None |})
           (λ _, true) (λ _, Ok []) no_documents (λ _, false) (λ _, 0%nat)
           true zoom_default 1000 ∅)
  = Raise OverflowError.
Proof. vm_compute. reflexivity. Qed.

(** C5, as stated, fails: the manifest line [-5#-5#NHỮNG QUỐC GIA] gives a
    main section whose only page is -5, and both loops look for the file
    [./data/page_-05.pdf]: the sign takes one of the three places, and the
    number is not padded to three digits. *)
Lemma C5_three_digit_file_names_counterexample :
  value (parse_data_detail negative_manifest data_detail_path ∅)
  = Ok [ {| start := -5; end_ := -5; name := py "NHỮNG QUỐC GIA" |} ]
  ∧ value (main negative_manifest (λ _, true) (λ _, Ok []) numbered_documents
             (λ _, false) (λ _, 0%nat) false zoom_default 1000 ∅)
    = Ok tt
  ∧ files_checked
      (emitted (main negative_manifest (λ _, true) (λ _, Ok []) numbered_documents
                  (λ _, false) (λ _, 0%nat) false zoom_default 1000 ∅))
    = [py "./data/page_-05.pdf"; py "./data/page_-05.pdf"].
Proof. vm_compute. by split_and!. Qed.


Lemma C5_pages_visited_in_order_witness :
  let run := main pages_3_to_5_manifest page_4_missing (λ _, Ok [])
               numbered_documents (λ _, false) (λ _, 0%nat) true zoom_default
               1000 ∅ in
  ∃ t0 t1 t2 ss1 k,
    emitted run = t0 ++ t1 ++ st_sidebar_header (py "Thông Tin Trang") :: t2
    ∧ files_checked t0 = []
    ∧ t1 = concat (map (λ n, emitted (show_page page_4_missing numbered_documents
                                        zoom_default n ss1)) [3; 4; 5])
    ∧ files_checked t1 = map pdf_path [3; 4; 5]
    ∧ files_checked t2 = map pdf_path (take k [3; 4; 5])
    ∧ (value run = Ok tt → k = length [3; 4; 5])
    ∧ (true = false → value run = Ok tt)
    ∧ (∀ e, value run = Raise e → e = StreamlitDuplicateElementId ∧ true = true).
Proof.
  exact (proj1 (proj2 (proj2
    (C5_pages_visited_in_order pages_3_to_5_manifest page_4_missing (λ _, Ok [])
       numbered_documents (λ _, false) (λ _, 0%nat) true zoom_default 1000 ∅
       [ {| start := 3; end_ := 5; name := py "NHỮNG QUỐC GIA" |} ]
       (py "NHỮNG QUỐC GIA") [3; 4; 5] None
       ltac:(vm_compute; reflexivity) ltac:(vm_compute; reflexivity)
       ltac:(vm_compute; reflexivity))))).
Defined.


Lemma main_raises_in_three_ways_witness :
  value (main (λ _, Ok {| lines := [py "1#2#Preface"]; failure := None |})
           page_4_missing (λ _, Ok []) no_documents (λ _, false) (λ _, 0%nat)
           true zoom_default 1000 ∅)
  = Raise AttributeError.
Proof.
  exact (proj1 (proj2
    (main_raises_in_three_ways
       (λ _, Ok {| lines := [py "1#2#Preface"]; failure := None |})
       page_4_missing (λ _, Ok []) no_documents (λ _, false) (λ _, 0%nat)
       true zoom_default 1000 ∅
       [ {| start := 1; end_ := 2; name := py "Preface" |} ]
       ltac:(vm_compute; reflexivity)))
    ltac:(discriminate) ltac:(vm_compute; reflexivity)).
Defined.
